(** * peon-ping: the hook handler of [hooks/scripts/peon.py]

    A shallow embedding of the event handler ([main]) and of its helpers
    [load_json], [save_json], [pick_sound] and [check_annoyed], followed by
    the properties of the decision engine.

    Conventions of the embedding.
    - JSON documents are Python values ([pyval]); a Python [dict] is an
      association list in insertion order, with unique keys.
    - Numbers are rationals: [int] and [float] are not told apart, and
      arithmetic is exact. That is what the code computes where no
      rounding occurs; the statements about the burst detector name the
      timestamps for which that is so ([on_grid]).
    - A character of a string is a Unicode code point below 256; text
      with other characters is outside the model.
    - An uncaught Python exception is [Raise e]; the process then exits
      with status 1, a normal return of [main] exits with status 0.
    - The operating system is a [world]: what each file holds, the pause
      marker, the clock, the random generator and the focus check.
    - Side effects are recorded in a trace of [effect]s. *)

From Stdlib Require Import List String Ascii Bool Arith ZArith QArith Lia Lqa
  Sorted.
Import ListNotations.
Local Close Scope Q_scope.
Local Open Scope nat_scope.
Local Open Scope string_scope.
Local Open Scope list_scope.
Local Set Warnings "-register-all".

(* ------------------------------------------------------------------ *)
(** ** Python values and exceptions *)
(* ------------------------------------------------------------------ *)

Inductive pyval : Type :=
| PNone
| PBool (b : bool)
| PNum (q : Q)
| PStr (s : string)
| PList (l : list pyval)
| PDict (d : list (string * pyval)).

(** The exception classes that the handler can meet. *)
Inductive exn : Type :=
| FileNotFoundError
| PermissionError
| OSError
| JSONDecodeError
| UnicodeDecodeError
| ValueError
| AttributeError
| TypeError
| KeyError
| IndexError
| RecursionError.

Definition exn_eqb (a b : exn) : bool :=
  match a, b with
  | FileNotFoundError, FileNotFoundError | PermissionError, PermissionError
  | OSError, OSError | JSONDecodeError, JSONDecodeError
  | UnicodeDecodeError, UnicodeDecodeError | ValueError, ValueError
  | AttributeError, AttributeError | TypeError, TypeError
  | KeyError, KeyError | IndexError, IndexError
  | RecursionError, RecursionError => true
  | _, _ => false
  end.

(** Python's class hierarchy: [FileNotFoundError] and [PermissionError]
    derive from [OSError]; [JSONDecodeError] and [UnicodeDecodeError]
    derive from [ValueError]. *)
Definition parent (e : exn) : option exn :=
  match e with
  | FileNotFoundError | PermissionError => Some OSError
  | JSONDecodeError | UnicodeDecodeError => Some ValueError
  | _ => None
  end.

Definition isinstance (e c : exn) : bool :=
  exn_eqb e c ||
  match parent e with Some p => exn_eqb p c | None => false end.

(** [except (c1, c2, ...)] *)
Definition caught (e : exn) (classes : list exn) : bool :=
  existsb (isinstance e) classes.

Inductive res (A : Type) : Type :=
| Ok (a : A)
| Raise (e : exn).
Arguments Ok {A} a.
Arguments Raise {A} e.

Definition rbind {A B} (m : res A) (f : A -> res B) : res B :=
  match m with
  | Ok a => f a
  | Raise e => Raise e
  end.

Declare Scope py_scope.
Delimit Scope py_scope with py.
Notation "x <- m ;; k" := (rbind m (fun x => k))
  (at level 61, m at next level, right associativity) : py_scope.
Notation "' pat <- m ;; k" := (rbind m (fun x => match x with pat => k end))
  (at level 61, pat pattern, m at next level, right associativity) : py_scope.
Local Open Scope py_scope.

(* ------------------------------------------------------------------ *)
(** ** Python operations on values *)
(* ------------------------------------------------------------------ *)

(** [bool(v)] *)
Definition truthy (v : pyval) : bool :=
  match v with
  | PNone => false
  | PBool b => b
  | PNum q => negb (Qeq_bool q 0%Q)
  | PStr s => negb (String.eqb s "")
  | PList l => match l with [] => false | _ => true end
  | PDict d => match d with [] => false | _ => true end
  end.

(** A [bool] is an [int] in Python: [True == 1]. *)
Definition num_of (v : pyval) : option Q :=
  match v with
  | PNum q => Some q
  | PBool true => Some 1%Q
  | PBool false => Some 0%Q
  | _ => None
  end.

(** The operand of an arithmetic operator or of an ordering. *)
Definition as_num (v : pyval) : res Q :=
  match num_of v with
  | Some q => Ok q
  | None => Raise TypeError
  end.

Definition Qlt_b (x y : Q) : bool := negb (Qle_bool y x).

Fixpoint dict_get (k : string) (d : list (string * pyval)) : option pyval :=
  match d with
  | [] => None
  | (k', v) :: d' => if String.eqb k k' then Some v else dict_get k d'
  end.

(** [d[k] = v]: an existing key keeps its place, a new key goes last. *)
Fixpoint dict_set (k : string) (v : pyval) (d : list (string * pyval))
  : list (string * pyval) :=
  match d with
  | [] => [(k, v)]
  | (k', v') :: d' =>
      if String.eqb k k' then (k, v) :: d' else (k', v') :: dict_set k v d'
  end.

(** [a == b] *)
Fixpoint py_eqb (a b : pyval) {struct a} : bool :=
  match a, b with
  | PNone, PNone => true
  | PStr s, PStr t => String.eqb s t
  | PList l, PList m =>
      (fix all2 (l : list pyval) (m : list pyval) : bool :=
         match l, m with
         | [], [] => true
         | x :: l', y :: m' => py_eqb x y && all2 l' m'
         | _, _ => false
         end) l m
  | PDict d, PDict e =>
      Nat.eqb (List.length d) (List.length e) &&
      (fix sub (d : list (string * pyval)) : bool :=
         match d with
         | [] => true
         | (k, v) :: d' =>
             match dict_get k e with
             | Some v' => py_eqb v v'
             | None => false
             end && sub d'
         end) d
  | (PBool _ | PNum _), (PBool _ | PNum _) =>
      match num_of a, num_of b with
      | Some x, Some y => Qeq_bool x y
      | _, _ => false
      end
  | _, _ => false
  end.

(** [v.get(k, dflt)]: only a [dict] has the method. *)
Definition py_get (v : pyval) (k : string) (dflt : pyval) : res pyval :=
  match v with
  | PDict d => Ok (match dict_get k d with Some x => x | None => dflt end)
  | _ => Raise AttributeError
  end.

(** [v[k]] with a string key. *)
Definition py_index (v : pyval) (k : string) : res pyval :=
  match v with
  | PDict d => match dict_get k d with Some x => Ok x | None => Raise KeyError end
  | _ => Raise TypeError
  end.

Fixpoint chars (s : string) : list pyval :=
  match s with
  | EmptyString => []
  | String c r => PStr (String c EmptyString) :: chars r
  end.

(** [for x in v]: a list gives its items, a string its characters, a
    dict its keys. *)
Definition py_iter (v : pyval) : res (list pyval) :=
  match v with
  | PList l => Ok l
  | PStr s => Ok (chars s)
  | PDict d => Ok (map (fun kv => PStr (fst kv)) d)
  | _ => Raise TypeError
  end.

(** [len(v)] *)
Definition py_len (v : pyval) : res nat :=
  match v with
  | PList l => Ok (List.length l)
  | PStr s => Ok (String.length s)
  | PDict d => Ok (List.length d)
  | _ => Raise TypeError
  end.

(** Lists and dicts cannot be members of a [set]. *)
Definition hashable (v : pyval) : bool :=
  match v with
  | PList _ | PDict _ => false
  | _ => true
  end.

(** A [set] is a list without [==]-duplicates. Python leaves the
    iteration order of a set unspecified; the model keeps insertion order
    and the theorems speak of membership only. *)
Definition pyset : Type := list pyval.

Definition set_mem (x : pyval) (s : pyset) : bool := existsb (py_eqb x) s.

(** [x in s] hashes [x] first. *)
Definition py_in_set (x : pyval) (s : pyset) : res bool :=
  if hashable x then Ok (set_mem x s) else Raise TypeError.

(** [s.add(x)] *)
Definition set_add (x : pyval) (s : pyset) : res pyset :=
  if hashable x then Ok (if set_mem x s then s else s ++ [x])
  else Raise TypeError.

Fixpoint set_of_list (l : list pyval) (acc : pyset) : res pyset :=
  match l with
  | [] => Ok acc
  | x :: l' => acc' <- set_add x acc ;; set_of_list l' acc'
  end.

(** [set(v)] *)
Definition py_set (v : pyval) : res pyset :=
  items <- py_iter v ;; set_of_list items [].

(* ------------------------------------------------------------------ *)
(** ** Paths and strings ([os.path], [str]) *)
(* ------------------------------------------------------------------ *)

Definition is_slash (c : ascii) : bool := Ascii.eqb c "/"%char.

Fixpoint has_slash (p : string) : bool :=
  match p with
  | EmptyString => false
  | String c r => is_slash c || has_slash r
  end.

(** [os.path.basename] (POSIX): what follows the last [/]. *)
Fixpoint basename (p : string) : string :=
  match p with
  | EmptyString => EmptyString
  | String c r =>
      if has_slash r then basename r
      else if is_slash c then r else p
  end.

Fixpoint ends_with_slash (p : string) : bool :=
  match p with
  | EmptyString => false
  | String c EmptyString => is_slash c
  | String _ r => ends_with_slash r
  end.

(** [os.path.join(a, b)] (POSIX) on two strings. *)
Definition path_join (a b : string) : string :=
  match b with
  | String c _ =>
      if is_slash c then b
      else if String.eqb a "" || ends_with_slash a then a ++ b
      else a ++ "/" ++ b
  | EmptyString =>
      if String.eqb a "" || ends_with_slash a then a else a ++ "/"
  end.

(** [os.path.join(a, v)] where [v] comes from a document: anything but a
    string is a [TypeError]. *)
Definition os_path_join (a : string) (v : pyval) : res string :=
  match v with
  | PStr b => Ok (path_join a b)
  | _ => Raise TypeError
  end.

(** [c.isalnum()] on the code points below 256: the ASCII digits and
    letters, and in the upper half the letters (U+00AA, U+00B5, U+00BA,
    U+00C0 to U+00FF without the two signs U+00D7 and U+00F7) and the
    numeric characters (U+00B2, U+00B3, U+00B9, U+00BC to U+00BE). *)
Definition isalnum (c : ascii) : bool :=
  let n := nat_of_ascii c in
  (Nat.leb 48 n && Nat.leb n 57) || (Nat.leb 65 n && Nat.leb n 90)
  || (Nat.leb 97 n && Nat.leb n 122)
  || Nat.eqb n 170 || Nat.eqb n 178 || Nat.eqb n 179 || Nat.eqb n 181
  || Nat.eqb n 185 || Nat.eqb n 186 || (Nat.leb 188 n && Nat.leb n 190)
  || (Nat.leb 192 n && Nat.leb n 214) || (Nat.leb 216 n && Nat.leb n 246)
  || (Nat.leb 248 n && Nat.leb n 255).

(** [c in ' ._-'] *)
Definition is_project_punct (c : ascii) : bool :=
  Ascii.eqb c " "%char || Ascii.eqb c "."%char
  || Ascii.eqb c "_"%char || Ascii.eqb c "-"%char.

Fixpoint keep_chars (f : ascii -> bool) (s : string) : string :=
  match s with
  | EmptyString => EmptyString
  | String c r => if f c then String c (keep_chars f r) else keep_chars f r
  end.

(** Lines 321-323 of [main]:
    [project = os.path.basename(cwd) if cwd else 'claude'], then the
    characters that are alphanumeric or in [' ._-'], [or 'claude']. *)
Definition project_name (cwd : pyval) : res string :=
  raw <- (if truthy cwd then
            match cwd with
            | PStr p => Ok (basename p)
            | _ => Raise TypeError
            end
          else Ok "claude") ;;
  let kept := keep_chars (fun c => isalnum c || is_project_punct c) raw in
  Ok (if String.eqb kept "" then "claude" else kept).

(* ------------------------------------------------------------------ *)
(** ** The environment of one invocation *)
(* ------------------------------------------------------------------ *)

(** What a file on disk holds, told apart by what [open] and
    [json.load] do with it. *)
Inductive file_content : Type :=
| Missing                 (* no such file *)
| Unreadable              (* permission denied, a directory, an I/O error *)
| NotUtf8                 (* bytes that do not decode as UTF-8 *)
| NotJson                 (* text that the parser rejects with a
                             JSONDecodeError *)
| TooDeep                 (* text nested deeper than the parser's
                             recursion limit *)
| HugeInt                 (* text with an integer literal of more digits
                             than [int] converts (4300 by default) *)
| Json (v : pyval).       (* text that the parser turns into [v] *)

(** The body of the [try] of [load_json]:
    [with open(path, encoding='utf-8') as f: return json.load(f)]. *)
Definition read_json (f : file_content) : res pyval :=
  match f with
  | Missing => Raise FileNotFoundError
  | Unreadable => Raise PermissionError
  | NotUtf8 => Raise UnicodeDecodeError
  | NotJson => Raise JSONDecodeError
  | TooDeep => Raise RecursionError
  | HugeInt => Raise ValueError
  | Json v => Ok v
  end.

(** What the standard input holds, told apart in the same way. *)
Inductive stdin_content : Type :=
| StdinNotUtf8
| StdinNotJson
| StdinTooDeep
| StdinHugeInt
| StdinJson (v : pyval).

(** [json.loads(sys.stdin.read())] *)
Definition loads_stdin (s : stdin_content) : res pyval :=
  match s with
  | StdinNotUtf8 => Raise UnicodeDecodeError
  | StdinNotJson => Raise JSONDecodeError
  | StdinTooDeep => Raise RecursionError
  | StdinHugeInt => Raise ValueError
  | StdinJson v => Ok v
  end.

Record world : Type := {
  stdin_doc : stdin_content;
  config_file : file_content;          (* CONFIG_PATH, after seeding *)
  state_file : file_content;           (* STATE_PATH *)
  manifest_file : string -> file_content;  (* by path of openpeon.json *)
  paused_marker : bool;                (* os.path.exists(PAUSED_PATH) *)
  sound_exists : string -> bool;       (* os.path.isfile *)
  state_writable : bool;               (* can STATE_PATH be written *)
  clock : Q;                           (* time.time() *)
  rand : nat;                          (* the random generator's draw *)
  terminal_focused : bool;             (* is_terminal_focused() *)
  plugin_root : string                 (* PLUGIN_ROOT *)
}.

(** What the handler does to the outside. *)
Inductive effect : Type :=
| EStderr (line : string)                   (* print(..., file=sys.stderr) *)
| ETitle (bytes : string)                   (* sys.stdout.buffer.write *)
| EPlay (path : string) (volume : pyval)    (* play_sound *)
| ESave (doc : pyval)                       (* State file written *)
| ENotify (title msg : string).             (* show_notification *)

(** A computation with a trace: the effects so far and how it ended. *)
Definition run (A : Type) : Type := (list effect * res A)%type.

Definition ret {A} (a : A) : run A := ([], Ok a).
Definition lift {A} (r : res A) : run A := ([], r).
Definition emit (e : effect) : run unit := ([e], Ok tt).

Definition bind {A B} (m : run A) (f : A -> run B) : run B :=
  match snd m with
  | Ok a => (fst m ++ fst (f a), snd (f a))
  | Raise e => (fst m, Raise e)
  end.

Notation "x <~ m ;; k" := (bind m (fun x => k))
  (at level 61, m at next level, right associativity) : py_scope.

(** The exit status of the process. *)
Definition exit_code {A} (o : run A) : nat :=
  match snd o with
  | Ok _ => 0
  | Raise _ => 1
  end.

(* ------------------------------------------------------------------ *)
(** ** [load_json] and [save_json] *)
(* ------------------------------------------------------------------ *)

(** [def load_json(path, default=None)]: the file at [path] is given by
    its content. *)
Definition load_json (f : file_content) (default : pyval) : res pyval :=
  match read_json f with
  | Ok v => Ok v
  | Raise e =>
      if caught e [FileNotFoundError; JSONDecodeError; OSError]
      then Ok (match default with PNone => PDict [] | _ => default end)
      else Raise e
  end.

(** [save_json(STATE_PATH, data)]: nothing is caught. *)
Definition save_json (w : world) (data : pyval) : run unit :=
  if state_writable w then emit (ESave data) else lift (Raise OSError).

(* ------------------------------------------------------------------ *)
(** ** [check_annoyed]: the burst detector *)
(* ------------------------------------------------------------------ *)

(** A comprehension [[x for x in l if f(x)]] whose condition can raise. *)
Fixpoint filter_res {A} (f : A -> res bool) (l : list A) : res (list A) :=
  match l with
  | [] => Ok []
  | x :: l' =>
      b <- f x ;;
      r <- filter_res f l' ;;
      Ok (if b then x :: r else r)
  end.

(** [v[k] = x] with a string key. *)
Definition py_setitem (v : pyval) (k : string) (x : pyval) : res pyval :=
  match v with
  | PDict d => Ok (PDict (dict_set k x d))
  | _ => Raise TypeError
  end.

(** The condition of the comprehension: [now - t < window_sec], in exact
    arithmetic. The code subtracts doubles; the two agree on the
    timestamps of one binary grid ([on_grid] below), to which the
    statements about the burst detector are restricted. *)
Definition in_window (now : Q) (window_sec t : pyval) : res bool :=
  tq <- as_num t ;;
  wq <- as_num window_sec ;;
  Ok (Qlt_b (now - tq)%Q wq).

(** [def check_annoyed(state, threshold, window_sec)]; [now] is the one
    reading of [time.time()]. Returns the mutated state with the result. *)
Definition check_annoyed (now : Q) (state threshold window_sec : pyval)
  : res (pyval * bool) :=
  prior <- py_get state "prompt_timestamps" (PList []) ;;
  items <- py_iter prior ;;
  kept <- filter_res (in_window now window_sec) items ;;
  let ts := kept ++ [PNum now] in
  state' <- py_setitem state "prompt_timestamps" (PList ts) ;;
  th <- as_num threshold ;;
  Ok (state', Qle_bool th (inject_Z (Z.of_nat (List.length ts)))).

(* ------------------------------------------------------------------ *)
(** ** [pick_sound]: the repeat-avoiding selector *)
(* ------------------------------------------------------------------ *)

(** [random.choice(seq)] is [seq[i]] for a draw [i] below [len(seq)], and
    an [IndexError] on an empty sequence. *)
Definition random_choice (draw : nat) (seq : pyval) : res pyval :=
  match seq with
  | PList l =>
      match nth_error l (draw mod List.length l) with
      | Some x => Ok x
      | None => Raise IndexError
      end
  | PStr s =>
      match nth_error (chars s) (draw mod String.length s) with
      | Some x => Ok x
      | None => Raise IndexError
      end
  | PDict d =>
      match d with
      | [] => Raise IndexError
      | _ => Raise KeyError     (* an integer is never a key of a document *)
      end
  | _ => Raise TypeError
  end.

(** Line 208: [manifest.get('categories', {}).get(category, {})
    .get('sounds', [])]. *)
Definition manifest_sounds (manifest : pyval) (category : string) : res pyval :=
  cats <- py_get manifest "categories" (PDict []) ;;
  entry <- py_get cats category (PDict []) ;;
  py_get entry "sounds" (PList []).

(** Line 211: [state.get('last_played', {}).get(category, '')]. *)
Definition last_played_of (state : pyval) (category : string) : res pyval :=
  lp <- py_get state "last_played" (PDict []) ;;
  py_get lp category (PStr "").

(** Line 215: [state.setdefault('last_played', {})[category] = file]. *)
Definition set_last_played (state : pyval) (category : string) (file : pyval)
  : res pyval :=
  lp <- py_get state "last_played" (PDict []) ;;
  lp' <- py_setitem lp category file ;;
  py_setitem state "last_played" lp'.

(** Lines 212-213: the pool. *)
Definition sound_pool (sounds last : pyval) : res pyval :=
  n <- py_len sounds ;;
  if Nat.leb n 1 then Ok sounds
  else
    items <- py_iter sounds ;;
    kept <- filter_res
              (fun s => f <- py_index s "file" ;; Ok (negb (py_eqb f last)))
              items ;;
    Ok (PList kept).

(** [def pick_sound(pack_dir, category, state)]: returns the path (or
    [None]) with the mutated state. *)
Definition pick_sound (w : world) (pack_dir : string) (category : string)
    (state : pyval) : res (option string * pyval) :=
  manifest <- load_json (manifest_file w (path_join pack_dir "openpeon.json"))
                PNone ;;
  sounds <- manifest_sounds manifest category ;;
  if negb (truthy sounds) then Ok (None, state)
  else
    last <- last_played_of state category ;;
    pool <- sound_pool sounds last ;;
    pick <- random_choice (rand w) pool ;;
    file <- py_index pick "file" ;;
    state' <- set_last_played state category file ;;
    file' <- py_index pick "file" ;;
    path <- os_path_join pack_dir file' ;;
    Ok (Some path, state').

(* ------------------------------------------------------------------ *)
(** ** [main]: the hook handler *)
(* ------------------------------------------------------------------ *)

(** The fallback handed to [load_json(CONFIG_PATH, ...)], lines 289-293. *)
Definition default_config : pyval :=
  PDict [ ("enabled", PBool true);
          ("volume", PNum (1 # 2)%Q);
          ("active_pack", PStr "peon");
          ("desktop_notifications", PBool true);
          ("annoyed_threshold", PNum 3%Q);
          ("annoyed_window_seconds", PNum 10%Q);
          ("categories", PDict []) ].

(** The local variables of [main] that are live after line 327. *)
Record ctx : Type := {
  c_config : pyval;
  c_state : pyval;
  c_paused : bool;
  c_volume : pyval;
  c_active_pack : pyval;
  c_cat_config : pyval;
  c_desktop_notif : pyval;
  c_event_name : pyval;
  c_ntype : pyval;
  c_project : string
}.

(** Line 312: [set(state.get('agent_sessions', []))]. *)
Definition sessions_of (state : pyval) : res pyset :=
  listed <- py_get state "agent_sessions" (PList []) ;;
  py_set listed.

(** How lines 283-323 end. *)
Inductive gate : Type :=
| Ignored                 (* [return] with nothing done *)
| Marked (state : pyval)  (* the delegate path: save [state] and return *)
| Proceed (c : ctx).

(** Lines 289-323, from the parsed event on. *)
Definition gates (w : world) (event : pyval) : res gate :=
  config <- load_json (config_file w) default_config ;;
  state <- load_json (state_file w) PNone ;;
  enabled <- py_get config "enabled" (PBool true) ;;
  if negb (truthy enabled) then Ok Ignored
  else
    let paused := paused_marker w in
    volume <- py_get config "volume" (PNum (1 # 2)%Q) ;;
    active_pack <- py_get config "active_pack" (PStr "peon") ;;
    cat_config <- py_get config "categories" (PDict []) ;;
    desktop_notif <- py_get config "desktop_notifications" (PBool true) ;;
    event_name <- py_get event "hook_event_name" (PStr "") ;;
    ntype <- py_get event "notification_type" (PStr "") ;;
    cwd <- py_get event "cwd" (PStr "") ;;
    session_id <- py_get event "session_id" (PStr "") ;;
    perm_mode <- py_get event "permission_mode" (PStr "") ;;
    (* Suppress sounds for agent/delegate sessions *)
    agent_sessions <- sessions_of state ;;
    if py_eqb perm_mode (PStr "delegate") then
      agent_sessions' <- set_add session_id agent_sessions ;;
      state' <- py_setitem state "agent_sessions" (PList agent_sessions') ;;
      Ok (Marked state')
    else
      flagged <- py_in_set session_id agent_sessions ;;
      if flagged then Ok Ignored
      else
        project <- project_name cwd ;;
        Ok (Proceed {| c_config := config; c_state := state;
                       c_paused := paused; c_volume := volume;
                       c_active_pack := active_pack;
                       c_cat_config := cat_config;
                       c_desktop_notif := desktop_notif;
                       c_event_name := event_name; c_ntype := ntype;
                       c_project := project |}).

Definition paused_notice : string :=
  "peon-ping: sounds paused -- use 'peon --resume' or '/peon-ping-toggle' to unpause".

(** Lines 278-327. [ensure_user_data] only prepares the files that the
    world describes, and without a command-line option [handle_cli]
    returns [False]. The result is [None] when [main] has returned. *)
Definition prelude (w : world) : run (option ctx) :=
  match loads_stdin (stdin_doc w) with
  | Raise e =>
      if caught e [JSONDecodeError; ValueError] then ret None
      else lift (Raise e)
  | Ok event =>
      g <~ lift (gates w event) ;;
      match g with
      | Ignored => ret None
      | Marked state' => _ <~ save_json w state' ;; ret None
      | Proceed c =>
          _ <~ (if py_eqb (c_event_name c) (PStr "SessionStart") && c_paused c
                then emit (EStderr paused_notice) else ret tt) ;;
          ret (Some c)
      end
  end.

(** The outcome of the mapping of hook events to CESP categories. *)
Record decision : Type := {
  category : string;
  status : string;
  marker : string;
  notify : bool;
  msg : string
}.

(** Lines 329-368. [None] is the [return] of an unhandled event; the
    state comes back as [check_annoyed] left it. *)
Definition classify (w : world) (c : ctx) : res (option (decision * pyval)) :=
  let state := c_state c in
  let project := c_project c in
  if py_eqb (c_event_name c) (PStr "SessionStart") then
    Ok (Some ({| category := "session.start"; status := "ready";
                 marker := ""; notify := false; msg := "" |}, state))
  else if py_eqb (c_event_name c) (PStr "UserPromptSubmit") then
    threshold <- py_get (c_config c) "annoyed_threshold" (PNum 3%Q) ;;
    window <- py_get (c_config c) "annoyed_window_seconds" (PNum 10%Q) ;;
    spam <- py_get (c_cat_config c) "user.spam" (PBool true) ;;
    '(state1, burst) <- (if truthy spam
                         then check_annoyed (clock w) state threshold window
                         else Ok (state, false)) ;;
    if burst then
      Ok (Some ({| category := "user.spam"; status := "working";
                   marker := ""; notify := false; msg := "" |}, state1))
    else
      ack <- py_get (c_cat_config c) "task.acknowledge" (PBool true) ;;
      Ok (Some ({| category := if truthy ack then "task.acknowledge" else "";
                   status := "working";
                   marker := ""; notify := false; msg := "" |}, state1))
  else if py_eqb (c_event_name c) (PStr "Stop") then
    Ok (Some ({| category := "task.complete"; status := "done";
                 marker := "* "; notify := false; msg := "" |}, state))
  else if py_eqb (c_event_name c) (PStr "Notification") then
    if py_eqb (c_ntype c) (PStr "permission_prompt") then
      Ok (Some ({| category := "input.required"; status := "needs approval";
                   marker := "* "; notify := true;
                   msg := project ++ " -- A tool is waiting for your permission" |},
                state))
    else if py_eqb (c_ntype c) (PStr "idle_prompt") then
      Ok (Some ({| category := "task.complete"; status := "done";
                   marker := "* "; notify := true;
                   msg := project ++ " -- Ready for your next instruction" |},
                state))
    else Ok None
  else Ok None.

(** Lines 370-372: the category enabled check. *)
Definition category_check (cat_config : pyval) (d : decision) : res decision :=
  if String.eqb (category d) "" then Ok d
  else
    toggle <- py_get cat_config (category d) (PBool true) ;;
    Ok (if truthy toggle then d
        else {| category := ""; status := status d; marker := marker d;
                notify := notify d; msg := msg d |}).

(** Line 375. *)
Definition title_of (c : ctx) (d : decision) : string :=
  marker d ++ c_project c ++ ": " ++ status d.

(** Line 377: the escape sequence that sets the title. *)
Definition title_bytes (title : string) : string :=
  String (ascii_of_nat 27) ("]0;" ++ title ++ String (ascii_of_nat 7) "").

(** Lines 383-387. The call of [play_sound] is recorded as an effect;
    what it starts on the machine, and how it can fail there, is the
    matter of [play_step_on] below. *)
Definition play_step (w : world) (c : ctx) (d : decision) (state : pyval)
  : run pyval :=
  pack_dir <~ lift (os_path_join (path_join (plugin_root w) "packs")
                                 (c_active_pack c)) ;;
  if negb (String.eqb (category d) "") && negb (c_paused c) then
    r <~ lift (pick_sound w pack_dir (category d) state) ;;
    match fst r with
    | Some sound_file =>
        _ <~ (if negb (String.eqb sound_file "") && sound_exists w sound_file
              then emit (EPlay sound_file (c_volume c)) else ret tt) ;;
        ret (snd r)
    | None => ret (snd r)
    end
  else ret state.

(** Lines 374-393. A failure of the write to the terminal is swallowed by
    the handler; the trace records the write. The call of
    [show_notification] is recorded as an effect, and the answer of
    [is_terminal_focused] is the world's; what the two start on the
    machine, and how the first can fail there, is the matter of
    [finish_on] below. *)
Definition finish (w : world) (c : ctx) (d : decision) (state : pyval)
  : run unit :=
  let title := title_of c d in
  _ <~ emit (ETitle (title_bytes title)) ;;
  state' <~ play_step w c d state ;;
  _ <~ save_json w state' ;;
  if notify d && negb (c_paused c) && truthy (c_desktop_notif c)
     && negb (terminal_focused w)
  then emit (ENotify title (msg d))
  else ret tt.

(** Lines 329-372: the decision of the invocation. *)
Definition decide (w : world) (c : ctx) : res (option (decision * pyval)) :=
  r <- classify w c ;;
  match r with
  | None => Ok None
  | Some (d, state) =>
      d' <- category_check (c_cat_config c) d ;;
      Ok (Some (d', state))
  end.

(** Lines 329-393. *)
Definition body (w : world) (c : ctx) : run unit :=
  r <~ lift (decide w c) ;;
  match r with
  | None => ret tt
  | Some (d, state) => finish w c d state
  end.

(** [def main()] for an event-handling invocation. *)
Definition main (w : world) : run unit :=
  r <~ prelude w ;;
  match r with
  | None => ret tt
  | Some c => body w c
  end.

(* ------------------------------------------------------------------ *)
(** ** Typed views used by the statements *)
(* ------------------------------------------------------------------ *)

(** [event.get('session_id', '')] on an event object. *)
Definition session_of (ev : list (string * pyval)) : pyval :=
  match dict_get "session_id" ev with
  | Some v => v
  | None => PStr ""
  end.

(** The stored timestamps of a state object are the numbers [ts]. *)
Definition prior_timestamps (st : list (string * pyval)) (ts : list Q) : Prop :=
  dict_get "prompt_timestamps" st = Some (PList (map PNum ts))
  \/ (dict_get "prompt_timestamps" st = None /\ ts = []).

(** The numbers for which line 225 computes exactly: the non-negative
    multiples of [2^-k] below [2^(53-k)], for a [k] up to 1074. Each of
    them is a double (an integer among them converts to a double without
    rounding), and the difference of two of them is a multiple of [2^-k]
    of magnitude below [2^(53-k)], hence a double again: the subtraction
    of line 225 does not round and cannot overflow, and Python compares
    the difference with the window exactly, whether the window is an
    [int] or a [float]. *)
Definition on_grid (k : nat) (q : Q) : bool :=
  Nat.leb k 1074
  && Z.leb 0 (Qnum q)
  && Z.eqb ((Qnum q * 2 ^ Z.of_nat k) mod Zpos (Qden q)) 0
  && Z.ltb (Qnum q * 2 ^ Z.of_nat k) (2 ^ 53 * Zpos (Qden q)).

(** What the code keeps: the timestamps [t] with [now - t < window]. *)
Definition keep_recent (now window : Q) (ts : list Q) : list Q :=
  filter (fun t => Qlt_b (now - t)%Q window) ts.

(** The state that holds exactly the timestamps [ts]. *)
Definition state_with (ts : list Q) : pyval :=
  PDict [("prompt_timestamps", PList (map PNum ts))].

(** Three prompts in a row, arriving at [t1], [t2] and [t3]: the three
    answers of the burst detector. *)
Definition three_prompts (state threshold window : pyval) (t1 t2 t3 : Q)
  : res (bool * bool * bool) :=
  '(s1, b1) <- check_annoyed t1 state threshold window ;;
  '(s2, b2) <- check_annoyed t2 s1 threshold window ;;
  '(_, b3) <- check_annoyed t3 s2 threshold window ;;
  Ok (b1, b2, b3).

(** A manifest entry [{"file": f}]. *)
Definition sound_entry (f : string) : pyval := PDict [("file", PStr f)].

(** Every entry of a candidate list names its file by a string. *)
Definition names_file (e : pyval) : Prop :=
  exists f, py_index e "file" = Ok (PStr f).

(** The file of an entry, for entries that have one. *)
Definition entry_file (e : pyval) : pyval :=
  match py_index e "file" with
  | Ok f => f
  | Raise _ => PNone
  end.

(** The candidates that are left when [last] is excluded. *)
Definition excluding (last : pyval) (entries : list pyval) : list pyval :=
  filter (fun e => negb (py_eqb (entry_file e) last)) entries.

(** Is the effect a feedback to the user: a sound, a desktop
    notification or a terminal-title update. *)
Definition is_feedback (e : effect) : bool :=
  match e with
  | ETitle _ | EPlay _ _ | ENotify _ _ => true
  | EStderr _ | ESave _ => false
  end.

Definition is_play (e : effect) : bool :=
  match e with
  | EPlay _ _ => true
  | _ => false
  end.

(** Every member can be hashed. *)
Definition all_hashable (s : list pyval) : Prop :=
  Forall (fun v => hashable v = true) s.

(** The event is a [Stop] or an [idle_prompt] notification. *)
Definition completes (c : ctx) : Prop :=
  c_event_name c = PStr "Stop"
  \/ (c_event_name c = PStr "Notification" /\ c_ntype c = PStr "idle_prompt").

(** The burst detector as the specification words it: a timestamp is
    kept when it is not older than the window, that is when
    [now - t <= window]. *)
Definition spec_record_and_check (ts : list Q) (now threshold window : Q)
  : list Q * bool :=
  let kept := filter (fun t => Qle_bool (now - t)%Q window) ts ++ [now] in
  (kept, Qle_bool threshold (inject_Z (Z.of_nat (List.length kept)))).

(* ------------------------------------------------------------------ *)
(** ** Sample invocations *)
(* ------------------------------------------------------------------ *)

(** A fresh installation: no Config, no State, no pack, not paused, the
    terminal in the background. *)
Definition fresh_world (event : pyval) : world :=
  {| stdin_doc := StdinJson event;
     config_file := Missing;
     state_file := Missing;
     manifest_file := fun _ => Missing;
     paused_marker := false;
     sound_exists := fun _ => true;
     state_writable := true;
     clock := 1000%Q;
     rand := 0;
     terminal_focused := false;
     plugin_root := "/opt/peon-ping" |}.

Definition with_config (f : file_content) (w : world) : world :=
  {| stdin_doc := stdin_doc w; config_file := f;
     state_file := state_file w; manifest_file := manifest_file w;
     paused_marker := paused_marker w; sound_exists := sound_exists w;
     state_writable := state_writable w; clock := clock w; rand := rand w;
     terminal_focused := terminal_focused w; plugin_root := plugin_root w |}.

Definition with_state (f : file_content) (w : world) : world :=
  {| stdin_doc := stdin_doc w; config_file := config_file w;
     state_file := f; manifest_file := manifest_file w;
     paused_marker := paused_marker w; sound_exists := sound_exists w;
     state_writable := state_writable w; clock := clock w; rand := rand w;
     terminal_focused := terminal_focused w; plugin_root := plugin_root w |}.

Definition with_manifest (f : file_content) (w : world) : world :=
  {| stdin_doc := stdin_doc w; config_file := config_file w;
     state_file := state_file w; manifest_file := fun _ => f;
     paused_marker := paused_marker w; sound_exists := sound_exists w;
     state_writable := state_writable w; clock := clock w; rand := rand w;
     terminal_focused := terminal_focused w; plugin_root := plugin_root w |}.

Definition read_only_state (w : world) : world :=
  {| stdin_doc := stdin_doc w; config_file := config_file w;
     state_file := state_file w; manifest_file := manifest_file w;
     paused_marker := paused_marker w; sound_exists := sound_exists w;
     state_writable := false; clock := clock w; rand := rand w;
     terminal_focused := terminal_focused w; plugin_root := plugin_root w |}.

(** A pack whose category [cat] offers the files [files]. *)
Definition pack_with (cat : string) (files : list string) : pyval :=
  PDict [("categories",
          PDict [(cat, PDict [("sounds", PList (map sound_entry files))])])].

Definition stop_event : pyval := PDict [("hook_event_name", PStr "Stop")].

Definition prompt_event : pyval :=
  PDict [("hook_event_name", PStr "UserPromptSubmit")].

Definition delegate_event (sid : string) : pyval :=
  PDict [("hook_event_name", PStr "Stop"); ("session_id", PStr sid);
         ("permission_mode", PStr "delegate")].

Definition anonymous_delegate_event : pyval :=
  PDict [("hook_event_name", PStr "Stop");
         ("permission_mode", PStr "delegate")].

(** The event of the end-to-end scenario. *)
Definition permission_event : pyval :=
  PDict [("hook_event_name", PStr "Notification");
         ("notification_type", PStr "permission_prompt");
         ("cwd", PStr "/home/u/myproj")].



(** The locals of [main] after the gates on a fresh installation whose
    Config document is [config], with the toggles [cats], for an event
    named [name] of type [ntype] that carries no working directory. *)
Definition loaded_ctx (config cats : pyval) (name ntype : string) : ctx :=
  {| c_config := config; c_state := PDict []; c_paused := false;
     c_volume := PNum (1 # 2)%Q; c_active_pack := PStr "peon";
     c_cat_config := cats; c_desktop_notif := PBool true;
     c_event_name := PStr name; c_ntype := PStr ntype;
     c_project := "claude" |}.

(** A Config document that only sets the toggle of [cat] to false. *)
Definition toggle_off (cat : string) : pyval :=
  PDict [("categories", PDict [(cat, PBool false)])].

(** A prompt with [user.spam] switched off and one stored timestamp. *)
Definition spam_off_world : world :=
  with_config
    (Json (PDict [("categories", PDict [("user.spam", PBool false)])]))
    (with_state (Json (state_with [995%Q])) (fresh_world prompt_event)).

(** The feature switched off, and an event in delegate mode. *)
Definition disabled_delegate_world : world :=
  with_config (Json (PDict [("enabled", PBool false)]))
    (fresh_world (delegate_event "s1")).

(** The feature switched off, and an event in delegate mode that names
    no session. *)
Definition disabled_anonymous_world : world :=
  with_config (Json (PDict [("enabled", PBool false)]))
    (fresh_world anonymous_delegate_event).

(** The file that the category played last. *)
Definition worn_out_state : pyval :=
  PDict [("last_played", PDict [("task.complete", PStr "done.wav")])].


(** Two candidates that carry the same file. *)
Definition worn_out_pack : pyval :=
  PDict [("categories",
          PDict [("task.complete",
                  PDict [("sounds",
                          PList [PDict [("file", PStr "done.wav");
                                        ("label", PStr "Work complete")];
                                 PDict [("file", PStr "done.wav");
                                        ("label", PStr "Job done")]])])])].

(* ------------------------------------------------------------------ *)
(** ** Further definitions: the rest of the handler *)
(* ------------------------------------------------------------------ *)

(** [event.get(key, '')] on an event object. *)
Definition field_of (ev : list (string * pyval)) (key : string) : pyval :=
  match dict_get key ev with
  | Some v => v
  | None => PStr ""
  end.

(** The order in which [main] produces its effects. *)
Definition effect_rank (e : effect) : nat :=
  match e with
  | EStderr _ => 0
  | ETitle _ => 1
  | EPlay _ _ => 2
  | ESave _ => 3
  | ENotify _ _ => 4
  end.

(** The notice of lines 325-327. *)
Definition notice_of (c : ctx) : list effect :=
  if py_eqb (c_event_name c) (PStr "SessionStart") && c_paused c
  then [EStderr paused_notice] else [].

(** The five rows of the mapping of lines 336-368 with the check of lines
    370-372: what is decided for which event. *)
Inductive decided (c : ctx) (d : decision) : Prop :=
| DecSessionStart :
    c_event_name c = PStr "SessionStart" ->
    status d = "ready" -> marker d = "" -> notify d = false ->
    category d = "session.start" \/ category d = "" ->
    decided c d
| DecPrompt :
    c_event_name c = PStr "UserPromptSubmit" ->
    status d = "working" -> marker d = "" -> notify d = false ->
    category d = "user.spam" \/ category d = "task.acknowledge"
    \/ category d = "" ->
    decided c d
| DecStop :
    c_event_name c = PStr "Stop" ->
    status d = "done" -> marker d = "* " -> notify d = false ->
    category d = "task.complete" \/ category d = "" ->
    decided c d
| DecPermission :
    c_event_name c = PStr "Notification" ->
    c_ntype c = PStr "permission_prompt" ->
    status d = "needs approval" -> marker d = "* " -> notify d = true ->
    msg d = (c_project c ++ " -- A tool is waiting for your permission")%string ->
    category d = "input.required" \/ category d = "" ->
    decided c d
| DecIdle :
    c_event_name c = PStr "Notification" ->
    c_ntype c = PStr "idle_prompt" ->
    status d = "done" -> marker d = "* " -> notify d = true ->
    msg d = (c_project c ++ " -- Ready for your next instruction")%string ->
    category d = "task.complete" \/ category d = "" ->
    decided c d.

Definition is_notify (e : effect) : bool :=
  match e with
  | ENotify _ _ => true
  | _ => false
  end.

(** A paused installation that receives a [Stop] event. *)
Definition paused_world : world :=
  {| stdin_doc := StdinJson stop_event;
     config_file := Missing;
     state_file := Missing;
     manifest_file := fun _ => Json (pack_with "task.complete" ["done.wav"]);
     paused_marker := true;
     sound_exists := fun _ => true;
     state_writable := true;
     clock := 1000%Q;
     rand := 0;
     terminal_focused := false;
     plugin_root := "/opt/peon-ping" |}.

(** A State with a key that the handler does not know. *)
Definition annotated_state : pyval :=
  PDict [("note", PStr "kept"); ("agent_sessions", PList [PStr "s0"])].

(** The pack offers nothing for the category: no manifest that can be
    read as JSON, or no [categories], no such category, no [sounds] or a
    falsy [sounds] in it. *)
Definition offers_nothing (f : file_content) (cat : string) : Prop :=
  f = Missing \/ f = Unreadable \/ f = NotJson
  \/ exists m,
       f = Json (PDict m)
       /\ (dict_get "categories" m = None
           \/ exists cats,
                dict_get "categories" m = Some (PDict cats)
                /\ (dict_get cat cats = None
                    \/ exists entry,
                         dict_get cat cats = Some (PDict entry)
                         /\ (dict_get "sounds" entry = None
                             \/ exists sounds,
                                  dict_get "sounds" entry = Some sounds
                                  /\ truthy sounds = false))).

(** Do all characters of the string satisfy [f]? *)
Fixpoint string_all (f : ascii -> bool) (s : string) : bool :=
  match s with
  | EmptyString => true
  | String c r => f c && string_all f r
  end.

(** The characters that line 323 keeps. *)
Definition project_char (c : ascii) : bool := isalnum c || is_project_punct c.

(** The characters of a title or of a notification. *)
Definition title_char (c : ascii) : bool :=
  project_char c || Ascii.eqb c ":"%char || Ascii.eqb c "*"%char.

(** An event whose working directory tries to break out of the title. *)
Definition hostile_event : pyval :=
  PDict [("hook_event_name", PStr "Notification");
         ("notification_type", PStr "idle_prompt");
         ("cwd", PStr (String (ascii_of_nat 34)
                         (String (ascii_of_nat 7) "; rm -rf $HOME")))].










(* ------------------------------------------------------------------ *)
(** ** The command line, the user data and the host *)
(* ------------------------------------------------------------------ *)

(** [main] above is the event-handling part of [def main()]. What
    follows embeds the rest of the script: [ensure_user_data] and
    [handle_cli], which run before it, and [play_sound],
    [is_terminal_focused] and [show_notification], which carry out its
    effects on the machine.
    - [str.lower], [str.strip] and [str.isspace] are modelled on the
      code points below 256.
    - A program started by a bare name ([afplay], [osascript],
      [powershell]) is looked up as [shutil.which] does; when it is not
      found [subprocess.Popen] raises [FileNotFoundError].
    - [int(volume * 100)] is left to the host ([h_int_percent]): float
      arithmetic is not modelled.
    - The call of [winsound.PlaySound] and the [subprocess.run] of the
      focus query are recorded as attempts; their failure is swallowed
      by the script.
    - Permissions are those of a POSIX file system. *)

(** The user data directory [USER_DATA], as far as the script looks at
    it: the Config file, the pause marker, and whether the directory can
    be made and written. *)
Record user_data : Type := {
  ud_dir_ok : bool;          (* os.makedirs(USER_DATA, exist_ok=True) works *)
  ud_writable : bool;        (* the directory can be written: files in it
                                can be created and removed *)
  ud_config : file_content;  (* CONFIG_PATH *)
  ud_paused : bool;          (* os.path.exists(PAUSED_PATH) *)
  ud_marker_writable : bool  (* a marker that exists can be opened for
                                writing *)
}.

Definition set_config (f : file_content) (u : user_data) : user_data :=
  {| ud_dir_ok := ud_dir_ok u; ud_writable := ud_writable u;
     ud_config := f; ud_paused := ud_paused u;
     ud_marker_writable := ud_marker_writable u |}.

Definition set_paused (b : bool) (u : user_data) : user_data :=
  {| ud_dir_ok := ud_dir_ok u; ud_writable := ud_writable u;
     ud_config := ud_config u; ud_paused := b;
     ud_marker_writable := ud_marker_writable u |}.

(** [os.path.exists] on a file given by its content. *)
Definition path_exists (f : file_content) : bool :=
  match f with
  | Missing => false
  | _ => true
  end.

(** [shutil.copy2(DEFAULT_CONFIG, CONFIG_PATH)]: the source is read as
    bytes, whatever they are. *)
Definition copy2 (src : file_content) (u : user_data) : res user_data :=
  match src with
  | Missing => Raise FileNotFoundError
  | Unreadable => Raise PermissionError
  | _ => if ud_writable u then Ok (set_config src u)
         else Raise PermissionError
  end.

(** [def ensure_user_data()], lines 38-42; [packaged] is what
    [DEFAULT_CONFIG] holds. *)
Definition ensure_user_data (packaged : file_content) (u : user_data)
  : res user_data :=
  if negb (ud_dir_ok u) then Raise OSError
  else if negb (path_exists (ud_config u)) && path_exists packaged
  then copy2 packaged u
  else Ok u.

(** [open(PAUSED_PATH, 'w').close()]: a marker that exists is opened
    and truncated, which asks for write permission on the file; a
    marker that does not exist is created, which asks for write
    permission on the directory. *)
Definition create_marker (u : user_data) : res user_data :=
  if ud_paused u then
    if ud_marker_writable u then Ok u else Raise PermissionError
  else
    if ud_writable u then Ok (set_paused true u) else Raise PermissionError.

(** [os.remove(PAUSED_PATH)]: removing asks for write permission on the
    directory. *)
Definition remove_marker (u : user_data) : res user_data :=
  if negb (ud_paused u) then Raise FileNotFoundError
  else if ud_writable u then Ok (set_paused false u)
  else Raise PermissionError.

(** A piece of a text that the script builds: a literal, [str(v)] of a
    value, or [str(n)] of an integer. *)
Inductive piece : Type :=
| Lit (s : string)
| StrOf (v : pyval)
| IntOf (z : Z).

(** How [handle_cli] ends. *)
Inductive cli_end : Type :=
| Handled                 (* return True *)
| NotHandled              (* return False *)
| SysExit (status : nat)  (* sys.exit(status) *)
| Uncaught (e : exn).

Record cli_run : Type := {
  cli_stdout : list (list piece);   (* the lines printed *)
  cli_stderr : list (list piece);
  cli_data : user_data;             (* the user data afterwards *)
  cli_result : cli_end
}.

Definition quiet (u : user_data) (r : cli_end) : cli_run :=
  {| cli_stdout := []; cli_stderr := []; cli_data := u; cli_result := r |}.

(** [print(line)] followed by [return True]. *)
Definition said (line : string) (u : user_data) : cli_run :=
  {| cli_stdout := [[Lit line]]; cli_stderr := []; cli_data := u;
     cli_result := Handled |}.

Definition paused_line : string := "peon-ping: sounds paused".

Definition resumed_line : string := "peon-ping: sounds resumed".

Definition usage_line : string :=
  "Usage: peon --pause | --resume | --toggle | --status".

(** Lines 258-260. *)
Definition status_fields (u : user_data) : res (pyval * pyval) :=
  config <- load_json (ud_config u) PNone ;;
  pack <- py_get config "active_pack" (PStr "peon") ;;
  vol <- py_get config "volume" (PNum (1 # 2)%Q) ;;
  Ok (pack, vol).

(** [def handle_cli()], lines 235-270; [argv] is [sys.argv]. *)
Definition handle_cli (argv : list string) (u : user_data) : cli_run :=
  match argv with
  | _ :: cmd :: _ =>
      if String.eqb cmd "--pause" then
        match create_marker u with
        | Ok u' => said paused_line u'
        | Raise e => quiet u (Uncaught e)
        end
      else if String.eqb cmd "--resume" then
        match remove_marker u with
        | Ok u' => said resumed_line u'
        | Raise e =>
            if caught e [FileNotFoundError] then said resumed_line u
            else quiet u (Uncaught e)
        end
      else if String.eqb cmd "--toggle" then
        if ud_paused u then
          match remove_marker u with
          | Ok u' => said resumed_line u'
          | Raise e => quiet u (Uncaught e)
          end
        else
          match create_marker u with
          | Ok u' => said paused_line u'
          | Raise e => quiet u (Uncaught e)
          end
      else if String.eqb cmd "--status" then
        let paused := ud_paused u in
        match status_fields u with
        | Ok (pack, vol) =>
            {| cli_stdout :=
                 [[Lit ("peon-ping: "
                        ++ (if paused then "paused" else "active"))];
                  [Lit "  pack: "; StrOf pack; Lit "  volume: "; StrOf vol]];
               cli_stderr := []; cli_data := u; cli_result := Handled |}
        | Raise e => quiet u (Uncaught e)
        end
      else if String.eqb cmd "--help" || String.eqb cmd "-h" then
        said usage_line u
      else if String.prefix "--" cmd then
        {| cli_stdout := [];
           cli_stderr := [[Lit ("Unknown option: " ++ cmd)]];
           cli_data := u; cli_result := SysExit 1 |}
      else quiet u NotHandled
  | _ => quiet u NotHandled
  end.

Definition with_paused (b : bool) (w : world) : world :=
  {| stdin_doc := stdin_doc w; config_file := config_file w;
     state_file := state_file w; manifest_file := manifest_file w;
     paused_marker := b; sound_exists := sound_exists w;
     state_writable := state_writable w; clock := clock w; rand := rand w;
     terminal_focused := terminal_focused w; plugin_root := plugin_root w |}.

(** How the process ends. *)
Inductive ending : Type :=
| Returned
| Exited (status : nat)
| Crashed (e : exn).

Definition status_of (e : ending) : nat :=
  match e with
  | Returned => 0
  | Exited n => n
  | Crashed _ => 1
  end.

(** What one run of the script leaves behind. *)
Record report : Type := {
  r_stdout : list (list piece);
  r_stderr : list (list piece);
  r_data : user_data;          (* Config and pause marker afterwards *)
  r_effects : list effect;     (* what the event handler did *)
  r_end : ending
}.

(** [def main()], lines 277-393, from its first line: the user data is
    prepared, then the command line is looked at, then the event is
    handled. The Config and the pause marker that the event handler
    meets are those of the user data; the rest of the [world] is given. *)
Definition peon (argv : list string) (packaged : file_content)
  (u : user_data) (w : world) : report :=
  match ensure_user_data packaged u with
  | Raise e =>
      {| r_stdout := []; r_stderr := []; r_data := u; r_effects := [];
         r_end := Crashed e |}
  | Ok u1 =>
      let c := handle_cli argv u1 in
      match cli_result c with
      | NotHandled =>
          let o := main (with_config (ud_config u1)
                           (with_paused (ud_paused u1) w)) in
          {| r_stdout := []; r_stderr := []; r_data := u1;
             r_effects := fst o;
             r_end := match snd o with
                      | Ok _ => Returned
                      | Raise e => Crashed e
                      end |}
      | Handled =>
          {| r_stdout := cli_stdout c; r_stderr := cli_stderr c;
             r_data := cli_data c; r_effects := []; r_end := Returned |}
      | SysExit n =>
          {| r_stdout := cli_stdout c; r_stderr := cli_stderr c;
             r_data := cli_data c; r_effects := []; r_end := Exited n |}
      | Uncaught e =>
          {| r_stdout := cli_stdout c; r_stderr := cli_stderr c;
             r_data := cli_data c; r_effects := []; r_end := Crashed e |}
      end
  end.

(** [platform.system()] *)
Inductive platform : Type :=
| Darwin
| Windows
| Linux
| OtherPlatform.

(** The machine that the script runs on. *)
Record host : Type := {
  h_platform : platform;
  h_which : string -> option string;  (* shutil.which: None or a path *)
  h_frontmost : res string;    (* the answer of the focus query, or how
                                  the query failed (program not found,
                                  timeout, ...) *)
  h_int_percent : pyval -> res Z      (* int(volume * 100) *)
}.

(** What the script starts. *)
Inductive action : Type :=
| Popen (args : list piece) (no_window : bool)   (* subprocess.Popen *)
| PlaySound (path : string)                      (* winsound.PlaySound *)
| Run (args : list piece).                       (* subprocess.run *)

(** [subprocess.Popen([name, ...])] with a bare program name: the program
    is looked up on the search path. *)
Definition popen_named (h : host) (name : string) (args : list piece)
  (no_window : bool) : res (list action) :=
  match h_which h name with
  | Some _ => Ok [Popen (Lit name :: args) no_window]
  | None => Raise FileNotFoundError
  end.

(** [str.lower] on the code points below 256 (the ASCII capitals, and
    U+00C0 to U+00DE without the sign U+00D7), and [str.endswith]. *)
Definition lower_char (c : ascii) : ascii :=
  let n := nat_of_ascii c in
  if (Nat.leb 65 n && Nat.leb n 90)
     || (Nat.leb 192 n && Nat.leb n 214) || (Nat.leb 216 n && Nat.leb n 222)
  then ascii_of_nat (n + 32) else c.

Fixpoint lower (s : string) : string :=
  match s with
  | EmptyString => EmptyString
  | String c r => String (lower_char c) (lower r)
  end.

Fixpoint endswith (s suffix : string) : bool :=
  String.eqb s suffix
  || match s with
     | EmptyString => false
     | String _ r => endswith r suffix
     end.

(** The first of the players that is installed (lines 88-90). *)
Fixpoint first_player (h : host) (players : list string)
  : option (string * string) :=
  match players with
  | [] => None
  | player :: rest =>
      match h_which h player with
      | Some exe => Some (player, exe)
      | None => first_player h rest
      end
  end.

(** [def play_sound(filepath, volume=0.5)], lines 63-104. *)
Definition play_sound (h : host) (w : world) (filepath : string)
  (volume : pyval) : res (list action) :=
  if negb (sound_exists w filepath) then Ok []
  else
    let no_window := match h_platform h with Windows => true | _ => false end in
    match h_platform h with
    | Darwin =>
        popen_named h "afplay" [Lit "-v"; StrOf volume; Lit filepath]
          no_window
    | _ =>
        match h_which h "ffplay" with
        | Some ffplay =>
            scaled <- h_int_percent h volume ;;
            let vol := Z.max 0 (Z.min 100 scaled) in
            Ok [Popen [Lit ffplay; Lit "-nodisp"; Lit "-autoexit";
                       Lit "-loglevel"; Lit "quiet"; Lit "-volume";
                       IntOf vol; Lit filepath] no_window]
        | None =>
            match h_platform h with
            | Linux =>
                match first_player h ["paplay"; "pw-play"; "aplay"] with
                | Some (player, exe) =>
                    if String.eqb player "aplay"
                    then Ok [Popen [Lit exe; Lit "-q"; Lit filepath] no_window]
                    else Ok [Popen [Lit exe; Lit filepath] no_window]
                | None => Ok []
                end
            | Windows =>
                if endswith (lower filepath) ".wav"
                then Ok [PlaySound filepath] else Ok []
            | _ => Ok []
            end
        end
    end.

(** [str.replace(old, new)] for a one-character [old]. *)
Fixpoint replace_char (old : ascii) (new : string) (s : string) : string :=
  match s with
  | EmptyString => EmptyString
  | String c r =>
      if Ascii.eqb c old then new ++ replace_char old new r
      else String c (replace_char old new r)
  end.

Definition dquote : ascii := ascii_of_nat 34.

Definition squote : ascii := ascii_of_nat 39.

Definition backslash : ascii := ascii_of_nat 92.

(** Line 172. *)
Definition osascript_of (safe_m safe_t : string) : string :=
  "display notification " ++ String dquote safe_m
  ++ String dquote " with title " ++ String dquote safe_t
  ++ String dquote "".

(** Lines 178-187. *)
Definition powershell_of (safe_m safe_t : string) : string :=
  "Add-Type -AssemblyName System.Windows.Forms;"
  ++ "$n = New-Object System.Windows.Forms.NotifyIcon;"
  ++ "$n.Icon = [System.Drawing.SystemIcons]::Information;"
  ++ "$n.BalloonTipTitle = " ++ String squote safe_t ++ String squote ";"
  ++ "$n.BalloonTipText = " ++ String squote safe_m ++ String squote ";"
  ++ "$n.Visible = $true;"
  ++ "$n.ShowBalloonTip(5000);"
  ++ "Start-Sleep -Seconds 6;"
  ++ "$n.Dispose()".

(** [def show_notification(title, message)], lines 165-198. *)
Definition show_notification (h : host) (title message : string)
  : res (list action) :=
  match h_platform h with
  | Darwin =>
      let safe_t := replace_char dquote (String backslash (String dquote ""))
                      title in
      let safe_m := replace_char dquote (String backslash (String dquote ""))
                      message in
      popen_named h "osascript" [Lit "-e"; Lit (osascript_of safe_m safe_t)]
        false
  | Windows =>
      let safe_t := replace_char squote (String squote (String squote ""))
                      title in
      let safe_m := replace_char squote (String squote (String squote ""))
                      message in
      popen_named h "powershell"
        [Lit "-ExecutionPolicy"; Lit "Bypass"; Lit "-Command";
         Lit (powershell_of safe_m safe_t)] true
  | Linux =>
      match h_which h "notify-send" with
      | Some exe => Ok [Popen [Lit exe; Lit title; Lit message] false]
      | None => Ok []
      end
  | OtherPlatform => Ok []
  end.

(** [str.isspace] on a code point below 256, [str.strip()] and the
    substring test [needle in hay]. *)
Definition is_space (c : ascii) : bool :=
  let n := nat_of_ascii c in
  (Nat.leb 9 n && Nat.leb n 13) || (Nat.leb 28 n && Nat.leb n 32)
  || Nat.eqb n 133 || Nat.eqb n 160.

Fixpoint lstrip (s : string) : string :=
  match s with
  | EmptyString => EmptyString
  | String c r => if is_space c then lstrip r else s
  end.

Fixpoint rstrip (s : string) : string :=
  match s with
  | EmptyString => EmptyString
  | String c r =>
      let r' := rstrip r in
      if is_space c && String.eqb r' "" then EmptyString else String c r'
  end.

Definition strip (s : string) : string := rstrip (lstrip s).

Fixpoint contains (needle hay : string) : bool :=
  String.prefix needle hay
  || match hay with
     | EmptyString => false
     | String _ r => contains needle r
     end.

Definition darwin_terminals : list string :=
  ["terminal"; "iterm"; "wezterm"; "alacritty"; "kitty"; "hyper"; "tabby"].

Definition windows_terminals : list string :=
  ["windows terminal"; "command prompt"; "powershell"; "pwsh"; "cmd.exe";
   "wezterm"; "alacritty"; "kitty"; "mintty"; "conemu"; "cmder"; "hyper";
   "tabby"].

Definition linux_terminals : list string :=
  ["terminal"; "konsole"; "xterm"; "alacritty"; "kitty"; "wezterm"; "tilix";
   "terminator"; "gnome-terminal"].

Definition any_in (names : list string) (text : string) : bool :=
  existsb (fun t => contains t text) names.

(** Line 117. *)
Definition focus_script : string :=
  "tell application " ++ String dquote "System Events"
  ++ String dquote " to get name of "
  ++ "first application process whose frontmost is true".

(** What [is_terminal_focused] runs to find out: [osascript] on Darwin
    (lines 115-119), [xdotool] on Linux (lines 148-150), and no program
    on Windows, where it calls the window system itself. *)
Definition focus_query (h : host) : list action :=
  match h_platform h with
  | Darwin => [Run [Lit "osascript"; Lit "-e"; Lit focus_script]]
  | Linux => [Run [Lit "xdotool"; Lit "getactivewindow"; Lit "getwindowname"]]
  | Windows | OtherPlatform => []
  end.

(** [def is_terminal_focused()], lines 111-158: its answer. On Darwin
    and Linux [h_frontmost] is the output of the query above, on Windows
    the text of the foreground window; every exception ends in
    [False]. *)
Definition is_terminal_focused (h : host) : bool :=
  match h_platform h with
  | Darwin =>
      match h_frontmost h with
      | Ok out => any_in darwin_terminals (lower (strip out))
      | Raise _ => false
      end
  | Windows =>
      match h_frontmost h with
      | Ok text =>
          if Nat.eqb (String.length text) 0 then false
          else any_in windows_terminals (lower text)
      | Raise _ => false
      end
  | Linux =>
      match h_frontmost h with
      | Ok out => any_in linux_terminals (lower (strip out))
      | Raise _ => false
      end
  | OtherPlatform => false
  end.

(** The world as the handler meets it on a host: the focus check is the
    host's. *)
Definition on_host (h : host) (w : world) : world :=
  {| stdin_doc := stdin_doc w; config_file := config_file w;
     state_file := state_file w; manifest_file := manifest_file w;
     paused_marker := paused_marker w; sound_exists := sound_exists w;
     state_writable := state_writable w; clock := clock w; rand := rand w;
     terminal_focused := is_terminal_focused h;
     plugin_root := plugin_root w |}.

(** A computation that starts things on the host: what it has started
    and how it ended. *)
Definition hrun (A : Type) : Type := (list action * res A)%type.

Definition hret {A} (a : A) : hrun A := ([], Ok a).

Definition hlift {A} (r : res A) : hrun A := ([], r).

Definition started (r : res (list action)) : hrun unit :=
  match r with
  | Ok acts => (acts, Ok tt)
  | Raise x => ([], Raise x)
  end.

Definition hbind {A B} (m : hrun A) (f : A -> hrun B) : hrun B :=
  match snd m with
  | Ok a => (fst m ++ fst (f a), snd (f a))
  | Raise e => (fst m, Raise e)
  end.

Notation "x <! m ;; k" := (hbind m (fun x => k))
  (at level 61, m at next level, right associativity) : py_scope.

(** Lines 383-387 on the host: [play_sound] is called, and can raise. *)
Definition play_step_on (h : host) (w : world) (c : ctx) (d : decision)
  (state : pyval) : hrun pyval :=
  pack_dir <! hlift (os_path_join (path_join (plugin_root w) "packs")
                                  (c_active_pack c)) ;;
  if negb (String.eqb (category d) "") && negb (c_paused c) then
    r <! hlift (pick_sound w pack_dir (category d) state) ;;
    match fst r with
    | Some sound_file =>
        _ <! (if negb (String.eqb sound_file "") && sound_exists w sound_file
              then started (play_sound h w sound_file (c_volume c))
              else hret tt) ;;
        hret (snd r)
    | None => hret (snd r)
    end
  else hret state.

(** Lines 374-393 on the host. The write of the title starts nothing;
    the focus check of line 392 is reached only when the three
    conditions before it hold, and [show_notification] can raise. *)
Definition finish_on (h : host) (w : world) (c : ctx) (d : decision)
  (state : pyval) : hrun unit :=
  let title := title_of c d in
  state' <! play_step_on h w c d state ;;
  _ <! hlift (snd (save_json w state')) ;;
  if notify d && negb (c_paused c) && truthy (c_desktop_notif c) then
    _ <! (focus_query h, Ok tt) ;;
    if negb (is_terminal_focused h)
    then started (show_notification h title (msg d))
    else hret tt
  else hret tt.

(** [def main()] for an event-handling invocation, on the host: what
    the run starts on the machine and how it ends. *)
Definition hook (h : host) (w : world) : hrun unit :=
  match snd (prelude w) with
  | Raise x => hlift (Raise x)
  | Ok None => hret tt
  | Ok (Some c) =>
      match decide w c with
      | Raise x => hlift (Raise x)
      | Ok None => hret tt
      | Ok (Some (d, state)) => finish_on h w c d state
      end
  end.


(** A character that means nothing to AppleScript or PowerShell inside a
    quoted string. *)
Definition plain_char (c : ascii) : bool :=
  negb (Ascii.eqb c dquote || Ascii.eqb c squote || Ascii.eqb c backslash).

(** A Linux machine with [ffplay] and [notify-send] and no answer to the
    focus query. *)
Definition linux_host : host :=
  {| h_platform := Linux;
     h_which := fun name =>
       if String.eqb name "ffplay" then Some "/usr/bin/ffplay"
       else if String.eqb name "notify-send" then Some "/usr/bin/notify-send"
       else None;
     h_frontmost := Raise FileNotFoundError;
     h_int_percent := fun v =>
       match v with
       | PNum q => Ok (Z.quot (Qnum (q * 100)) (Zpos (Qden (q * 100))))
       | _ => Raise TypeError
       end |}.

(** The names that [is_terminal_focused] looks for on a platform. *)
Definition terminals_of (p : platform) : list string :=
  match p with
  | Darwin => darwin_terminals
  | Windows => windows_terminals
  | Linux => linux_terminals
  | OtherPlatform => []
  end.

(** Does the string start and end with a character that is not white
    space? *)
Fixpoint last_of (c : ascii) (r : string) : ascii :=
  match r with
  | EmptyString => c
  | String c' r' => last_of c' r'
  end.

Definition firm (s : string) : bool :=
  match s with
  | EmptyString => false
  | String c r => negb (is_space c) && negb (is_space (last_of c r))
  end.

(** A Darwin machine where a browser shows a page about terminals. *)
Definition browsing_host : host :=
  {| h_platform := Darwin;
     h_which := fun _ => Some "/usr/bin/osascript";
     h_frontmost := Ok ("Terminal Tips - Browser"
                        ++ String (ascii_of_nat 10) "")%string;
     h_int_percent := fun _ => Ok 50%Z |}.

(* ------------------------------------------------------------------ *)
(** ** Basic facts *)
(* ------------------------------------------------------------------ *)

Lemma dict_get_set_same (k : string) (v : pyval) (d : list (string * pyval)) :
  dict_get k (dict_set k v d) = Some v.
Proof.
  induction d as [| [k' v'] d IH]; simpl.
  - now rewrite String.eqb_refl.
  - destruct (String.eqb k k') eqn:E; simpl.
    + now rewrite String.eqb_refl.
    + now rewrite E.
Qed.

Lemma dict_get_set_other (k k' : string) (v : pyval) (d : list (string * pyval)) :
  k <> k' -> dict_get k (dict_set k' v d) = dict_get k d.
Proof.
  intros Hne. induction d as [| [k0 v0] d IH]; simpl.
  - apply String.eqb_neq in Hne. now rewrite Hne.
  - destruct (String.eqb k' k0) eqn:E; simpl.
    + apply String.eqb_eq in E. subst k0.
      apply String.eqb_neq in Hne. now rewrite Hne.
    + destruct (String.eqb k k0); [reflexivity | exact IH].
Qed.

Lemma Qlt_b_iff (x y : Q) : Qlt_b x y = true <-> (x < y)%Q.
Proof.
  unfold Qlt_b. rewrite negb_true_iff. split.
  - intros H. apply Qnot_le_lt. intros Hle.
    apply Qle_bool_iff in Hle. congruence.
  - intros H. destruct (Qle_bool y x) eqn:E; [| reflexivity].
    apply Qle_bool_iff in E. exfalso. exact (Qlt_not_le _ _ H E).
Qed.

Lemma Qlt_b_true (x y : Q) : (x < y)%Q -> Qlt_b x y = true.
Proof. apply Qlt_b_iff. Qed.

Lemma Qlt_b_false (x y : Q) : (y <= x)%Q -> Qlt_b x y = false.
Proof.
  intros H. destruct (Qlt_b x y) eqn:E; [| reflexivity].
  apply Qlt_b_iff in E. exfalso. exact (Qlt_not_le _ _ E H).
Qed.

Lemma filter_res_total {A} (f : A -> res bool) (g : A -> bool) (l : list A) :
  (forall x, In x l -> f x = Ok (g x)) ->
  filter_res f l = Ok (filter g l).
Proof.
  induction l as [| a l IH]; intros H; simpl.
  - reflexivity.
  - rewrite (H a (or_introl eq_refl)). simpl.
    rewrite IH by (intros x Hx; apply H; now right).
    reflexivity.
Qed.

Lemma py_eqb_str_l (s : string) (v : pyval) :
  py_eqb (PStr s) v = true -> v = PStr s.
Proof.
  destruct v; simpl; try discriminate.
  intros H. apply String.eqb_eq in H. now subst.
Qed.

Lemma py_eqb_str_r (s : string) (v : pyval) :
  py_eqb v (PStr s) = true -> v = PStr s.
Proof.
  destruct v as [| b | q | t | l | d]; simpl; try discriminate.
  intros H. apply String.eqb_eq in H. now subst.
Qed.

Lemma py_eqb_refl (v : pyval) : hashable v = true -> py_eqb v v = true.
Proof.
  destruct v as [| b | q | s | l | d]; simpl; try discriminate; intros _.
  - reflexivity.
  - destruct b; reflexivity.
  - apply Qeq_bool_refl.
  - apply String.eqb_refl.
Qed.

Ltac numeric_witness H :=
  right; right; eexists _, _;
  split; [reflexivity | split; [reflexivity | apply Qeq_bool_iff; exact H]].

(** On hashable values [==] compares either two strings, two [None], or
    two numbers. *)
Lemma py_eqb_hashable_cases (a b : pyval) :
  hashable a = true -> py_eqb a b = true ->
  (a = PNone /\ b = PNone)
  \/ (exists s, a = PStr s /\ b = PStr s)
  \/ (exists x y, num_of a = Some x /\ num_of b = Some y /\ (x == y)%Q).
Proof.
  intros Ha H.
  destruct a as [| ba | qa | sa | la | da]; try discriminate Ha.
  - destruct b; try discriminate H. now left.
  - destruct b as [| bb | qb | sb | lb | db];
      try (destruct ba; discriminate H).
    + destruct ba, bb; simpl in H; numeric_witness H.
    + destruct ba; simpl in H; numeric_witness H.
  - destruct b as [| bb | qb | sb | lb | db]; try discriminate H.
    + destruct bb; simpl in H; numeric_witness H.
    + simpl in H; numeric_witness H.
  - right; left. apply py_eqb_str_l in H. subst b. now exists sa.
Qed.

Lemma py_eqb_of_nums (a b : pyval) (x y : Q) :
  num_of a = Some x -> num_of b = Some y -> (x == y)%Q -> py_eqb a b = true.
Proof.
  intros Ha Hb Hxy.
  destruct a as [| ba | qa | sa | la | da]; try discriminate Ha;
    destruct b as [| bb | qb | sb | lb | db]; try discriminate Hb;
    simpl in *.
  - destruct ba, bb; inversion Ha; inversion Hb; subst;
      now apply Qeq_bool_iff.
  - destruct ba; inversion Ha; inversion Hb; subst; now apply Qeq_bool_iff.
  - destruct bb; inversion Ha; inversion Hb; subst; now apply Qeq_bool_iff.
  - inversion Ha; inversion Hb; subst; now apply Qeq_bool_iff.
Qed.

Lemma py_eqb_trans (a b c : pyval) :
  hashable b = true -> py_eqb a b = true -> py_eqb b c = true ->
  py_eqb a c = true.
Proof.
  intros Hb Hab Hbc.
  destruct (py_eqb_hashable_cases b c Hb Hbc)
    as [[-> ->] | [[s [-> ->]] | [y [z [Hy [Hz Hyz]]]]]].
  - exact Hab.
  - exact Hab.
  - assert (Ha : hashable a = true).
    { destruct a; try reflexivity; destruct b; try discriminate Hb;
        simpl in Hab; discriminate Hab. }
    destruct (py_eqb_hashable_cases a b Ha Hab)
      as [[-> ->] | [[s [-> ->]] | [x [y' [Hx [Hy' Hxy]]]]]];
      try discriminate Hy.
    rewrite Hy in Hy'. inversion Hy'; subst y'.
    apply (py_eqb_of_nums a c x z Hx Hz).
    now rewrite Hxy.
Qed.

(* ------------------------------------------------------------------ *)
(** ** Sets of session identifiers *)
(* ------------------------------------------------------------------ *)

Lemma set_mem_app (x : pyval) (s t : pyset) :
  set_mem x (s ++ t) = set_mem x s || set_mem x t.
Proof. unfold set_mem. apply existsb_app. Qed.

Lemma set_add_inv (x : pyval) (s s' : pyset) :
  set_add x s = Ok s' ->
  hashable x = true /\ s' = (if set_mem x s then s else s ++ [x]).
Proof.
  unfold set_add. destruct (hashable x); [| discriminate].
  intros H. inversion H. now split.
Qed.

Lemma set_add_member (x : pyval) (s s' : pyset) :
  set_add x s = Ok s' -> set_mem x s' = true.
Proof.
  intros H. apply set_add_inv in H. destruct H as [Hx ->].
  destruct (set_mem x s) eqn:E; [exact E |].
  rewrite set_mem_app, E. simpl.
  now rewrite (py_eqb_refl x Hx).
Qed.

Lemma set_add_keeps (x y : pyval) (s s' : pyset) :
  set_add x s = Ok s' -> set_mem y s = true -> set_mem y s' = true.
Proof.
  intros H Hy. apply set_add_inv in H. destruct H as [_ ->].
  destruct (set_mem x s); [exact Hy |].
  rewrite set_mem_app, Hy. reflexivity.
Qed.

Lemma set_add_hashable (x : pyval) (s s' : pyset) :
  set_add x s = Ok s' -> all_hashable s -> all_hashable s'.
Proof.
  intros H Hs. apply set_add_inv in H. destruct H as [Hx ->].
  destruct (set_mem x s); [exact Hs |].
  apply Forall_app. split; [exact Hs |]. now constructor.
Qed.

(** Whatever equals a member of a set of hashable values is a member. *)
Lemma set_mem_eq (x y : pyval) (s : pyset) :
  all_hashable s -> hashable y = true ->
  py_eqb x y = true -> set_mem y s = true -> set_mem x s = true.
Proof.
  intros Hs Hy Hxy Hmem. unfold set_mem in *.
  apply existsb_exists in Hmem. destruct Hmem as [z [Hz Hyz]].
  apply existsb_exists. exists z. split; [exact Hz |].
  exact (py_eqb_trans x y z Hy Hxy Hyz).
Qed.

Lemma set_of_list_hashable (l : list pyval) :
  forall acc s, set_of_list l acc = Ok s -> all_hashable acc -> all_hashable s.
Proof.
  induction l as [| a l IH]; intros acc s H Hacc; simpl in H.
  - inversion H. now subst.
  - destruct (set_add a acc) as [acc' |] eqn:E; simpl in H; [| discriminate].
    apply (IH acc' s H). exact (set_add_hashable a acc acc' E Hacc).
Qed.

(** Rebuilding a set from a list of hashable values succeeds and loses
    no member. *)
Lemma set_of_list_members (l : list pyval) :
  forall acc, all_hashable l -> all_hashable acc ->
    exists s, set_of_list l acc = Ok s
      /\ forall x, set_mem x acc = true \/ set_mem x l = true ->
                   set_mem x s = true.
Proof.
  induction l as [| a l IH]; intros acc Hl Hacc; simpl.
  - exists acc. split; [reflexivity |].
    intros x [H | H]; [exact H | discriminate H].
  - inversion Hl as [| a' l' Ha Hl']; subst.
    assert (E : set_add a acc = Ok (if set_mem a acc then acc else acc ++ [a])).
    { unfold set_add. now rewrite Ha. }
    rewrite E. cbn [rbind].
    destruct (IH _ Hl' (set_add_hashable a acc _ E Hacc)) as [s [Hs Hmem]].
    exists s. split; [exact Hs |].
    intros x [H | H].
    + apply Hmem. left. exact (set_add_keeps a x acc _ E H).
    + unfold set_mem in H. simpl in H. apply orb_true_iff in H.
      destruct H as [H | H].
      * apply Hmem. left.
        apply (set_mem_eq x a _ (set_add_hashable a acc _ E Hacc) Ha H).
        exact (set_add_member a acc _ E).
      * apply Hmem. now right.
Qed.

Lemma py_set_hashable (v : pyval) (s : pyset) :
  py_set v = Ok s -> all_hashable s.
Proof.
  unfold py_set. destruct (py_iter v) as [items |]; simpl; [| discriminate].
  intros H. apply (set_of_list_hashable items [] s H). constructor.
Qed.

(** Lines 314-315 followed by line 312 of the next invocation: the
    session that was added is found again in the saved document. *)
Lemma saved_sessions_flag (state : pyval) (sessions sessions' : pyset)
    (sid : pyval) (saved : pyval) :
  sessions_of state = Ok sessions ->
  set_add sid sessions = Ok sessions' ->
  py_setitem state "agent_sessions" (PList sessions') = Ok saved ->
  exists again, sessions_of saved = Ok again
    /\ forall x, set_mem x sessions' = true -> set_mem x again = true.
Proof.
  intros Hs Hadd Hset.
  assert (Hh : all_hashable sessions').
  { apply (set_add_hashable sid sessions sessions' Hadd).
    unfold sessions_of in Hs.
    destruct (py_get state "agent_sessions" (PList [])) as [listed |];
      simpl in Hs; [| discriminate].
    exact (py_set_hashable listed sessions Hs). }
  destruct state as [| | | | | d]; try discriminate Hset.
  simpl in Hset. inversion Hset; subst saved.
  unfold sessions_of. simpl. rewrite dict_get_set_same. simpl.
  destruct (set_of_list_members sessions' [] Hh (Forall_nil _))
    as [again [Hagain Hmem]].
  exists again. split; [exact Hagain |].
  intros x Hx. apply Hmem. now right.
Qed.

(* ------------------------------------------------------------------ *)
(** ** The gates of [main] *)
(* ------------------------------------------------------------------ *)

(** One step of a sequence of fallible statements. *)
Ltac step :=
  match goal with
  | |- context [rbind ?m _] =>
      let E := fresh "E" in
      destruct m eqn:E; cbn [rbind]; try congruence
  end.

(** When the gates do not let the event through, the handler does nothing
    but, possibly, save the State. *)
Lemma main_without_proceed (w : world) :
  (forall ev c, stdin_doc w = StdinJson ev -> gates w ev <> Ok (Proceed c)) ->
  forall e, In e (fst (main w)) -> exists doc, e = ESave doc.
Proof.
  intros Hg e. unfold main, prelude.
  destruct (stdin_doc w) as [| | | | ev] eqn:Ein; simpl; try tauto.
  destruct (gates w ev) as [[| st | c] | x] eqn:Eg; simpl; try tauto.
  - unfold save_json. destruct (state_writable w); simpl; try tauto.
    intros [H | []]. now exists st.
  - exfalso. exact (Hg ev c eq_refl Eg).
Qed.

(** Lines 313-317: an event in delegate mode never gets past the gates. *)
Lemma gates_delegate (w : world) (ev : list (string * pyval)) (c : ctx) :
  dict_get "permission_mode" ev = Some (PStr "delegate") ->
  gates w (PDict ev) <> Ok (Proceed c).
Proof.
  intros Hperm. unfold gates.
  step. step. step.
  destruct (negb (truthy a1)); [discriminate |].
  step. step. step. step.
  cbn [py_get rbind]. rewrite Hperm.
  step.
  change (py_eqb (PStr "delegate") (PStr "delegate")) with true. cbn iota.
  step. step.
Qed.

(** Lines 318-319: an event of a flagged session never gets past the
    gates. *)
Lemma gates_flagged (w : world) (ev : list (string * pyval)) (c : ctx)
    (state : pyval) (sessions : pyset) :
  load_json (state_file w) PNone = Ok state ->
  sessions_of state = Ok sessions ->
  set_mem (session_of ev) sessions = true ->
  gates w (PDict ev) <> Ok (Proceed c).
Proof.
  intros Hstate Hsess Hmem. unfold gates.
  step. rewrite Hstate. cbn [rbind]. step.
  destruct (negb (truthy a0)); [discriminate |].
  step. step. step. step.
  cbn [py_get rbind]. rewrite Hsess. cbn [rbind].
  fold (session_of ev).
  destruct (py_eqb _ (PStr "delegate")).
  - step. step.
  - unfold py_in_set. destruct (hashable (session_of ev)); cbn [rbind];
      [| discriminate].
    rewrite Hmem. discriminate.
Qed.

(** Lines 313-317 on a well-formed invocation: the session is added, the
    State is saved and the handler returns. *)
Lemma delegate_marks (w : world) (ev : list (string * pyval))
    (config en state : pyval) (sessions : pyset) :
  stdin_doc w = StdinJson (PDict ev) ->
  load_json (config_file w) default_config = Ok config ->
  py_get config "enabled" (PBool true) = Ok en ->
  truthy en = true ->
  load_json (state_file w) PNone = Ok state ->
  sessions_of state = Ok sessions ->
  dict_get "permission_mode" ev = Some (PStr "delegate") ->
  hashable (session_of ev) = true ->
  state_writable w = true ->
  exists sessions' saved,
    set_add (session_of ev) sessions = Ok sessions'
    /\ py_setitem state "agent_sessions" (PList sessions') = Ok saved
    /\ main w = ([ESave saved], Ok tt).
Proof.
  intros Hin Hcfg Hen Htrue Hstate Hsess Hperm Hhash Hwr.
  assert (Hadd : set_add (session_of ev) sessions
                 = Ok (if set_mem (session_of ev) sessions then sessions
                       else sessions ++ [session_of ev])).
  { unfold set_add. now rewrite Hhash. }
  destruct state as [| | | | | st]; try discriminate Hsess.
  eexists _, _. split; [exact Hadd |]. split; [reflexivity |].
  destruct config as [| | | | | cfg]; try discriminate Hen.
  unfold main, prelude. rewrite Hin. cbn [loads_stdin].
  unfold gates. rewrite Hcfg, Hstate. cbn [rbind]. rewrite Hen. cbn [rbind].
  rewrite Htrue. cbn [negb py_get rbind]. rewrite Hsess. cbn [rbind].
  rewrite Hperm. fold (session_of ev).
  change (py_eqb (PStr "delegate") (PStr "delegate")) with true. cbn iota.
  rewrite Hadd. cbn [rbind py_setitem].
  unfold save_json. rewrite Hwr. reflexivity.
Qed.

(** Assigning one key of an object leaves the other keys alone. *)
Lemma py_setitem_frame (state saved v : pyval) (k k' : string) (dflt : pyval) :
  py_setitem state k' v = Ok saved -> k <> k' ->
  py_get saved k dflt = py_get state k dflt.
Proof.
  intros H Hne. destruct state as [| | | | | d]; try discriminate H.
  simpl in H. inversion H; subst saved. simpl.
  now rewrite (dict_get_set_other k k' v d Hne).
Qed.

(** A flagged session whose event is not in delegate mode leaves no trace
    at all. *)
Lemma flagged_plain_event_silent (w : world) (ev : list (string * pyval))
    (state : pyval) (sessions : pyset) :
  stdin_doc w = StdinJson (PDict ev) ->
  load_json (state_file w) PNone = Ok state ->
  sessions_of state = Ok sessions ->
  set_mem (session_of ev) sessions = true ->
  dict_get "permission_mode" ev <> Some (PStr "delegate") ->
  fst (main w) = [].
Proof.
  intros Hin Hstate Hsess Hmem Hperm.
  assert (Hg : forall g, gates w (PDict ev) = Ok g -> g = Ignored).
  { intros g. unfold gates.
    step. rewrite Hstate. cbn [rbind]. step.
    destruct (negb (truthy a0)); [congruence |].
    step. step. step. step.
    cbn [py_get rbind]. rewrite Hsess. cbn [rbind].
    fold (session_of ev).
    destruct (py_eqb _ (PStr "delegate")) eqn:Ed.
    - exfalso. apply py_eqb_str_r in Ed. apply Hperm.
      destruct (dict_get "permission_mode" ev); [now subst | discriminate Ed].
    - unfold py_in_set. destruct (hashable (session_of ev)); cbn [rbind];
        [| discriminate].
      rewrite Hmem. congruence. }
  unfold main, prelude. rewrite Hin. cbn [loads_stdin].
  destruct (gates w (PDict ev)) as [g | x] eqn:Eg; [| reflexivity].
  rewrite (Hg g eq_refl). reflexivity.
Qed.

(* ------------------------------------------------------------------ *)
(** ** Session suppression *)
(* ------------------------------------------------------------------ *)

(** C1, as the claim states it, fails when the feature is switched off:
    the enabled check of line 296 comes before the marking of lines
    313-317, so an event in delegate mode is then neither added to
    [agent_sessions] nor persisted. *)
Lemma disabled_config_skips_marking :
  main disabled_delegate_world = ([], Ok tt)
  /\ ~ (exists doc, In (ESave doc) (fst (main disabled_delegate_world))).
Proof.
  split; [reflexivity |].
  intros [doc H]. vm_compute in H. exact H.
Qed.

(** C1 (amended): once the enabled check has passed, an event whose
    permission mode is "delegate" has its session identifier added to
    [agent_sessions]; the handler then does nothing but save the loaded
    State with the grown set under [agent_sessions] (every other key as
    it was loaded) and returns, so that the triggering event gives no
    sound, no notification and no title; the saved document flags the
    session again when it is read back, and every event of a flagged
    session, like every event in delegate mode, gives no sound, no
    notification and no title either. *)
Theorem delegate_session_marked_and_suppressed :
  forall (w : world) (ev : list (string * pyval)) (config en state : pyval)
         (sessions : pyset),
    stdin_doc w = StdinJson (PDict ev) ->
    load_json (config_file w) default_config = Ok config ->
    py_get config "enabled" (PBool true) = Ok en ->
    truthy en = true ->
    load_json (state_file w) PNone = Ok state ->
    sessions_of state = Ok sessions ->
    dict_get "permission_mode" ev = Some (PStr "delegate") ->
    hashable (session_of ev) = true ->
    state_writable w = true ->
    exists sessions' saved,
      set_add (session_of ev) sessions = Ok sessions'
      /\ set_mem (session_of ev) sessions' = true
      /\ (forall x, set_mem x sessions = true -> set_mem x sessions' = true)
      /\ py_setitem state "agent_sessions" (PList sessions') = Ok saved
      /\ (forall k dflt, k <> "agent_sessions" ->
            py_get saved k dflt = py_get state k dflt)
      /\ main w = ([ESave saved], Ok tt)
      /\ (exists again, sessions_of saved = Ok again
            /\ set_mem (session_of ev) again = true)
      /\ (forall w2 ev2 state2 sessions2,
            stdin_doc w2 = StdinJson (PDict ev2) ->
            load_json (state_file w2) PNone = Ok state2 ->
            sessions_of state2 = Ok sessions2 ->
            set_mem (session_of ev2) sessions2 = true ->
            forall e, In e (fst (main w2)) -> is_feedback e = false)
      /\ (forall w1 ev1,
            stdin_doc w1 = StdinJson (PDict ev1) ->
            dict_get "permission_mode" ev1 = Some (PStr "delegate") ->
            forall e, In e (fst (main w1)) -> is_feedback e = false).
Proof.
  intros w ev config en state sessions
         Hin Hcfg Hen Htrue Hstate Hsess Hperm Hhash Hwr.
  destruct (delegate_marks w ev config en state sessions
              Hin Hcfg Hen Htrue Hstate Hsess Hperm Hhash Hwr)
    as [sessions' [saved [Hadd [Hset Hmain]]]].
  exists sessions', saved.
  split; [exact Hadd |].
  split; [exact (set_add_member _ _ _ Hadd) |].
  split; [intros x; exact (set_add_keeps _ x _ _ Hadd) |].
  split; [exact Hset |].
  split; [intros k dflt Hk; exact (py_setitem_frame _ _ _ _ _ dflt Hset Hk) |].
  split; [exact Hmain |].
  split.
  - destruct (saved_sessions_flag state sessions sessions' (session_of ev)
                saved Hsess Hadd Hset) as [again [Hagain Hkeep]].
    exists again. split; [exact Hagain |].
    apply Hkeep. exact (set_add_member _ _ _ Hadd).
  - split.
    + intros w2 ev2 state2 sessions2 Hin2 Hstate2 Hsess2 Hmem2 e He.
      destruct (main_without_proceed w2) with (e := e) as [doc ->];
        [| exact He | reflexivity].
      intros ev' c Hev'. rewrite Hin2 in Hev'. inversion Hev'; subst ev'.
      exact (gates_flagged w2 ev2 c state2 sessions2 Hstate2 Hsess2 Hmem2).
    + intros w1 ev1 Hin1 Hperm1 e He.
      destruct (main_without_proceed w1) with (e := e) as [doc ->];
        [| exact He | reflexivity].
      intros ev' c Hev'. rewrite Hin1 in Hev'. inversion Hev'; subst ev'.
      exact (gates_delegate w1 ev1 c Hperm1).
Qed.

Lemma delegate_session_marked_witness :
  main (fresh_world (delegate_event "s1"))
  = ([ESave (PDict [("agent_sessions", PList [PStr "s1"])])], Ok tt).
Proof.
  destruct (delegate_session_marked_and_suppressed
              (fresh_world (delegate_event "s1"))
              [("hook_event_name", PStr "Stop"); ("session_id", PStr "s1");
               ("permission_mode", PStr "delegate")]
              default_config (PBool true) (PDict []) []
              eq_refl eq_refl eq_refl eq_refl eq_refl eq_refl eq_refl
              eq_refl eq_refl)
    as [sessions' [saved [Hadd [_ [_ [Hset [_ [Hmain _]]]]]]]].
  vm_compute in Hadd. inversion Hadd; subst sessions'.
  vm_compute in Hset. inversion Hset; subst saved.
  exact Hmain.
Defined.

(** C10, as the claim states it, fails when the feature is switched off:
    line 297 returns before lines 308-317, the empty string is not added
    and nothing is persisted, so that a later event without a
    [session_id] is handled as usual once the feature is switched on. *)
Lemma disabled_config_skips_anonymous_marking :
  main disabled_anonymous_world = ([], Ok tt)
  /\ main (fresh_world stop_event)
     = ([ETitle (title_bytes "* claude: done"); ESave (PDict [])], Ok tt).
Proof. split; reflexivity. Qed.

(** C10 (amended): once the enabled check has passed, an event in
    delegate mode that has no [session_id], or an empty one, puts the
    empty string into [agent_sessions] and the State is saved with it;
    from then on every event without a [session_id] is suppressed (no
    sound, no notification, no title), and such an event of an ordinary
    session, not in delegate mode, leaves no trace at all. *)
Theorem anonymous_delegate_flags_empty_session :
  forall (w : world) (ev : list (string * pyval)) (config en state : pyval)
         (sessions : pyset),
    stdin_doc w = StdinJson (PDict ev) ->
    load_json (config_file w) default_config = Ok config ->
    py_get config "enabled" (PBool true) = Ok en ->
    truthy en = true ->
    load_json (state_file w) PNone = Ok state ->
    sessions_of state = Ok sessions ->
    dict_get "permission_mode" ev = Some (PStr "delegate") ->
    (dict_get "session_id" ev = None
     \/ dict_get "session_id" ev = Some (PStr "")) ->
    state_writable w = true ->
    exists sessions' saved,
      set_add (PStr "") sessions = Ok sessions'
      /\ set_mem (PStr "") sessions' = true
      /\ py_setitem state "agent_sessions" (PList sessions') = Ok saved
      /\ main w = ([ESave saved], Ok tt)
      /\ (forall w2 ev2,
            stdin_doc w2 = StdinJson (PDict ev2) ->
            state_file w2 = Json saved ->
            dict_get "session_id" ev2 = None ->
            (forall e, In e (fst (main w2)) -> is_feedback e = false)
            /\ (dict_get "permission_mode" ev2 <> Some (PStr "delegate") ->
                fst (main w2) = [])).
Proof.
  intros w ev config en state sessions
         Hin Hcfg Hen Htrue Hstate Hsess Hperm Hsid Hwr.
  assert (Hs : session_of ev = PStr "").
  { unfold session_of. destruct Hsid as [-> | ->]; reflexivity. }
  assert (Hhash : hashable (session_of ev) = true) by now rewrite Hs.
  destruct (delegate_marks w ev config en state sessions
              Hin Hcfg Hen Htrue Hstate Hsess Hperm Hhash Hwr)
    as [sessions' [saved [Hadd [Hset Hmain]]]].
  rewrite Hs in Hadd.
  exists sessions', saved.
  split; [exact Hadd |].
  split; [exact (set_add_member _ _ _ Hadd) |].
  split; [exact Hset |].
  split; [exact Hmain |].
  intros w2 ev2 Hin2 Hfile2 Hsid2.
  destruct (saved_sessions_flag state sessions sessions' (PStr "")
              saved Hsess Hadd Hset) as [again [Hagain Hkeep]].
  assert (Hstate2 : load_json (state_file w2) PNone = Ok saved)
    by now rewrite Hfile2.
  assert (Hmem2 : set_mem (session_of ev2) again = true).
  { unfold session_of. rewrite Hsid2. apply Hkeep.
    exact (set_add_member _ _ _ Hadd). }
  split.
  - intros e He.
    destruct (main_without_proceed w2) with (e := e) as [doc ->];
      [| exact He | reflexivity].
    intros ev' c Hev'. rewrite Hin2 in Hev'. inversion Hev'; subst ev'.
    exact (gates_flagged w2 ev2 c saved again Hstate2 Hagain Hmem2).
  - intros Hplain.
    exact (flagged_plain_event_silent w2 ev2 saved again
             Hin2 Hstate2 Hagain Hmem2 Hplain).
Qed.

Lemma anonymous_delegate_witness :
  main (fresh_world anonymous_delegate_event)
  = ([ESave (PDict [("agent_sessions", PList [PStr ""])])], Ok tt)
  /\ fst (main (with_state
                  (Json (PDict [("agent_sessions", PList [PStr ""])]))
                  (fresh_world stop_event))) = [].
Proof.
  destruct (anonymous_delegate_flags_empty_session
              (fresh_world anonymous_delegate_event)
              [("hook_event_name", PStr "Stop");
               ("permission_mode", PStr "delegate")]
              default_config (PBool true) (PDict []) []
              eq_refl eq_refl eq_refl eq_refl eq_refl eq_refl eq_refl
              (or_introl eq_refl) eq_refl)
    as [sessions' [saved [Hadd [_ [Hset [Hmain Hnext]]]]]].
  vm_compute in Hadd. inversion Hadd; subst sessions'.
  vm_compute in Hset. inversion Hset; subst saved.
  split; [exact Hmain |].
  apply (Hnext (with_state
                  (Json (PDict [("agent_sessions", PList [PStr ""])]))
                  (fresh_world stop_event))
               [("hook_event_name", PStr "Stop")]
               eq_refl eq_refl eq_refl).
  discriminate.
Defined.

(* ------------------------------------------------------------------ *)
(** ** The enabled check and the persistent store *)
(* ------------------------------------------------------------------ *)

(** C8: when the Config document has [enabled] false (or any falsy
    value), the handler leaves no trace whatever the event and the prior
    State are: nothing is played, nothing is written to the State file,
    and the mapping of events to categories is never reached. *)
Theorem disabled_config_no_effect :
  forall (w : world) (cfg : list (string * pyval)) (en : pyval),
    config_file w = Json (PDict cfg) ->
    dict_get "enabled" cfg = Some en ->
    truthy en = false ->
    fst (main w) = []
    /\ fst (prelude w) = []
    /\ (forall c, snd (prelude w) <> Ok (Some c)).
Proof.
  intros w cfg en Hcfg Hen Hfalse.
  assert (Hg : forall ev g, gates w ev = Ok g -> g = Ignored).
  { intros ev g. unfold gates. rewrite Hcfg. cbn [load_json read_json rbind].
    step. cbn [py_get rbind]. rewrite Hen, Hfalse. cbn [negb]. congruence. }
  assert (Hp : prelude w = ([], Ok None) \/ exists x, prelude w = ([], Raise x)).
  { unfold prelude. destruct (stdin_doc w) as [| | | | ev]; cbn;
      try (now left); try (right; now exists RecursionError).
    destruct (gates w ev) as [g | x] eqn:Eg.
    - rewrite (Hg ev g Eg). now left.
    - right. now exists x. }
  unfold main.
  destruct Hp as [Hp | [x Hp]]; rewrite Hp; cbn;
    (split; [reflexivity | split; [reflexivity | intros c; discriminate]]).
Qed.

Lemma disabled_config_witness :
  fst (main (with_config (Json (PDict [("enabled", PBool false)]))
               (fresh_world stop_event))) = [].
Proof.
  apply (disabled_config_no_effect
           (with_config (Json (PDict [("enabled", PBool false)]))
              (fresh_world stop_event))
           [("enabled", PBool false)] (PBool false)
           eq_refl eq_refl eq_refl).
Defined.

(** C7: [load_json] returns the parsed document of a file that parses,
    and the fallback (an empty object when none is supplied) for a file
    that is absent, unreadable or not a JSON text; but a file whose bytes
    do not decode as UTF-8 makes it raise [UnicodeDecodeError], a
    [ValueError] that the [except] clause of line 49 does not name. *)
Theorem load_json_fallback_and_gap :
  forall (fallback : pyval),
    let result := match fallback with PNone => PDict [] | _ => fallback end in
    (forall v, load_json (Json v) fallback = Ok v)
    /\ load_json Missing fallback = Ok result
    /\ load_json Unreadable fallback = Ok result
    /\ load_json NotJson fallback = Ok result
    /\ load_json NotUtf8 fallback = Raise UnicodeDecodeError.
Proof.
  intros fallback result. repeat split.
Qed.

(** C6: the handler can end with an uncaught exception, hence with a
    non-zero exit status: on a State file that holds a JSON array, on an
    event that is a JSON array, on a Config or State file that is not
    UTF-8, on a category whose candidates all carry the file that was
    played last, and on a State file that cannot be written. *)
Theorem handler_can_exit_nonzero :
  main (with_state (Json (PList [])) (fresh_world stop_event))
    = ([], Raise AttributeError)
  /\ exit_code (main (with_state (Json (PList [])) (fresh_world stop_event)))
     = 1
  /\ main (fresh_world (PList [])) = ([], Raise AttributeError)
  /\ main (with_config NotUtf8 (fresh_world stop_event))
     = ([], Raise UnicodeDecodeError)
  /\ main (with_state
             (Json (PDict [("last_played",
                            PDict [("task.complete", PStr "a.wav")])]))
             (with_manifest (Json (pack_with "task.complete"
                                     ["a.wav"; "a.wav"]))
                (fresh_world stop_event)))
     = ([ETitle (title_bytes "* claude: done")], Raise IndexError)
  /\ main (read_only_state (fresh_world stop_event))
     = ([ETitle (title_bytes "* claude: done")], Raise OSError).
Proof.
  repeat split.
Qed.

(* ------------------------------------------------------------------ *)
(** ** Traces *)
(* ------------------------------------------------------------------ *)

Lemma bind_ok {A B} (a : A) (f : A -> run B) :
  bind (lift (Ok a)) f = f a.
Proof. unfold bind, lift. simpl. now destruct (f a). Qed.

Lemma bind_raise {A B} (x : exn) (f : A -> run B) :
  bind (lift (Raise x)) f = ([], Raise x).
Proof. reflexivity. Qed.

Lemma bind_ret {A B} (a : A) (f : A -> run B) :
  bind (ret a) f = f a.
Proof. apply bind_ok. Qed.

Lemma bind_emit {B} (e : effect) (f : unit -> run B) :
  bind (emit e) f = (e :: fst (f tt), snd (f tt)).
Proof. reflexivity. Qed.


(** When the gates let the event through, [main] goes on with lines
    329-393; the only trace of lines 278-327 is then the notice of a
    paused [SessionStart]. *)
Lemma prelude_proceeds (w : world) (e : list effect) (c : ctx) :
  prelude w = (e, Ok (Some c)) ->
  e = (if py_eqb (c_event_name c) (PStr "SessionStart") && c_paused c
       then [EStderr paused_notice] else [])
  /\ main w = (e ++ fst (body w c), snd (body w c)).
Proof.
  intros H. split.
  - unfold prelude in H.
    destruct (stdin_doc w) as [| | | | ev]; cbn in H; try discriminate H.
    destruct (gates w ev) as [[| st | c0] | x]; cbn in H; try discriminate H.
    + unfold save_json in H. destruct (state_writable w); discriminate H.
    + destruct (py_eqb (c_event_name c0) (PStr "SessionStart") && c_paused c0)
        eqn:E; cbn in H; inversion H; subst; now rewrite E.
  - unfold main, bind. rewrite H. reflexivity.
Qed.

Lemma body_of_decide (w : world) (c : ctx) (d : decision) (state : pyval) :
  decide w c = Ok (Some (d, state)) -> body w c = finish w c d state.
Proof.
  intros H. unfold body. rewrite H. apply (bind_ok (Some (d, state))).
Qed.

(** The title is written first, whatever follows. *)
Lemma finish_starts_with_title (w : world) (c : ctx) (d : decision)
    (state : pyval) :
  exists rest r,
    finish w c d state = (ETitle (title_bytes (title_of c d)) :: rest, r).
Proof.
  unfold finish. rewrite bind_emit. eexists _, _. reflexivity.
Qed.

(* ------------------------------------------------------------------ *)
(** ** The sound step and the state that is saved *)
(* ------------------------------------------------------------------ *)

Ltac step_in H :=
  match type of H with
  | context [rbind ?m _] =>
      let E := fresh "E" in
      destruct m eqn:E; cbn [rbind] in H; try discriminate H
  end.

(** Only [last_played] is touched by the selector. *)
Lemma set_last_played_frame (state state' file : pyval) (cat k : string)
    (dflt : pyval) :
  set_last_played state cat file = Ok state' ->
  k <> "last_played" ->
  py_get state' k dflt = py_get state k dflt.
Proof.
  unfold set_last_played. intros H Hk.
  step_in H. step_in H.
  exact (py_setitem_frame state state' a0 k "last_played" dflt H Hk).
Qed.

Lemma pick_sound_frame (w : world) (pack_dir cat : string)
    (state state' : pyval) (r : option string) (k : string) (dflt : pyval) :
  pick_sound w pack_dir cat state = Ok (r, state') ->
  k <> "last_played" ->
  py_get state' k dflt = py_get state k dflt.
Proof.
  unfold pick_sound. intros H Hk.
  step_in H. step_in H.
  destruct (negb (truthy a0)).
  - inversion H. reflexivity.
  - step_in H. step_in H. step_in H. step_in H. step_in H. step_in H.
    inversion H; subst.
    exact (set_last_played_frame state state' a4 cat k dflt E5 Hk).
Qed.

(** The sound step plays at most one sound and touches only
    [last_played]. *)
Lemma play_step_spec (w : world) (c : ctx) (d : decision) (state : pyval) :
  exists played r,
    play_step w c d state = (played, r)
    /\ (forall e, In e played -> is_play e = true)
    /\ (forall state' k dflt, r = Ok state' -> k <> "last_played" ->
          py_get state' k dflt = py_get state k dflt).
Proof.
  unfold play_step.
  destruct (os_path_join _ (c_active_pack c)) as [pack_dir | x].
  - rewrite bind_ok.
    destruct (negb (String.eqb (category d) "") && negb (c_paused c)).
    + destruct (pick_sound w pack_dir (category d) state)
        as [[sound state1] | x] eqn:Ep.
      * rewrite bind_ok. cbn [fst snd].
        assert (Hframe : forall state' k dflt,
                   Ok state1 = Ok state' -> k <> "last_played" ->
                   py_get state' k dflt = py_get state k dflt).
        { intros state' k dflt Heq Hk. inversion Heq; subst.
          exact (pick_sound_frame w pack_dir _ state state' sound k dflt Ep Hk). }
        destruct sound as [sound_file |].
        -- destruct (negb (String.eqb sound_file "")
                     && sound_exists w sound_file).
           ++ exists [EPlay sound_file (c_volume c)], (Ok state1).
              split; [reflexivity |]. split; [| exact Hframe].
              intros e [<- | []]. reflexivity.
           ++ exists [], (Ok state1).
              split; [reflexivity |]. split; [intros e [] | exact Hframe].
        -- exists [], (Ok state1).
           split; [reflexivity |]. split; [intros e [] | exact Hframe].
      * exists [], (Raise x). split; [reflexivity |].
        split; [intros e [] | discriminate].
    + exists [], (Ok state). split; [reflexivity |].
      split; [intros e [] |].
      intros state' k dflt Heq _. now inversion Heq.
  - exists [], (Raise x). split; [reflexivity |].
    split; [intros e [] | discriminate].
Qed.

(** Whatever [finish] saves agrees with the decided state on every key
    but [last_played]. *)
Lemma finish_saves_frame (w : world) (c : ctx) (d : decision)
    (state doc : pyval) (k : string) (dflt : pyval) :
  In (ESave doc) (fst (finish w c d state)) ->
  k <> "last_played" ->
  py_get doc k dflt = py_get state k dflt.
Proof.
  unfold finish. rewrite bind_emit. cbn [fst].
  destruct (play_step_spec w c d state) as [played [r [Hplay [Hp Hframe]]]].
  rewrite Hplay. intros [H | H] Hk; [discriminate H |].
  destruct r as [state' | x]; unfold bind in H; cbn [fst snd] in H.
  - apply in_app_or in H. destruct H as [H | H].
    + apply Hp in H. discriminate H.
    + unfold save_json in H. destruct (state_writable w); cbn in H.
      * destruct (notify d && negb (c_paused c) && truthy (c_desktop_notif c)
                  && negb (terminal_focused w)); cbn in H.
        -- destruct H as [H | [H | []]]; [| discriminate H].
           inversion H; subst. exact (Hframe doc k dflt eq_refl Hk).
        -- destruct H as [H | []].
           inversion H; subst. exact (Hframe doc k dflt eq_refl Hk).
      * destruct H.
  - apply Hp in H. discriminate H.
Qed.

(* ------------------------------------------------------------------ *)
(** ** The end-to-end scenario *)
(* ------------------------------------------------------------------ *)




(* ------------------------------------------------------------------ *)
(** ** Category toggles *)
(* ------------------------------------------------------------------ *)

(** Lines 348-351, 359-364 and 370-372: a [Stop] event and an
    [idle_prompt] notification are done, marked, and carry the category
    [task.complete] unless its toggle is falsy. *)
Lemma decide_completes (w : world) (c : ctx) (toggle : pyval) :
  completes c ->
  py_get (c_cat_config c) "task.complete" (PBool true) = Ok toggle ->
  exists d,
    decide w c = Ok (Some (d, c_state c))
    /\ category d = (if truthy toggle then "task.complete" else "")
    /\ status d = "done" /\ marker d = "* ".
Proof.
  intros [Hev | [Hev Hnt]] Hget; unfold decide, classify; rewrite Hev;
    try rewrite Hnt;
    cbn [py_eqb String.eqb Ascii.eqb Bool.eqb rbind category_check category];
    rewrite Hget; cbn [rbind]; eexists; (split; [reflexivity |]);
    destruct (truthy toggle); repeat split.
Qed.

(** Without a category the sound step plays nothing and the state is
    saved as it is. *)
Lemma finish_without_category (w : world) (c : ctx) (d : decision)
    (state : pyval) :
  category d = "" ->
  exists rest r,
    finish w c d state = (ETitle (title_bytes (title_of c d)) :: rest, r)
    /\ (forall e, In e rest -> is_play e = false)
    /\ (forall doc, In (ESave doc) rest -> doc = state).
Proof.
  intros Hcat. unfold finish, play_step. rewrite bind_emit, Hcat.
  cbn [String.eqb negb andb].
  destruct (os_path_join _ (c_active_pack c)) as [pack_dir | x].
  - rewrite bind_ok, bind_ret. unfold save_json.
    destruct (state_writable w).
    + rewrite bind_emit.
      destruct (notify d && negb (c_paused c) && truthy (c_desktop_notif c)
                && negb (terminal_focused w)); cbn [fst snd ret emit];
        eexists _, _; (split; [reflexivity |]); split.
      * intros e [<- | [<- | []]]; reflexivity.
      * intros doc [H | [H | []]]; [now inversion H | discriminate H].
      * intros e [<- | []]; reflexivity.
      * intros doc [H | []]; now inversion H.
    + rewrite bind_raise. eexists _, _. split; [reflexivity |].
      split; [intros e [] | intros doc []].
  - rewrite !bind_raise. eexists _, _. split; [reflexivity |].
    split; [intros e [] | intros doc []].
Qed.

(** C9: with [categories["task.complete"]] set to false, a [Stop] event
    and an [idle_prompt] notification that pass the gates select no sound
    (the category is cleared, nothing is played and the State is saved as
    it was loaded), while the status "done", the marker "* " and the
    title that the handler writes are the same as in an invocation where
    the category is enabled. *)
Theorem task_complete_toggle_keeps_title :
  forall (w_off w_on : world) (e_off e_on : list effect) (c_off c_on : ctx)
         (toggle_on : pyval),
    prelude w_off = (e_off, Ok (Some c_off)) ->
    prelude w_on = (e_on, Ok (Some c_on)) ->
    completes c_off ->
    c_event_name c_on = c_event_name c_off ->
    c_ntype c_on = c_ntype c_off ->
    c_project c_on = c_project c_off ->
    py_get (c_cat_config c_off) "task.complete" (PBool true)
      = Ok (PBool false) ->
    py_get (c_cat_config c_on) "task.complete" (PBool true) = Ok toggle_on ->
    truthy toggle_on = true ->
    let title := ("* " ++ c_project c_off ++ ": done")%string in
    exists d_off d_on,
      decide w_off c_off = Ok (Some (d_off, c_state c_off))
      /\ decide w_on c_on = Ok (Some (d_on, c_state c_on))
      /\ category d_off = "" /\ category d_on = "task.complete"
      /\ status d_off = "done" /\ status d_on = "done"
      /\ marker d_off = "* " /\ marker d_on = "* "
      /\ title_of c_off d_off = title /\ title_of c_on d_on = title
      /\ (exists rest r,
            main w_off = (ETitle (title_bytes title) :: rest, r)
            /\ (forall e, In e rest -> is_play e = false)
            /\ (forall doc, In (ESave doc) rest -> doc = c_state c_off))
      /\ (exists rest r, main w_on = (ETitle (title_bytes title) :: rest, r)).
Proof.
  intros w_off w_on e_off e_on c_off c_on toggle_on Hpre_off Hpre_on
         Hoff Hev Hnt Hproj Hget_off Hget_on Hon title.
  assert (Hcomp_on : completes c_on).
  { unfold completes in *. rewrite Hev, Hnt. exact Hoff. }
  assert (Hquiet : forall c, completes c ->
            py_eqb (c_event_name c) (PStr "SessionStart") && c_paused c
            = false).
  { intros c [Hc | [Hc _]]; rewrite Hc; reflexivity. }
  destruct (prelude_proceeds w_off e_off c_off Hpre_off) as [He_off Hm_off'].
  destruct (prelude_proceeds w_on e_on c_on Hpre_on) as [He_on Hm_on'].
  rewrite (Hquiet c_off Hoff) in He_off. rewrite (Hquiet c_on Hcomp_on) in He_on.
  subst e_off e_on. cbn [app] in Hm_off', Hm_on'.
  destruct (decide_completes w_off c_off (PBool false) Hoff Hget_off)
    as [d_off [Hd_off [Hc_off [Hs_off Hm_off]]]].
  destruct (decide_completes w_on c_on toggle_on Hcomp_on Hget_on)
    as [d_on [Hd_on [Hc_on [Hs_on Hm_on]]]].
  rewrite Hon in Hc_on. cbn [truthy] in Hc_off.
  assert (Ht_off : title_of c_off d_off = title).
  { unfold title_of. now rewrite Hs_off, Hm_off. }
  assert (Ht_on : title_of c_on d_on = title).
  { unfold title_of. now rewrite Hs_on, Hm_on, Hproj. }
  exists d_off, d_on.
  repeat (split; [assumption |]).
  split.
  - rewrite Hm_off', (body_of_decide w_off c_off d_off _ Hd_off).
    destruct (finish_without_category w_off c_off d_off (c_state c_off) Hc_off)
      as [rest [r [Hfin [Hplay Hsave]]]].
    exists rest, r. rewrite Hfin, Ht_off. now repeat split.
  - rewrite Hm_on', (body_of_decide w_on c_on d_on _ Hd_on).
    destruct (finish_starts_with_title w_on c_on d_on (c_state c_on))
      as [rest [r Hfin]].
    exists rest, r. now rewrite Hfin, Ht_on.
Qed.

Lemma task_complete_toggle_witness :
  exists rest r,
    main (with_config (Json (toggle_off "task.complete"))
            (fresh_world stop_event))
    = (ETitle (title_bytes "* claude: done") :: rest, r)
    /\ (forall e, In e rest -> is_play e = false).
Proof.
  destruct (task_complete_toggle_keeps_title
              (with_config (Json (toggle_off "task.complete"))
                 (fresh_world stop_event))
              (fresh_world stop_event) [] []
              (loaded_ctx (toggle_off "task.complete")
                 (PDict [("task.complete", PBool false)]) "Stop" "")
              (loaded_ctx default_config (PDict []) "Stop" "")
              (PBool true)
              eq_refl eq_refl (or_introl eq_refl) eq_refl eq_refl eq_refl
              eq_refl eq_refl eq_refl)
    as [d_off [d_on [_ [_ [_ [_ [_ [_ [_ [_ [_ [_ [Hoff _]]]]]]]]]]]]].
  destruct Hoff as [rest [r [Hmain [Hplay _]]]].
  exists rest, r. split; [exact Hmain | exact Hplay].
Defined.

(* ------------------------------------------------------------------ *)
(** ** The burst detector *)
(* ------------------------------------------------------------------ *)

Lemma filter_res_in_window (now win : Q) (ts : list Q) :
  filter_res (in_window now (PNum win)) (map PNum ts)
  = Ok (map PNum (keep_recent now win ts)).
Proof.
  induction ts as [| t ts IH]; simpl.
  - reflexivity.
  - rewrite IH. cbn [rbind]. now destruct (Qlt_b (now - t)%Q win).
Qed.

(** [check_annoyed] on a state whose timestamps are numbers. *)
Lemma check_annoyed_numeric (now th win : Q) (st : list (string * pyval))
    (ts : list Q) :
  prior_timestamps st ts ->
  check_annoyed now (PDict st) (PNum th) (PNum win)
  = Ok (PDict (dict_set "prompt_timestamps"
                 (PList (map PNum (keep_recent now win ts ++ [now]))) st),
        Qle_bool th (inject_Z (Z.of_nat
                       (List.length (keep_recent now win ts ++ [now]))))).
Proof.
  intros Hprior. unfold check_annoyed. cbn [py_get rbind].
  assert (Hiter : py_iter (match dict_get "prompt_timestamps" st with
                           | Some x => x
                           | None => PList []
                           end) = Ok (map PNum ts)).
  { destruct Hprior as [-> | [-> ->]]; reflexivity. }
  rewrite Hiter. cbn [rbind]. rewrite filter_res_in_window.
  cbn [rbind py_setitem as_num num_of].
  rewrite map_app, !length_app, length_map. reflexivity.
Qed.

Lemma prior_after_update (st : list (string * pyval)) (ts : list Q) :
  prior_timestamps
    (dict_set "prompt_timestamps" (PList (map PNum ts)) st) ts.
Proof. left. apply dict_get_set_same. Qed.

Lemma keep_recent_app (now win : Q) (a b : list Q) :
  keep_recent now win (a ++ b) = keep_recent now win a ++ keep_recent now win b.
Proof. apply filter_app. Qed.

Lemma keep_recent_In (now win : Q) (ts : list Q) (t : Q) :
  In t (keep_recent now win ts) <-> In t ts /\ (now - t < win)%Q.
Proof.
  unfold keep_recent. rewrite filter_In, Qlt_b_iff. reflexivity.
Qed.

Lemma keep_recent_one_in (now win x : Q) :
  (now - x < win)%Q -> keep_recent now win [x] = [x].
Proof.
  intros H. unfold keep_recent. cbn [filter]. now rewrite (Qlt_b_true _ _ H).
Qed.

Lemma keep_recent_one_out (now win x : Q) :
  (win <= now - x)%Q -> keep_recent now win [x] = [].
Proof.
  intros H. unfold keep_recent. cbn [filter]. now rewrite (Qlt_b_false _ _ H).
Qed.

Lemma at_least_three (n : nat) :
  Qle_bool 3 (inject_Z (Z.of_nat (S (S (S n))))) = true.
Proof.
  apply Qle_bool_iff. unfold Qle, inject_Z. simpl Qnum. simpl Qden. lia.
Qed.

(** C2, as the claim states it, fails on the boundary: a timestamp that
    is exactly [window_seconds] old is not older than the window, yet
    line 225 keeps only the timestamps with [now - t < window_sec] and
    drops it. *)
Lemma boundary_timestamp_is_dropped :
  check_annoyed 10%Q (state_with [0%Q]) (PNum 2%Q) (PNum 10%Q)
    = Ok (state_with [10%Q], false)
  /\ spec_record_and_check [0%Q] 10%Q 2%Q 10%Q = ([0%Q; 10%Q], true)
  /\ check_annoyed 10%Q (state_with [0%Q]) (PNum 2%Q) (PNum 10%Q)
     <> Ok (state_with (fst (spec_record_and_check [0%Q] 10%Q 2%Q 10%Q)),
            snd (spec_record_and_check [0%Q] 10%Q 2%Q 10%Q)).
Proof.
  split; [reflexivity |]. split; [reflexivity |].
  vm_compute. discriminate.
Qed.

(** C2 (amended): for a current time and stored timestamps on one
    binary grid (where the subtraction of line 225 is exact),
    [check_annoyed] replaces the stored sequence with the prior
    timestamps that are strictly less than [window_seconds] old
    ([now - t < window_seconds]), in their order, with [now] appended,
    and reports a burst if and only if the count after the append is at
    least the threshold; with threshold 3 and window 10, prompts at [t],
    [t+1], [t+2] report a burst on the third, and prompts at [t], [t+1],
    [t+15] on an empty history report none. *)
Theorem check_annoyed_sliding_window :
  forall (st : list (string * pyval)) (ts : list Q) (k : nat),
    prior_timestamps st ts ->
    forallb (on_grid k) ts = true ->
    (forall now th win,
       on_grid k now = true ->
       let kept := keep_recent now win ts in
       let count := inject_Z (Z.of_nat (List.length (kept ++ [now]))) in
       check_annoyed now (PDict st) (PNum th) (PNum win)
       = Ok (PDict (dict_set "prompt_timestamps"
                      (PList (map PNum (kept ++ [now]))) st),
             Qle_bool th count)
       /\ (forall t, In t kept <-> In t ts /\ (now - t < win)%Q)
       /\ (Qle_bool th count = true <-> (th <= count)%Q))
    /\ (forall t,
          on_grid k t = true -> on_grid k (t + 1)%Q = true ->
          on_grid k (t + 2)%Q = true ->
          exists b1 b2,
            three_prompts (PDict st) (PNum 3%Q) (PNum 10%Q)
              t (t + 1)%Q (t + 2)%Q = Ok (b1, b2, true))
    /\ (ts = [] ->
        forall t,
          on_grid k t = true -> on_grid k (t + 1)%Q = true ->
          on_grid k (t + 15)%Q = true ->
          three_prompts (PDict st) (PNum 3%Q) (PNum 10%Q)
            t (t + 1)%Q (t + 15)%Q = Ok (false, false, false)).
Proof.
  intros st ts k Hprior Hgrid. split; [| split].
  - intros now th win Hnow kept count. split; [| split].
    + exact (check_annoyed_numeric now th win st ts Hprior).
    + intros t. apply keep_recent_In.
    + apply Qle_bool_iff.
  - intros t _ _ _. unfold three_prompts.
    rewrite (check_annoyed_numeric t 3 10 st ts Hprior). cbn [rbind].
    rewrite (check_annoyed_numeric (t + 1) 3 10 _ _ (prior_after_update st _)).
    cbn [rbind].
    rewrite (check_annoyed_numeric (t + 2) 3 10 _ _ (prior_after_update _ _)).
    cbn [rbind]. eexists _, _. f_equal. f_equal.
    rewrite !keep_recent_app.
    rewrite (keep_recent_one_in (t + 1) 10 t) by lra.
    rewrite (keep_recent_one_in (t + 2) 10 t) by lra.
    rewrite (keep_recent_one_in (t + 2) 10 (t + 1)) by lra.
    rewrite !length_app. cbn [List.length].
    replace (_ + 1 + 1 + 1) with (S (S (S (List.length
      (keep_recent (t + 2) 10 (keep_recent (t + 1) 10 (keep_recent t 10 ts)))))))
      by lia.
    apply at_least_three.
  - intros -> t _ _ _. unfold three_prompts.
    rewrite (check_annoyed_numeric t 3 10 st [] Hprior). cbn [rbind].
    rewrite (check_annoyed_numeric (t + 1) 3 10 _ _ (prior_after_update st _)).
    cbn [rbind].
    rewrite (check_annoyed_numeric (t + 15) 3 10 _ _ (prior_after_update _ _)).
    cbn [rbind]. change (keep_recent t 10 []) with (@nil Q). cbn [app].
    rewrite (keep_recent_one_in (t + 1) 10 t) by lra. cbn [app].
    change [t; (t + 1)%Q] with ([t] ++ [(t + 1)%Q]).
    rewrite keep_recent_app.
    rewrite (keep_recent_one_out (t + 15) 10 t) by lra.
    rewrite (keep_recent_one_out (t + 15) 10 (t + 1)) by lra.
    reflexivity.
Qed.

Lemma check_annoyed_sliding_window_witness :
  three_prompts (state_with []) (PNum 3%Q) (PNum 10%Q) 100%Q (100 + 1)%Q
    (100 + 15)%Q = Ok (false, false, false).
Proof.
  destruct (check_annoyed_sliding_window
              [("prompt_timestamps", PList [])] [] 0 (or_introl eq_refl)
              eq_refl)
    as [_ [_ Hquiet]].
  exact (Hquiet eq_refl 100%Q eq_refl eq_refl eq_refl).
Defined.

(* ------------------------------------------------------------------ *)
(** ** Prompts *)
(* ------------------------------------------------------------------ *)

(** C3, as the claim states it, fails when [user.spam] is disabled: the
    [and] of line 342 then skips the call of [check_annoyed], and the
    State is saved with its timestamps as they were, the reading of the
    clock not appended. *)
Lemma spam_disabled_skips_detector :
  main spam_off_world
  = ([ETitle (title_bytes "claude: working"); ESave (state_with [995%Q])],
     Ok tt)
  /\ clock spam_off_world = 1000%Q
  /\ forall doc, In (ESave doc) (fst (main spam_off_world)) ->
       py_get doc "prompt_timestamps" (PList []) = Ok (PList [PNum 995%Q]).
Proof.
  split; [reflexivity |]. split; [reflexivity |].
  intros doc H. vm_compute in H.
  destruct H as [H | [H | []]]; [discriminate H |].
  inversion H. reflexivity.
Qed.

(** The decision on a prompt, lines 339-347 and 370-372. *)
Lemma decide_prompt (w : world) (c : ctx) (st : list (string * pyval))
    (ts : list Q) (th win : Q) (spam : pyval) :
  c_event_name c = PStr "UserPromptSubmit" ->
  c_state c = PDict st ->
  prior_timestamps st ts ->
  py_get (c_config c) "annoyed_threshold" (PNum 3%Q) = Ok (PNum th) ->
  py_get (c_config c) "annoyed_window_seconds" (PNum 10%Q) = Ok (PNum win) ->
  py_get (c_cat_config c) "user.spam" (PBool true) = Ok spam ->
  exists d,
    decide w c
    = Ok (Some (d, if truthy spam
                   then PDict (dict_set "prompt_timestamps"
                                 (PList (map PNum
                                    (keep_recent (clock w) win ts
                                       ++ [clock w]))) st)
                   else c_state c))
    /\ status d = "working".
Proof.
  intros Hev Hst Hprior Hth Hwin Hspam.
  unfold decide, classify. rewrite Hev.
  cbn [py_eqb String.eqb Ascii.eqb Bool.eqb].
  rewrite Hth, Hwin, Hspam. cbn [rbind].
  destruct (c_cat_config c) as [| | | | | cats] eqn:Ecats;
    try discriminate Hspam.
  destruct (truthy spam) eqn:Espam.
  - rewrite Hst, (check_annoyed_numeric (clock w) th win st ts Hprior).
    cbn [rbind].
    destruct (Qle_bool th _).
    + cbn [rbind category_check category String.eqb Ascii.eqb Bool.eqb].
      rewrite Hspam. cbn [rbind]. rewrite Espam.
      eexists. split; reflexivity.
    + cbn [py_get rbind].
      destruct (truthy (match dict_get "task.acknowledge" cats with
                        | Some x => x
                        | None => PBool true
                        end)) eqn:Eack.
      * cbn [rbind category_check category String.eqb Ascii.eqb Bool.eqb
             py_get].
        rewrite Eack. eexists. split; reflexivity.
      * cbn [rbind category_check category String.eqb].
        eexists. split; reflexivity.
  - cbn [py_get rbind].
    destruct (truthy (match dict_get "task.acknowledge" cats with
                      | Some x => x
                      | None => PBool true
                      end)) eqn:Eack.
    + cbn [rbind category_check category String.eqb Ascii.eqb Bool.eqb
           py_get].
      rewrite Eack. eexists. split; reflexivity.
    + cbn [rbind category_check category String.eqb].
      eexists. split; reflexivity.
Qed.

(** C3 (amended): for a [UserPromptSubmit] event that has passed the
    gates, with the clock and the stored timestamps on one binary grid
    (where the subtraction of line 225 is exact) whenever the detector
    runs, the burst detector runs whenever the [user.spam] toggle is not
    falsy, whatever the other toggles of [config.categories] are (so also
    when [task.acknowledge] is disabled): [prompt_timestamps] is pruned,
    the current time is appended, and that is what the handler saves;
    when [user.spam] is disabled the detector is skipped and
    [prompt_timestamps] stays as it was loaded. *)
Theorem prompt_updates_detector_unless_spam_disabled :
  forall (w : world) (e : list effect) (c : ctx)
         (st : list (string * pyval)) (ts : list Q)
         (th win : Q) (spam : pyval),
    prelude w = (e, Ok (Some c)) ->
    c_event_name c = PStr "UserPromptSubmit" ->
    c_state c = PDict st ->
    prior_timestamps st ts ->
    py_get (c_config c) "annoyed_threshold" (PNum 3%Q) = Ok (PNum th) ->
    py_get (c_config c) "annoyed_window_seconds" (PNum 10%Q) = Ok (PNum win) ->
    py_get (c_cat_config c) "user.spam" (PBool true) = Ok spam ->
    (truthy spam = true ->
     exists k, on_grid k (clock w) = true /\ forallb (on_grid k) ts = true) ->
    let updated :=
      PList (map PNum (keep_recent (clock w) win ts ++ [clock w])) in
    let state1 :=
      if truthy spam then PDict (dict_set "prompt_timestamps" updated st)
      else c_state c in
    exists d,
      decide w c = Ok (Some (d, state1))
      /\ status d = "working"
      /\ (truthy spam = true ->
          py_get state1 "prompt_timestamps" (PList []) = Ok updated)
      /\ (truthy spam = false -> state1 = c_state c)
      /\ (forall doc, In (ESave doc) (fst (main w)) ->
            py_get doc "prompt_timestamps" (PList [])
            = py_get state1 "prompt_timestamps" (PList [])).
Proof.
  intros w e c st ts th win spam Hpre Hev Hst Hprior Hth Hwin Hspam _
         updated state1.
  destruct (decide_prompt w c st ts th win spam Hev Hst Hprior Hth Hwin Hspam)
    as [d [Hd Hstatus]].
  exists d. split; [exact Hd |]. split; [exact Hstatus |].
  split; [| split].
  - intros Htrue. subst state1. rewrite Htrue. cbn [py_get].
    now rewrite dict_get_set_same.
  - intros Hfalse. subst state1. now rewrite Hfalse.
  - intros doc Hdoc.
    destruct (prelude_proceeds w e c Hpre) as [He Hmain].
    rewrite Hev in He. cbn in He. subst e.
    rewrite Hmain in Hdoc. cbn [fst app] in Hdoc.
    rewrite (body_of_decide w c d _ Hd) in Hdoc.
    apply (finish_saves_frame w c d _ doc "prompt_timestamps" (PList []) Hdoc).
    discriminate.
Qed.

Lemma prompt_updates_detector_witness :
  exists d,
    decide (with_config (Json (toggle_off "task.acknowledge"))
              (fresh_world prompt_event))
           (loaded_ctx (toggle_off "task.acknowledge")
              (PDict [("task.acknowledge", PBool false)])
              "UserPromptSubmit" "")
    = Ok (Some (d, state_with [1000%Q]))
    /\ (forall doc,
          In (ESave doc)
             (fst (main (with_config (Json (toggle_off "task.acknowledge"))
                           (fresh_world prompt_event)))) ->
          py_get doc "prompt_timestamps" (PList [])
          = Ok (PList [PNum 1000%Q])).
Proof.
  destruct (prompt_updates_detector_unless_spam_disabled
              (with_config (Json (toggle_off "task.acknowledge"))
                 (fresh_world prompt_event))
              []
              (loaded_ctx (toggle_off "task.acknowledge")
                 (PDict [("task.acknowledge", PBool false)])
                 "UserPromptSubmit" "")
              [] [] 3%Q 10%Q (PBool true)
              eq_refl eq_refl eq_refl (or_intror (conj eq_refl eq_refl))
              eq_refl eq_refl eq_refl
              (fun _ => ex_intro _ 0 (conj eq_refl eq_refl)))
    as [d [Hd [_ [_ [_ Hsaved]]]]].
  exists d. split; [exact Hd | exact Hsaved].
Defined.

(* ------------------------------------------------------------------ *)
(** ** The repeat-avoiding selector *)
(* ------------------------------------------------------------------ *)

Lemma entry_file_of (e : pyval) (f : pyval) :
  py_index e "file" = Ok f -> entry_file e = f.
Proof. unfold entry_file. now intros ->. Qed.

(** Lines 212-213 on two or more well-formed candidates. *)
Lemma sound_pool_many (entries : list pyval) (last : pyval) :
  Forall names_file entries ->
  2 <= List.length entries ->
  sound_pool (PList entries) last = Ok (PList (excluding last entries)).
Proof.
  intros Hwf Hlen. unfold sound_pool. cbn [py_len rbind].
  destruct (Nat.leb (List.length entries) 1) eqn:E.
  - apply Nat.leb_le in E. lia.
  - cbn [py_iter rbind].
    rewrite (filter_res_total _
               (fun e => negb (py_eqb (entry_file e) last)) entries).
    + reflexivity.
    + intros x Hx. rewrite Forall_forall in Hwf.
      destruct (Hwf x Hx) as [f Hf].
      rewrite Hf. cbn [rbind]. now rewrite (entry_file_of x _ Hf).
Qed.

(** Lines 212-213 on at most one candidate. *)
Lemma sound_pool_few (entries : list pyval) (last : pyval) :
  List.length entries <= 1 -> sound_pool (PList entries) last = Ok (PList entries).
Proof.
  intros Hlen. unfold sound_pool. cbn [py_len rbind].
  apply Nat.leb_le in Hlen. now rewrite Hlen.
Qed.

(** [random.choice] on a non-empty list takes the item at the draw. *)
Lemma random_choice_list (draw : nat) (pool : list pyval) :
  pool <> [] ->
  exists e,
    nth_error pool (draw mod List.length pool) = Some e
    /\ random_choice draw (PList pool) = Ok e.
Proof.
  intros Hne. unfold random_choice.
  destruct (nth_error pool (draw mod List.length pool)) as [e |] eqn:E.
  - now exists e.
  - exfalso. apply nth_error_None in E.
    assert (0 < List.length pool) by (destruct pool; [congruence | simpl; lia]).
    pose proof (Nat.mod_upper_bound draw (List.length pool)). lia.
Qed.

(** Line 215 after line 211: the memory of the category is overwritten. *)
Lemma set_last_played_ok (state last file : pyval) (cat : string) :
  last_played_of state cat = Ok last ->
  exists state',
    set_last_played state cat file = Ok state'
    /\ last_played_of state' cat = Ok file.
Proof.
  unfold last_played_of, set_last_played. intros H.
  destruct (py_get state "last_played" (PDict [])) as [lp |] eqn:Elp;
    cbn [rbind] in *; [| discriminate H].
  destruct lp as [| | | | | l]; try discriminate H.
  destruct state as [| | | | | st]; try discriminate Elp.
  cbn [py_setitem rbind]. eexists. split; [reflexivity |].
  unfold py_get. cbn [rbind].
  rewrite (dict_get_set_same "last_played" (PDict (dict_set cat file l)) st).
  now rewrite (dict_get_set_same cat file l).
Qed.

(** The body of [pick_sound] from line 214 on, once the pool is known. *)
Lemma pick_sound_from_pool (w : world) (pack_dir cat : string)
    (state manifest last : pyval) (entries pool : list pyval) :
  load_json (manifest_file w (path_join pack_dir "openpeon.json")) PNone
    = Ok manifest ->
  manifest_sounds manifest cat = Ok (PList entries) ->
  last_played_of state cat = Ok last ->
  sound_pool (PList entries) last = Ok (PList pool) ->
  entries <> [] ->
  pool <> [] ->
  Forall names_file pool ->
  exists e f state',
    nth_error pool (rand w mod List.length pool) = Some e
    /\ py_index e "file" = Ok (PStr f)
    /\ pick_sound w pack_dir cat state = Ok (Some (path_join pack_dir f), state')
    /\ last_played_of state' cat = Ok (PStr f).
Proof.
  intros Hman Hsounds Hlast Hpool Hent Hne Hwf.
  destruct (random_choice_list (rand w) pool Hne) as [e [Hnth Hchoice]].
  assert (Hin : In e pool) by exact (nth_error_In _ _ Hnth).
  rewrite Forall_forall in Hwf. destruct (Hwf e Hin) as [f Hf].
  destruct (set_last_played_ok state last (PStr f) cat Hlast)
    as [state' [Hset Hmem]].
  exists e, f, state'.
  split; [exact Hnth |]. split; [exact Hf |]. split; [| exact Hmem].
  unfold pick_sound. rewrite Hman. cbn [rbind]. rewrite Hsounds. cbn [rbind].
  assert (Ht : truthy (PList entries) = true)
    by (destruct entries; [congruence | reflexivity]).
  rewrite Ht. cbn [negb]. rewrite Hlast. cbn [rbind].
  rewrite Hpool. cbn [rbind]. rewrite Hchoice. cbn [rbind].
  rewrite Hf. cbn [rbind]. rewrite Hset. cbn [rbind os_path_join].
  reflexivity.
Qed.

Lemma excluding_In (last e : pyval) (entries : list pyval) :
  In e (excluding last entries) ->
  In e entries /\ py_eqb (entry_file e) last = false.
Proof.
  unfold excluding. rewrite filter_In, negb_true_iff. tauto.
Qed.

Lemma excluding_wf (last : pyval) (entries : list pyval) :
  Forall names_file entries -> Forall names_file (excluding last entries).
Proof.
  intros H. rewrite Forall_forall in *. intros x Hx.
  apply H. now apply excluding_In in Hx.
Qed.

(** C4, as the claim states it, fails when every candidate of a list of
    two or more carries the file that was played last: nothing differs
    from [last_played], the pool of line 212 is empty and
    [random.choice] raises instead of returning a candidate. *)
Lemma exhausted_pool_raises :
  pick_sound (with_manifest (Json worn_out_pack) (fresh_world stop_event))
    "/opt/peon-ping/packs/peon" "task.complete" worn_out_state
  = Raise IndexError.
Proof. reflexivity. Qed.

(** C4 (amended): [pick_sound] returns none on an empty candidate list;
    on a single candidate it returns that one, even when it was played
    last; on two or more candidates of which at least one differs from
    [last_played] it returns a candidate whose file differs from
    [last_played], the member of the candidates without [last_played]
    that stands at the position of the random draw (so [B] for the
    candidates [A], [B] after [A], whatever the draw); and in each case
    where a file is chosen, [last_played] of the category becomes that
    file. *)
Theorem pick_sound_avoids_repeat :
  forall (w : world) (pack_dir cat : string) (state manifest last : pyval)
         (entries : list pyval),
    load_json (manifest_file w (path_join pack_dir "openpeon.json")) PNone
      = Ok manifest ->
    manifest_sounds manifest cat = Ok (PList entries) ->
    Forall names_file entries ->
    last_played_of state cat = Ok last ->
    (entries = [] -> pick_sound w pack_dir cat state = Ok (None, state))
    /\ (forall e f,
          entries = [e] -> py_index e "file" = Ok (PStr f) ->
          exists state',
            pick_sound w pack_dir cat state
              = Ok (Some (path_join pack_dir f), state')
            /\ last_played_of state' cat = Ok (PStr f))
    /\ (2 <= List.length entries ->
        excluding last entries <> [] ->
        exists e f state',
          nth_error (excluding last entries)
            (rand w mod List.length (excluding last entries)) = Some e
          /\ In e entries
          /\ py_index e "file" = Ok (PStr f)
          /\ py_eqb (PStr f) last = false
          /\ pick_sound w pack_dir cat state
               = Ok (Some (path_join pack_dir f), state')
          /\ last_played_of state' cat = Ok (PStr f))
    /\ (forall a b,
          a <> b ->
          entries = [sound_entry a; sound_entry b] ->
          last = PStr a ->
          exists state',
            pick_sound w pack_dir cat state
              = Ok (Some (path_join pack_dir b), state')
            /\ last_played_of state' cat = Ok (PStr b)).
Proof.
  intros w pack_dir cat state manifest last entries Hman Hsounds Hwf Hlast.
  assert (Hmany : 2 <= List.length entries ->
                  excluding last entries <> [] ->
                  exists e f state',
                    nth_error (excluding last entries)
                      (rand w mod List.length (excluding last entries)) = Some e
                    /\ In e entries
                    /\ py_index e "file" = Ok (PStr f)
                    /\ py_eqb (PStr f) last = false
                    /\ pick_sound w pack_dir cat state
                         = Ok (Some (path_join pack_dir f), state')
                    /\ last_played_of state' cat = Ok (PStr f)).
  { intros Hlen Hne.
    assert (Hent : entries <> []) by (destruct entries; [simpl in Hlen; lia | congruence]).
    destruct (pick_sound_from_pool w pack_dir cat state manifest last entries
                (excluding last entries) Hman Hsounds Hlast
                (sound_pool_many entries last Hwf Hlen) Hent Hne
                (excluding_wf last entries Hwf))
      as [e [f [state' [Hnth [Hf [Hpick Hmem]]]]]].
    destruct (excluding_In last e entries (nth_error_In _ _ Hnth))
      as [Hin Hdiff].
    rewrite (entry_file_of e _ Hf) in Hdiff.
    exists e, f, state'. repeat (split; [assumption |]). assumption. }
  split; [| split; [| split]].
  - intros ->. unfold pick_sound. rewrite Hman. cbn [rbind].
    rewrite Hsounds. reflexivity.
  - intros e f -> Hf.
    destruct (pick_sound_from_pool w pack_dir cat state manifest last [e] [e]
                Hman Hsounds Hlast (sound_pool_few [e] last (le_n 1))
                ltac:(discriminate) ltac:(discriminate) Hwf)
      as [e' [f' [state' [Hnth [Hf' [Hpick Hmem]]]]]].
    cbn [List.length] in Hnth. rewrite Nat.mod_1_r in Hnth.
    inversion Hnth; subst e'. rewrite Hf in Hf'. inversion Hf'; subst f'.
    now exists state'.
  - exact Hmany.
  - intros a b Hab -> ->.
    assert (Hex : excluding (PStr a) [sound_entry a; sound_entry b]
                  = [sound_entry b]).
    { unfold excluding, entry_file, sound_entry. cbn [filter py_index dict_get String.eqb Ascii.eqb Bool.eqb py_eqb].
      rewrite String.eqb_refl. apply String.eqb_neq in Hab.
      rewrite String.eqb_sym, Hab. reflexivity. }
    destruct (Hmany (le_n 2)) as [e [f [state' [Hnth [_ [Hf [_ [Hpick Hmem]]]]]]]].
    { rewrite Hex. discriminate. }
    rewrite Hex in Hnth. cbn [List.length] in Hnth.
    rewrite Nat.mod_1_r in Hnth. inversion Hnth; subst e.
    inversion Hf; subst f. now exists state'.
Qed.

Lemma pick_sound_avoids_repeat_witness :
  exists state',
    pick_sound
      (with_manifest (Json (pack_with "task.complete" ["a.wav"; "b.wav"]))
         (fresh_world stop_event))
      "/opt/peon-ping/packs/peon" "task.complete"
      (PDict [("last_played", PDict [("task.complete", PStr "a.wav")])])
    = Ok (Some "/opt/peon-ping/packs/peon/b.wav", state')
    /\ last_played_of state' "task.complete" = Ok (PStr "b.wav").
Proof.
  assert (Hwf : Forall names_file [sound_entry "a.wav"; sound_entry "b.wav"]).
  { constructor; [now exists "a.wav" |].
    constructor; [now exists "b.wav" | constructor]. }
  destruct (pick_sound_avoids_repeat
              (with_manifest
                 (Json (pack_with "task.complete" ["a.wav"; "b.wav"]))
                 (fresh_world stop_event))
              "/opt/peon-ping/packs/peon" "task.complete"
              (PDict [("last_played", PDict [("task.complete", PStr "a.wav")])])
              (pack_with "task.complete" ["a.wav"; "b.wav"])
              (PStr "a.wav")
              [sound_entry "a.wav"; sound_entry "b.wav"]
              eq_refl eq_refl Hwf eq_refl)
    as [_ [_ [_ Hab]]].
  apply (Hab "a.wav" "b.wav"); [discriminate | reflexivity | reflexivity].
Defined.

(* ------------------------------------------------------------------ *)
(** ** Further properties of the handler *)
(* ------------------------------------------------------------------ *)

(** What lines 374-393 leave behind: the title, at most one sound, then
    the State and, last, at most one notification. *)
Lemma finish_shape (w : world) (c : ctx) (d : decision) (state : pyval) :
  exists played tail r,
    finish w c d state
    = (ETitle (title_bytes (title_of c d)) :: played ++ tail, r)
    /\ (played = []
        \/ exists path,
             played = [EPlay path (c_volume c)]
             /\ category d <> "" /\ c_paused c = false
             /\ sound_exists w path = true
             /\ exists pack state1,
                  c_active_pack c = PStr pack
                  /\ pick_sound w
                       (path_join (path_join (plugin_root w) "packs") pack)
                       (category d) state = Ok (Some path, state1))
    /\ ((tail = [] /\ exists x, r = Raise x)
        \/ exists doc,
             r = Ok tt
             /\ state_writable w = true
             /\ (category d = "" \/ c_paused c = true -> doc = state)
             /\ (forall k dflt, k <> "last_played" ->
                   py_get doc k dflt = py_get state k dflt)
             /\ ((tail = [ESave doc]
                  /\ notify d && negb (c_paused c) && truthy (c_desktop_notif c)
                     && negb (terminal_focused w) = false)
                 \/ (tail = [ESave doc; ENotify (title_of c d) (msg d)]
                     /\ notify d = true /\ c_paused c = false
                     /\ truthy (c_desktop_notif c) = true
                     /\ terminal_focused w = false))).
Proof.
  unfold finish. rewrite bind_emit.
  assert (Hplay : exists played r1,
            play_step w c d state = (played, r1)
            /\ (played = []
                \/ exists path,
                     played = [EPlay path (c_volume c)]
                     /\ category d <> "" /\ c_paused c = false
                     /\ sound_exists w path = true
                     /\ exists pack state1,
                          c_active_pack c = PStr pack
                          /\ pick_sound w
                               (path_join (path_join (plugin_root w) "packs")
                                  pack)
                               (category d) state = Ok (Some path, state1))
            /\ (forall st1, r1 = Ok st1 ->
                  (category d = "" \/ c_paused c = true -> st1 = state)
                  /\ forall k dflt, k <> "last_played" ->
                       py_get st1 k dflt = py_get state k dflt)).
  { unfold play_step.
    destruct (os_path_join _ (c_active_pack c)) as [pack_dir | x] eqn:Ej.
    - rewrite bind_ok.
      assert (Hpack : exists pack,
                 c_active_pack c = PStr pack
                 /\ pack_dir
                    = path_join (path_join (plugin_root w) "packs") pack).
      { destruct (c_active_pack c) as [| | | pack | |]; try discriminate Ej.
        exists pack. split; [reflexivity |]. now inversion Ej. }
      destruct Hpack as [pack [Hpack Hdir]].
      destruct (negb (String.eqb (category d) "") && negb (c_paused c)) eqn:Eon.
      + apply andb_true_iff in Eon. destruct Eon as [Ecat Epause].
        apply negb_true_iff in Ecat, Epause. apply String.eqb_neq in Ecat.
        assert (Hkeep : forall st1 : pyval,
                   category d = "" \/ c_paused c = true -> st1 = state).
        { intros st1 [H | H]; [contradiction | congruence]. }
        destruct (pick_sound w pack_dir (category d) state)
          as [[sound state1] | x] eqn:Ep.
        * rewrite bind_ok. cbn [fst snd].
          assert (Hframe : forall st1, Ok state1 = Ok st1 ->
                    (category d = "" \/ c_paused c = true -> st1 = state)
                    /\ forall k dflt, k <> "last_played" ->
                         py_get st1 k dflt = py_get state k dflt).
          { intros st1 Heq. inversion Heq as [Heq']. rewrite <- Heq'.
            split; [apply Hkeep |].
            intros k dflt Hk.
            exact (pick_sound_frame w pack_dir _ state state1 sound k dflt
                     Ep Hk). }
          destruct sound as [sound_file |].
          -- destruct (negb (String.eqb sound_file "")
                       && sound_exists w sound_file) eqn:Ex.
             ++ apply andb_true_iff in Ex. destruct Ex as [_ Ex].
                exists [EPlay sound_file (c_volume c)], (Ok state1).
                split; [reflexivity |]. split; [| exact Hframe].
                right. exists sound_file.
                repeat (split; [assumption || reflexivity |]).
                exists pack, state1. split; [exact Hpack |].
                rewrite <- Hdir. exact Ep.
             ++ exists [], (Ok state1).
                split; [reflexivity |]. split; [now left | exact Hframe].
          -- exists [], (Ok state1).
             split; [reflexivity |]. split; [now left | exact Hframe].
        * exists [], (Raise x). split; [reflexivity |].
          split; [now left | discriminate].
      + exists [], (Ok state). split; [reflexivity |].
        split; [now left |].
        intros st1 Heq. inversion Heq; subst. split; [reflexivity |].
        reflexivity.
    - exists [], (Raise x). split; [reflexivity |].
      split; [now left | discriminate]. }
  destruct Hplay as [played [r1 [Hplay [Hplayed Hstate]]]].
  rewrite Hplay. unfold bind at 1 2. cbn [fst snd].
  destruct r1 as [st1 | x].
  - destruct (Hstate st1 eq_refl) as [Hsame Hframe].
    unfold save_json. destruct (state_writable w) eqn:Ewr.
    + destruct (notify d && negb (c_paused c) && truthy (c_desktop_notif c)
                && negb (terminal_focused w)) eqn:En.
      * exists played, [ESave st1; ENotify (title_of c d) (msg d)], (Ok tt).
        split; [reflexivity |]. split; [exact Hplayed |].
        right. exists st1. repeat (split; [assumption || reflexivity |]).
        right. split; [reflexivity |].
        repeat (apply andb_true_iff in En; destruct En as [En ?]).
        repeat match goal with
               | H : negb _ = true |- _ => apply negb_true_iff in H
               end.
        repeat split; assumption.
      * exists played, [ESave st1], (Ok tt).
        split; [reflexivity |]. split; [exact Hplayed |].
        right. exists st1. repeat (split; [assumption || reflexivity |]).
        left. split; reflexivity.
    + exists played, [], (Raise OSError).
      split; [cbn; now rewrite app_nil_r |]. split; [exact Hplayed |].
      left. split; [reflexivity | now exists OSError].
  - exists played, [], (Raise x).
    split; [cbn; now rewrite app_nil_r |]. split; [exact Hplayed |].
    left. split; [reflexivity | now exists x].
Qed.

(** What the locals of [main] are when the gates have let the event
    through. *)
Lemma gates_proceed (w : world) (event : pyval) (c : ctx) :
  gates w event = Ok (Proceed c) ->
  exists ev sessions enabled,
    event = PDict ev
    /\ load_json (config_file w) default_config = Ok (c_config c)
    /\ load_json (state_file w) PNone = Ok (c_state c)
    /\ py_get (c_config c) "enabled" (PBool true) = Ok enabled
    /\ truthy enabled = true
    /\ c_paused c = paused_marker w
    /\ py_get (c_config c) "volume" (PNum (1 # 2)%Q) = Ok (c_volume c)
    /\ py_get (c_config c) "active_pack" (PStr "peon") = Ok (c_active_pack c)
    /\ py_get (c_config c) "categories" (PDict []) = Ok (c_cat_config c)
    /\ py_get (c_config c) "desktop_notifications" (PBool true)
       = Ok (c_desktop_notif c)
    /\ c_event_name c = field_of ev "hook_event_name"
    /\ c_ntype c = field_of ev "notification_type"
    /\ project_name (field_of ev "cwd") = Ok (c_project c)
    /\ sessions_of (c_state c) = Ok sessions
    /\ set_mem (field_of ev "session_id") sessions = false
    /\ py_eqb (field_of ev "permission_mode") (PStr "delegate") = false.
Proof.
  unfold gates. intros H.
  step_in H. step_in H. step_in H.
  destruct (truthy a1) eqn:Een; cbn [negb] in H; [| discriminate H].
  step_in H. step_in H. step_in H. step_in H.
  destruct event as [| | | | | ev]; try discriminate H.
  cbn [py_get rbind] in H. fold (field_of ev "hook_event_name") in H.
  fold (field_of ev "notification_type") in H.
  fold (field_of ev "cwd") in H. fold (field_of ev "session_id") in H.
  fold (field_of ev "permission_mode") in H.
  step_in H.
  destruct (py_eqb (field_of ev "permission_mode") (PStr "delegate")) eqn:Ed.
  - step_in H. step_in H.
  - unfold py_in_set in H.
    destruct (hashable (field_of ev "session_id")); cbn [rbind] in H;
      [| discriminate H].
    destruct (set_mem (field_of ev "session_id") a6) eqn:Emem;
      [discriminate H |].
    step_in H. inversion H; subst c; cbn.
    exists ev, a6, a1. repeat (split; [assumption || reflexivity |]).
    assumption.
Qed.

(** How [main] can go: nothing at all, the delegate path, or the rest of
    the handler on the locals that the gates have produced. *)
Lemma main_cases (w : world) :
  (exists r, main w = ([], r))
  \/ (exists event doc,
        stdin_doc w = StdinJson event
        /\ gates w event = Ok (Marked doc)
        /\ main w = ([ESave doc], Ok tt))
  \/ (exists event c,
        stdin_doc w = StdinJson event
        /\ gates w event = Ok (Proceed c)
        /\ main w
           = ((if py_eqb (c_event_name c) (PStr "SessionStart") && c_paused c
               then [EStderr paused_notice] else [])
              ++ fst (body w c), snd (body w c))).
Proof.
  destruct (prelude w) as [e r] eqn:Ep.
  destruct r as [[c |] | x].
  - right; right.
    destruct (prelude_proceeds w e c Ep) as [He Hmain].
    unfold prelude in Ep.
    destruct (stdin_doc w) as [| | | | event] eqn:Ein; cbn in Ep;
      try discriminate Ep.
    destruct (gates w event) as [[| st | c0] | x] eqn:Eg; cbn in Ep;
      try discriminate Ep.
    + unfold save_json in Ep. destruct (state_writable w); discriminate Ep.
    + exists event, c0.
      assert (Hc : c0 = c).
      { destruct (py_eqb (c_event_name c0) (PStr "SessionStart") && c_paused c0);
          cbn in Ep; now inversion Ep. }
      subst c0. rewrite He in Hmain.
      split; [reflexivity | split; [exact Eg | exact Hmain]].
  - unfold main, bind. rewrite Ep. cbn [fst snd].
    unfold prelude in Ep.
    destruct (stdin_doc w) as [| | | | event]; cbn in Ep;
      try (inversion Ep; left; eexists; now rewrite app_nil_r).
    destruct (gates w event) as [[| st | c0] | x] eqn:Eg; cbn in Ep.
    + inversion Ep. left. eexists. reflexivity.
    + unfold save_json in Ep. destruct (state_writable w); cbn in Ep;
        inversion Ep.
      right; left. exists event, st. now repeat split.
    + destruct (py_eqb (c_event_name c0) (PStr "SessionStart") && c_paused c0);
        discriminate Ep.
    + discriminate Ep.
  - unfold main, bind. rewrite Ep. cbn [fst snd].
    unfold prelude in Ep.
    destruct (stdin_doc w) as [| | | | event]; cbn in Ep; try discriminate Ep;
      try (inversion Ep; left; eexists; reflexivity).
    destruct (gates w event) as [[| st | c0] | x']; cbn in Ep;
      try discriminate Ep.
    + unfold save_json in Ep. destruct (state_writable w); cbn in Ep;
        inversion Ep. left. eexists. reflexivity.
    + destruct (py_eqb (c_event_name c0) (PStr "SessionStart") && c_paused c0);
        discriminate Ep.
    + inversion Ep. left. eexists. reflexivity.
Qed.

(** Every run of [main] is of one of four kinds. *)
Lemma main_trace (w : world) :
  (exists r, main w = ([], r))
  \/ (exists event doc,
        stdin_doc w = StdinJson event
        /\ gates w event = Ok (Marked doc)
        /\ main w = ([ESave doc], Ok tt))
  \/ (exists event c r,
        stdin_doc w = StdinJson event
        /\ gates w event = Ok (Proceed c)
        /\ (decide w c = Ok None \/ exists x, decide w c = Raise x)
        /\ main w = (notice_of c, r))
  \/ (exists event c d state,
        stdin_doc w = StdinJson event
        /\ gates w event = Ok (Proceed c)
        /\ decide w c = Ok (Some (d, state))
        /\ main w = (notice_of c ++ fst (finish w c d state),
                     snd (finish w c d state))).
Proof.
  destruct (main_cases w) as [H | [H | [event [c [Hin [Hg Hmain]]]]]];
    [now left | now (right; left) |].
  right; right. fold (notice_of c) in Hmain.
  unfold body in Hmain.
  destruct (decide w c) as [[[d state] |] | x] eqn:Ed.
  - right. exists event, c, d, state.
    rewrite (bind_ok (Some (d, state))) in Hmain. now repeat split.
  - left. exists event, c, (Ok tt).
    rewrite (bind_ok None) in Hmain. cbn in Hmain. rewrite app_nil_r in Hmain.
    repeat split; try assumption. now left.
  - left. exists event, c, (Raise x).
    rewrite bind_raise in Hmain. cbn in Hmain. rewrite app_nil_r in Hmain.
    repeat split; try assumption. right. now exists x.
Qed.

(** X1: in every run the effects come in the order notice, title, sound,
    State, notification, each at most once. *)
Theorem effects_come_in_order :
  forall w : world,
    StronglySorted lt (map effect_rank (fst (main w))).
Proof.
  intros w.
  destruct (main_trace w)
    as [[r H] | [[event [doc [_ [_ H]]]] | [[event [c [r [_ [_ [_ H]]]]]]
                            | [event [c [d [state [_ [_ [_ H]]]]]]]]]];
    rewrite H; cbn [fst].
  - constructor.
  - repeat constructor.
  - unfold notice_of.
    destruct (py_eqb (c_event_name c) (PStr "SessionStart") && c_paused c);
      repeat constructor.
  - destruct (finish_shape w c d state)
      as [played [tail [r [Hfin [Hplayed Htail]]]]].
    rewrite Hfin. cbn [fst].
    assert (Hp : played = [] \/ exists p v, played = [EPlay p v]).
    { destruct Hplayed as [-> | [p [-> _]]]; [now left | right; eauto]. }
    assert (Ht : tail = [] \/ (exists doc, tail = [ESave doc])
                 \/ exists doc t m, tail = [ESave doc; ENotify t m]).
    { destruct Htail as [[-> _] | [doc [_ [_ [_ [_ [[-> _] | [-> _]]]]]]]];
        [now left | right; left; eauto | right; right; eauto]. }
    clear Hfin Hplayed Htail. unfold notice_of.
    destruct (py_eqb (c_event_name c) (PStr "SessionStart") && c_paused c);
      destruct Hp as [-> | [p [v ->]]];
      destruct Ht as [-> | [[doc ->] | [doc [t [m ->]]]]];
      cbn [app map effect_rank];
      repeat first [apply SSorted_nil | apply SSorted_cons
                    | apply Forall_nil | apply Forall_cons]; lia.
Qed.

(** What the delegate path has done when the gates end on it. *)
Lemma gates_marked (w : world) (event doc : pyval) :
  gates w event = Ok (Marked doc) ->
  exists ev state sessions sessions',
    event = PDict ev
    /\ load_json (state_file w) PNone = Ok state
    /\ sessions_of state = Ok sessions
    /\ py_eqb (field_of ev "permission_mode") (PStr "delegate") = true
    /\ set_add (field_of ev "session_id") sessions = Ok sessions'
    /\ py_setitem state "agent_sessions" (PList sessions') = Ok doc.
Proof.
  unfold gates. intros H.
  step_in H. step_in H. step_in H.
  destruct (truthy a1) eqn:Een; cbn [negb] in H; [| discriminate H].
  step_in H. step_in H. step_in H. step_in H.
  destruct event as [| | | | | ev]; try discriminate H.
  cbn [py_get rbind] in H.
  fold (field_of ev "session_id") in H.
  fold (field_of ev "permission_mode") in H.
  step_in H.
  destruct (py_eqb (field_of ev "permission_mode") (PStr "delegate")) eqn:Ed.
  - step_in H. step_in H. inversion H; subst.
    exists ev, a0, a6, a7. now repeat split.
  - unfold py_in_set in H.
    destruct (hashable (field_of ev "session_id")); cbn [rbind] in H;
      [| discriminate H].
    destruct (set_mem (field_of ev "session_id") a6); [discriminate H |].
    step_in H.
Qed.

(** Only [prompt_timestamps] is touched by the burst detector. *)
Lemma check_annoyed_frame (now : Q) (state threshold window state' : pyval)
    (b : bool) (k : string) (dflt : pyval) :
  check_annoyed now state threshold window = Ok (state', b) ->
  k <> "prompt_timestamps" ->
  py_get state' k dflt = py_get state k dflt.
Proof.
  unfold check_annoyed. intros H Hk.
  step_in H. step_in H. step_in H. step_in H. step_in H.
  inversion H; subst.
  exact (py_setitem_frame state state' _ k "prompt_timestamps" dflt E2 Hk).
Qed.

Lemma category_check_inv (cats : pyval) (d d' : decision) :
  category_check cats d = Ok d' ->
  status d' = status d /\ marker d' = marker d /\ notify d' = notify d
  /\ msg d' = msg d
  /\ (category d' = category d \/ category d' = "")
  /\ (category d' <> "" ->
      exists toggle, py_get cats (category d') (PBool true) = Ok toggle
                     /\ truthy toggle = true).
Proof.
  unfold category_check. intros H.
  destruct (String.eqb (category d) "") eqn:Ec.
  - inversion H; subst. apply String.eqb_eq in Ec.
    repeat split; try now left. intros Hne. contradiction.
  - step_in H. destruct (truthy a) eqn:Et; inversion H; subst; cbn.
    + repeat split; try now left. intros _. now exists a.
    + repeat split; try now right. intros Hne. contradiction.
Qed.

Lemma decide_inv (w : world) (c : ctx) (d : decision) (state : pyval) :
  decide w c = Ok (Some (d, state)) ->
  decided c d
  /\ (category d <> "" ->
      exists toggle, py_get (c_cat_config c) (category d) (PBool true)
                     = Ok toggle /\ truthy toggle = true)
  /\ (forall k dflt, k <> "prompt_timestamps" ->
        py_get state k dflt = py_get (c_state c) k dflt)
  /\ (c_event_name c <> PStr "UserPromptSubmit" -> state = c_state c).
Proof.
  unfold decide. intros H.
  destruct (classify w c) as [[[d0 st0] |] | x] eqn:Ec; cbn [rbind] in H;
    try discriminate H.
  destruct (category_check (c_cat_config c) d0) as [d1 |] eqn:Ek;
    cbn [rbind] in H; [| discriminate H].
  inversion H; subst d1 st0. clear H.
  destruct (category_check_inv _ _ _ Ek)
    as [Hs [Hm [Hn [Hg [Hcat Hon]]]]].
  split; [| split; [exact Hon |]].
  - unfold classify in Ec.
    destruct (py_eqb (c_event_name c) (PStr "SessionStart")) eqn:E1.
    { apply py_eqb_str_r in E1. inversion Ec; subst d0.
      apply DecSessionStart; try assumption.
      all: try (destruct Hcat as [-> | ->]; [now left | now right]). }
    destruct (py_eqb (c_event_name c) (PStr "UserPromptSubmit")) eqn:E2.
    { apply py_eqb_str_r in E2.
      step_in Ec. step_in Ec. step_in Ec. step_in Ec.
      destruct a2 as [st1 burst]. destruct burst.
      - inversion Ec; subst d0. apply DecPrompt; try assumption.
        all: try (destruct Hcat as [-> | ->]; [now left | now (right; right)]).
      - step_in Ec. inversion Ec; subst d0. apply DecPrompt; try assumption.
        all: try (cbn in Hcat; destruct (truthy a2);
                  destruct Hcat as [-> | ->]; tauto). }
    destruct (py_eqb (c_event_name c) (PStr "Stop")) eqn:E3.
    { apply py_eqb_str_r in E3. inversion Ec; subst d0.
      apply DecStop; try assumption.
      all: try (destruct Hcat as [-> | ->]; [now left | now right]). }
    destruct (py_eqb (c_event_name c) (PStr "Notification")) eqn:E4;
      [| discriminate Ec].
    apply py_eqb_str_r in E4.
    destruct (py_eqb (c_ntype c) (PStr "permission_prompt")) eqn:E5.
    { apply py_eqb_str_r in E5. inversion Ec; subst d0.
      apply DecPermission; try assumption.
      all: try (destruct Hcat as [-> | ->]; [now left | now right]). }
    destruct (py_eqb (c_ntype c) (PStr "idle_prompt")) eqn:E6;
      [| discriminate Ec].
    apply py_eqb_str_r in E6. inversion Ec; subst d0.
    apply DecIdle; try assumption.
    all: try (destruct Hcat as [-> | ->]; [now left | now right]).
  - assert (Hst : (forall k dflt, k <> "prompt_timestamps" ->
                     py_get state k dflt = py_get (c_state c) k dflt)
                  /\ (c_event_name c <> PStr "UserPromptSubmit" ->
                      state = c_state c)).
    { unfold classify in Ec.
      destruct (py_eqb (c_event_name c) (PStr "SessionStart")) eqn:E1.
      { inversion Ec; subst. now split. }
      destruct (py_eqb (c_event_name c) (PStr "UserPromptSubmit")) eqn:E2.
      { apply py_eqb_str_r in E2. split; [| congruence].
        intros k dflt Hk.
        step_in Ec. step_in Ec. step_in Ec.
        assert (Hany : forall st1 burst,
                   (if truthy a1
                    then check_annoyed (clock w) (c_state c) a a0
                    else Ok (c_state c, false)) = Ok (st1, burst) ->
                   py_get st1 k dflt = py_get (c_state c) k dflt).
        { intros st1 burst Hq. destruct (truthy a1).
          - exact (check_annoyed_frame _ _ _ _ _ _ k dflt Hq Hk).
          - now inversion Hq. }
        step_in Ec. destruct a2 as [st1 burst].
        assert (Hst1 : py_get st1 k dflt = py_get (c_state c) k dflt)
          by exact (Hany st1 burst eq_refl).
        destruct burst.
        - inversion Ec; subst. exact Hst1.
        - step_in Ec. inversion Ec; subst. exact Hst1. }
      destruct (py_eqb (c_event_name c) (PStr "Stop")) eqn:E3.
      { inversion Ec; subst. now split. }
      destruct (py_eqb (c_event_name c) (PStr "Notification")) eqn:E4;
        [| discriminate Ec].
      destruct (py_eqb (c_ntype c) (PStr "permission_prompt")) eqn:E5.
      { inversion Ec; subst. now split. }
      destruct (py_eqb (c_ntype c) (PStr "idle_prompt")) eqn:E6;
        [| discriminate Ec].
      inversion Ec; subst. now split. }
    exact Hst.
Qed.

Lemma py_eqb_str_false (v : pyval) (s : string) :
  v <> PStr s -> py_eqb v (PStr s) = false.
Proof.
  intros H. destruct (py_eqb v (PStr s)) eqn:E; [| reflexivity].
  apply py_eqb_str_r in E. contradiction.
Qed.

(** The run of [main] on an event that is let through and decided. *)
Lemma main_of_decision (w : world) (event : pyval) (c : ctx) (d : decision)
    (state : pyval) :
  stdin_doc w = StdinJson event ->
  gates w event = Ok (Proceed c) ->
  decide w c = Ok (Some (d, state)) ->
  main w = (notice_of c ++ fst (finish w c d state), snd (finish w c d state)).
Proof.
  intros Hin Hg Hd.
  assert (Hp : prelude w = (notice_of c, Ok (Some c))).
  { unfold prelude, notice_of. rewrite Hin. cbn [loads_stdin]. rewrite Hg.
    rewrite (bind_ok (Proceed c)).
    destruct (py_eqb (c_event_name c) (PStr "SessionStart") && c_paused c);
      reflexivity. }
  destruct (prelude_proceeds w _ c Hp) as [_ Hmain].
  rewrite Hmain. now rewrite (body_of_decide w c d state Hd).
Qed.

(** X2: while the pause marker exists nothing is played and nothing is
    notified, whatever the event, Config, State and pack are; an event
    that is handled still has its title written, and the State is saved
    as the decision left it. *)
Theorem paused_is_mute :
  forall w : world,
    paused_marker w = true ->
    (forall e, In e (fst (main w)) -> is_play e = false /\ is_notify e = false)
    /\ (forall event c d state,
          stdin_doc w = StdinJson event ->
          gates w event = Ok (Proceed c) ->
          decide w c = Ok (Some (d, state)) ->
          In (ETitle (title_bytes (title_of c d))) (fst (main w))
          /\ forall doc, In (ESave doc) (fst (main w)) -> doc = state).
Proof.
  intros w Hpaused.
  assert (Hfin : forall event c d state,
            gates w event = Ok (Proceed c) ->
            exists tail,
              fst (finish w c d state)
              = ETitle (title_bytes (title_of c d)) :: tail
              /\ (tail = [] \/ tail = [ESave state])).
  { intros event c d state Hg.
    destruct (gates_proceed w event c Hg)
      as [ev [ss [en [_ [_ [_ [_ [_ [Hp _]]]]]]]]].
    rewrite Hpaused in Hp.
    destruct (finish_shape w c d state)
      as [played [tail [r [Hf [Hplayed Htail]]]]].
    assert (played = []) as ->.
    { destruct Hplayed as [-> | [p [_ [_ [Hc _]]]]]; [reflexivity | congruence]. }
    rewrite Hf. cbn [fst app]. exists tail. split; [reflexivity |].
    destruct Htail as [[-> _] | [doc [_ [_ [Hsame [_ [[-> _] | [_ [_ [Hc _]]]]]]]]]].
    - now left.
    - right. now rewrite (Hsame (or_intror Hp)).
    - congruence. }
  split.
  - intros e He.
    destruct (main_trace w)
      as [[r H] | [[event [doc [_ [_ H]]]]
                  | [[event [c [r [_ [_ [_ H]]]]]]
                    | [event [c [d [state [_ [Hg [_ H]]]]]]]]]];
      rewrite H in He; cbn [fst] in He.
    + destruct He.
    + destruct He as [<- | []]. now split.
    + unfold notice_of in He.
      destruct (py_eqb (c_event_name c) (PStr "SessionStart") && c_paused c);
        [destruct He as [<- | []]; now split | destruct He].
    + destruct (Hfin event c d state Hg) as [tail [Ht Htail]].
      rewrite Ht in He. apply in_app_or in He. destruct He as [He | He].
      * unfold notice_of in He.
        destruct (py_eqb (c_event_name c) (PStr "SessionStart") && c_paused c);
          [destruct He as [<- | []]; now split | destruct He].
      * destruct He as [<- | He]; [now split |].
        destruct Htail as [-> | ->]; [destruct He |].
        destruct He as [<- | []]. now split.
  - intros event c d state Hin Hg Hd.
    rewrite (main_of_decision w event c d state Hin Hg Hd). cbn [fst].
    destruct (Hfin event c d state Hg) as [tail [Ht Htail]].
    rewrite Ht. split.
    + apply in_or_app. right. now left.
    + intros doc Hdoc. apply in_app_or in Hdoc. destruct Hdoc as [Hdoc | Hdoc].
      * unfold notice_of in Hdoc.
        destruct (py_eqb (c_event_name c) (PStr "SessionStart") && c_paused c);
          [destruct Hdoc as [Hdoc | []]; discriminate Hdoc | destruct Hdoc].
      * destruct Hdoc as [Hdoc | Hdoc]; [discriminate Hdoc |].
        destruct Htail as [-> | ->]; [destruct Hdoc |].
        destruct Hdoc as [Hdoc | []]. now inversion Hdoc.
Qed.

Lemma paused_is_mute_witness :
  main paused_world
  = ([ETitle (title_bytes "* claude: done"); ESave (PDict [])], Ok tt)
  /\ In (ETitle (title_bytes "* claude: done")) (fst (main paused_world)).
Proof.
  split; [reflexivity |].
  destruct (paused_is_mute paused_world eq_refl) as [_ Htitle].
  apply (Htitle stop_event
           {| c_config := default_config; c_state := PDict [];
              c_paused := true; c_volume := PNum (1 # 2)%Q;
              c_active_pack := PStr "peon"; c_cat_config := PDict [];
              c_desktop_notif := PBool true; c_event_name := PStr "Stop";
              c_ntype := PStr ""; c_project := "claude" |}
           {| category := "task.complete"; status := "done"; marker := "* ";
              notify := false; msg := "" |}
           (PDict []) eq_refl eq_refl eq_refl).
Defined.

(** Every effect of an event that is let through and decided lies in the
    notice or in what lines 374-393 produce. *)
Lemma main_effect_inv (w : world) (e : effect) :
  In e (fst (main w)) ->
  (exists doc event, e = ESave doc /\ stdin_doc w = StdinJson event
                     /\ gates w event = Ok (Marked doc))
  \/ (exists event c,
        stdin_doc w = StdinJson event /\ gates w event = Ok (Proceed c)
        /\ (In e (notice_of c)
            \/ exists d state,
                 decide w c = Ok (Some (d, state))
                 /\ In e (fst (finish w c d state)))).
Proof.
  intros He.
  destruct (main_trace w)
    as [[r H] | [[event [doc [Hin [Hg H]]]]
                | [[event [c [r [Hin [Hg [_ H]]]]]]
                  | [event [c [d [state [Hin [Hg [Hd H]]]]]]]]]];
    rewrite H in He; cbn [fst] in He.
  - destruct He.
  - destruct He as [<- | []]. left. now exists doc, event.
  - right. exists event, c. repeat split; try assumption. now left.
  - right. exists event, c. repeat split; try assumption.
    apply in_app_or in He. destruct He as [He | He]; [now left |].
    right. now exists d, state.
Qed.

(** X3: a desktop notification is sent only for a [permission_prompt] or
    an [idle_prompt] notification event, when the handler is not paused,
    desktop notifications are switched on and the terminal is not
    focused; its title is the title written to the terminal, its message
    names the project, and the State was saved before. *)
Theorem notification_only_when_due :
  forall (w : world) (t m : string),
    In (ENotify t m) (fst (main w)) ->
    paused_marker w = false
    /\ terminal_focused w = false
    /\ state_writable w = true
    /\ In (ETitle (title_bytes t)) (fst (main w))
    /\ (exists doc, In (ESave doc) (fst (main w)))
    /\ exists ev c,
         stdin_doc w = StdinJson (PDict ev)
         /\ gates w (PDict ev) = Ok (Proceed c)
         /\ field_of ev "hook_event_name" = PStr "Notification"
         /\ truthy (c_desktop_notif c) = true
         /\ ((field_of ev "notification_type" = PStr "permission_prompt"
              /\ t = ("* " ++ c_project c ++ ": needs approval")%string
              /\ m = (c_project c
                      ++ " -- A tool is waiting for your permission")%string)
             \/ (field_of ev "notification_type" = PStr "idle_prompt"
                 /\ t = ("* " ++ c_project c ++ ": done")%string
                 /\ m = (c_project c
                         ++ " -- Ready for your next instruction")%string)).
Proof.
  intros w t m He.
  destruct (main_effect_inv w _ He)
    as [[doc [event [Hx _]]] | [event [c [Hin [Hg [Hn | [d [state [Hd Hf]]]]]]]]].
  - discriminate Hx.
  - unfold notice_of in Hn.
    destruct (py_eqb (c_event_name c) (PStr "SessionStart") && c_paused c);
      [destruct Hn as [Hn | []]; discriminate Hn | destruct Hn].
  - destruct (gates_proceed w event c Hg)
      as [ev [ss [en [-> [_ [_ [_ [_ [Hp [_ [_ [_ [_ [Hname [Hnt _]]]]]]]]]]]]]]].
    destruct (finish_shape w c d state)
      as [played [tail [r [Hfin [Hplayed Htail]]]]].
    rewrite Hfin in Hf. cbn [fst] in Hf.
    destruct Hf as [Hf | Hf]; [discriminate Hf |].
    apply in_app_or in Hf. destruct Hf as [Hf | Hf].
    { destruct Hplayed as [-> | [p [-> _]]]; [destruct Hf |].
      destruct Hf as [Hf | []]. discriminate Hf. }
    destruct Htail as [[-> _] | [doc [_ [Hwr [_ [_ [[-> _] | [-> Hall]]]]]]]].
    + destruct Hf.
    + destruct Hf as [Hf | []]. discriminate Hf.
    + destruct Hall as [Hnotify [Hpc [Hdn Hfoc]]].
      destruct Hf as [Hf | [Hf | []]]; [discriminate Hf |].
      inversion Hf; subst t m. clear Hf.
      rewrite (main_of_decision w _ c d state Hin Hg Hd), Hfin. cbn [fst].
      split; [congruence |]. split; [exact Hfoc |]. split; [exact Hwr |].
      split; [apply in_or_app; right; now left |].
      split.
      { exists doc. apply in_or_app. right. right.
        apply in_or_app. right. now left. }
      exists ev, c. split; [exact Hin |]. split; [exact Hg |].
      destruct (decide_inv w c d state Hd) as [Hdec _].
      unfold title_of.
      destruct Hdec as [_ _ _ Hn0 _ | _ _ _ Hn0 _ | _ _ _ Hn0 _
                        | Hev Hty Hs Hm _ Hmsg _ | Hev Hty Hs Hm _ Hmsg _];
        try congruence.
      * rewrite <- Hname, <- Hnt. split; [exact Hev |]. split; [exact Hdn |].
        left. rewrite Hs, Hm, Hmsg. now repeat split.
      * rewrite <- Hname, <- Hnt. split; [exact Hev |]. split; [exact Hdn |].
        right. rewrite Hs, Hm, Hmsg. now repeat split.
Qed.

Lemma notification_only_when_due_witness :
  terminal_focused (fresh_world permission_event) = false
  /\ In (ETitle (title_bytes "* myproj: needs approval"))
        (fst (main (fresh_world permission_event))).
Proof.
  assert (Hin : In (ENotify "* myproj: needs approval"
                      "myproj -- A tool is waiting for your permission")
                   (fst (main (fresh_world permission_event)))).
  { right. right. left. reflexivity. }
  destruct (notification_only_when_due _ _ _ Hin)
    as [_ [Hfoc [_ [Htitle _]]]].
  split; [exact Hfoc | exact Htitle].
Defined.

(** X4: an event that the mapping does not know (any name but the four
    handled ones, or a notification of another type) and that is not in
    delegate mode leaves no trace: no title, no sound, no notification
    and no write of the State. *)
Theorem unhandled_event_leaves_no_trace :
  forall (w : world) (ev : list (string * pyval)),
    stdin_doc w = StdinJson (PDict ev) ->
    py_eqb (field_of ev "permission_mode") (PStr "delegate") = false ->
    field_of ev "hook_event_name" <> PStr "SessionStart" ->
    field_of ev "hook_event_name" <> PStr "UserPromptSubmit" ->
    field_of ev "hook_event_name" <> PStr "Stop" ->
    (field_of ev "hook_event_name" <> PStr "Notification"
     \/ (field_of ev "notification_type" <> PStr "permission_prompt"
         /\ field_of ev "notification_type" <> PStr "idle_prompt")) ->
    fst (main w) = [].
Proof.
  intros w ev Hin Hperm H1 H2 H3 H4.
  assert (Hev : forall event, stdin_doc w = StdinJson event -> event = PDict ev).
  { intros event Hq. rewrite Hin in Hq. now inversion Hq. }
  destruct (main_trace w)
    as [[r H] | [[event [doc [Hi [Hg H]]]]
                | [[event [c [r [Hi [Hg [_ H]]]]]]
                  | [event [c [d [state [Hi [Hg [Hd H]]]]]]]]]];
    rewrite H; cbn [fst].
  - reflexivity.
  - exfalso. rewrite (Hev event Hi) in Hg.
    destruct (gates_marked w _ doc Hg)
      as [ev' [st [ss [ss' [Heq [_ [_ [Hdel _]]]]]]]].
    inversion Heq; subst ev'. congruence.
  - rewrite (Hev event Hi) in Hg.
    destruct (gates_proceed w _ c Hg)
      as [ev' [ss [en [Heq [_ [_ [_ [_ [_ [_ [_ [_ [_ [Hname _]]]]]]]]]]]]]].
    inversion Heq; subst ev'.
    unfold notice_of. rewrite Hname, (py_eqb_str_false _ _ H1). reflexivity.
  - exfalso. rewrite (Hev event Hi) in Hg.
    destruct (gates_proceed w _ c Hg)
      as [ev' [ss [en [Heq [_ [_ [_ [_ [_ [_ [_ [_ [_ [Hname [Hnt _]]]]]]]]]]]]]]].
    inversion Heq; subst ev'.
    destruct (decide_inv w c d state Hd) as [Hdec _].
    rewrite <- Hname in H1, H2, H3, H4. rewrite <- Hnt in H4.
    destruct Hdec; try contradiction;
      destruct H4 as [Hq | [Hq Hq']]; contradiction.
Qed.

Lemma unhandled_event_witness :
  main (fresh_world (PDict [("hook_event_name", PStr "PreToolUse")]))
  = ([], Ok tt).
Proof.
  assert (H : fst (main (fresh_world
                           (PDict [("hook_event_name", PStr "PreToolUse")])))
              = []).
  { apply (unhandled_event_leaves_no_trace
             (fresh_world (PDict [("hook_event_name", PStr "PreToolUse")]))
             [("hook_event_name", PStr "PreToolUse")]);
      [reflexivity | reflexivity | discriminate | discriminate | discriminate
      | left; discriminate]. }
  reflexivity.
Defined.

(** X5: whatever the handler saves keeps every key of the loaded State
    but [agent_sessions], [prompt_timestamps] and [last_played]; the
    delegate path changes [agent_sessions] only, every other path leaves
    [agent_sessions] alone, and only a [UserPromptSubmit] event changes
    [prompt_timestamps]. *)
Theorem saved_state_keeps_other_keys :
  forall (w : world) (state doc : pyval),
    load_json (state_file w) PNone = Ok state ->
    In (ESave doc) (fst (main w)) ->
    exists ev,
      stdin_doc w = StdinJson (PDict ev)
      /\ (forall k dflt,
            k <> "agent_sessions" -> k <> "prompt_timestamps" ->
            k <> "last_played" ->
            py_get doc k dflt = py_get state k dflt)
      /\ (py_eqb (field_of ev "permission_mode") (PStr "delegate") = true ->
          forall k dflt, k <> "agent_sessions" ->
            py_get doc k dflt = py_get state k dflt)
      /\ (py_eqb (field_of ev "permission_mode") (PStr "delegate") = false ->
          forall dflt,
            py_get doc "agent_sessions" dflt
            = py_get state "agent_sessions" dflt)
      /\ (field_of ev "hook_event_name" <> PStr "UserPromptSubmit" ->
          forall dflt,
            py_get doc "prompt_timestamps" dflt
            = py_get state "prompt_timestamps" dflt).
Proof.
  intros w state doc Hload He.
  destruct (main_effect_inv w _ He)
    as [[doc' [event [Hx [Hin Hg]]]]
       | [event [c [Hin [Hg [Hn | [d [st [Hd Hf]]]]]]]]].
  - inversion Hx; subst doc'. clear Hx.
    destruct (gates_marked w _ doc Hg)
      as [ev [st [ss [ss' [-> [Hst [_ [Hdel [_ Hset]]]]]]]]].
    rewrite Hload in Hst. inversion Hst; subst st.
    exists ev. split; [exact Hin |].
    split; [intros k dflt Hk _ _;
            exact (py_setitem_frame _ _ _ k _ dflt Hset Hk) |].
    split; [intros _ k dflt Hk;
            exact (py_setitem_frame _ _ _ k _ dflt Hset Hk) |].
    split; [congruence |].
    intros _ dflt.
    apply (py_setitem_frame _ _ _ "prompt_timestamps" _ dflt Hset).
    discriminate.
  - unfold notice_of in Hn.
    destruct (py_eqb (c_event_name c) (PStr "SessionStart") && c_paused c);
      [destruct Hn as [Hn | []]; discriminate Hn | destruct Hn].
  - destruct (gates_proceed w event c Hg)
      as (ev & ss & en & -> & Hcfg & Hst & Hen & Htr & Hp & Hvol & Hpack
          & Hcats & Hdn & Hname & Hnt & Hproj & Hss & Hmem & Hdel).
    rewrite Hload in Hst. inversion Hst as [Hst']. clear Hst.
    destruct (decide_inv w c d st Hd) as [_ [_ [Hframe Hsame]]].
    assert (Hlast : forall k dflt, k <> "last_played" ->
                      py_get doc k dflt = py_get st k dflt).
    { intros k dflt Hk. exact (finish_saves_frame w c d st doc k dflt Hf Hk). }
    exists ev. split; [exact Hin |].
    split.
    { intros k dflt _ Hk2 Hk3.
      rewrite (Hlast k dflt Hk3), (Hframe k dflt Hk2). now rewrite <- Hst'. }
    split; [congruence |].
    split.
    { intros _ dflt. rewrite (Hlast "agent_sessions" dflt ltac:(discriminate)).
      rewrite (Hframe "agent_sessions" dflt ltac:(discriminate)).
      now rewrite <- Hst'. }
    intros Hnp dflt. rewrite <- Hname in Hnp.
    rewrite (Hlast "prompt_timestamps" dflt ltac:(discriminate)).
    rewrite (Hsame Hnp). now rewrite <- Hst'.
Qed.

Lemma saved_state_keeps_other_keys_witness :
  exists ev,
    stdin_doc (with_state (Json annotated_state) (fresh_world stop_event))
    = StdinJson (PDict ev)
    /\ py_get (PDict [("note", PStr "kept");
                      ("agent_sessions", PList [PStr "s0"])])
              "note" PNone
       = py_get annotated_state "note" PNone.
Proof.
  assert (Hin : In (ESave annotated_state)
                   (fst (main (with_state (Json annotated_state)
                                 (fresh_world stop_event))))).
  { right. left. reflexivity. }
  destruct (saved_state_keeps_other_keys
              (with_state (Json annotated_state) (fresh_world stop_event))
              annotated_state annotated_state eq_refl Hin)
    as [ev [Hev [Hkeep _]]].
  exists ev. split; [exact Hev |].
  apply (Hkeep "note" PNone); discriminate.
Defined.

(** X6: [agent_sessions] only grows: every session that the loaded State
    flags is still flagged in whatever the handler saves. *)
Theorem agent_sessions_only_grow :
  forall (w : world) (state doc : pyval) (sessions : pyset),
    load_json (state_file w) PNone = Ok state ->
    sessions_of state = Ok sessions ->
    In (ESave doc) (fst (main w)) ->
    exists sessions',
      sessions_of doc = Ok sessions'
      /\ forall x, set_mem x sessions = true -> set_mem x sessions' = true.
Proof.
  intros w state doc sessions Hload Hsess He.
  destruct (main_effect_inv w _ He)
    as [[doc' [event [Hx [Hin Hg]]]]
       | [event [c [Hin [Hg [Hn | [d [st [Hd Hf]]]]]]]]].
  - inversion Hx; subst doc'. clear Hx.
    destruct (gates_marked w _ doc Hg)
      as (ev & st & ss & ss' & -> & Hst & Hss & Hdel & Hadd & Hset).
    rewrite Hload in Hst. inversion Hst; subst st.
    rewrite Hsess in Hss. inversion Hss; subst ss.
    destruct (saved_sessions_flag state sessions ss' _ doc Hsess Hadd Hset)
      as [again [Hagain Hkeep]].
    exists again. split; [exact Hagain |].
    intros x Hx. apply Hkeep. exact (set_add_keeps _ x _ _ Hadd Hx).
  - unfold notice_of in Hn.
    destruct (py_eqb (c_event_name c) (PStr "SessionStart") && c_paused c);
      [destruct Hn as [Hn | []]; discriminate Hn | destruct Hn].
  - destruct (gates_proceed w event c Hg)
      as (ev & ss & en & -> & Hcfg & Hst & Hen & Htr & Hp & Hvol & Hpack
          & Hcats & Hdn & Hname & Hnt & Hproj & Hss & Hmem & Hdel).
    rewrite Hload in Hst. inversion Hst as [Hst']. clear Hst.
    destruct (decide_inv w c d st Hd) as [_ [_ [Hframe _]]].
    exists sessions. split; [| tauto].
    unfold sessions_of in *.
    rewrite (finish_saves_frame w c d st doc "agent_sessions" (PList []) Hf)
      by discriminate.
    rewrite (Hframe "agent_sessions" (PList [])) by discriminate.
    rewrite <- Hst'. exact Hsess.
Qed.

Lemma agent_sessions_only_grow_witness :
  exists sessions',
    sessions_of annotated_state = Ok sessions'
    /\ set_mem (PStr "s0") sessions' = true.
Proof.
  assert (Hin : In (ESave annotated_state)
                   (fst (main (with_state (Json annotated_state)
                                 (fresh_world stop_event))))).
  { right. left. reflexivity. }
  destruct (agent_sessions_only_grow
              (with_state (Json annotated_state) (fresh_world stop_event))
              annotated_state annotated_state [PStr "s0"]
              eq_refl eq_refl Hin) as [s' [Hs' Hkeep]].
  exists s'. split; [exact Hs' | apply Hkeep; reflexivity].
Defined.

(** X7: a sound is played only when the handler is not paused, for a
    category that the decision has kept (its toggle is not falsy), and
    for a file that exists; the volume is the one of the Config. *)
Theorem sound_only_when_enabled :
  forall (w : world) (path : string) (volume : pyval),
    In (EPlay path volume) (fst (main w)) ->
    paused_marker w = false
    /\ sound_exists w path = true
    /\ exists event c d state toggle,
         stdin_doc w = StdinJson event
         /\ gates w event = Ok (Proceed c)
         /\ decide w c = Ok (Some (d, state))
         /\ volume = c_volume c
         /\ category d <> ""
         /\ py_get (c_cat_config c) (category d) (PBool true) = Ok toggle
         /\ truthy toggle = true.
Proof.
  intros w path volume He.
  destruct (main_effect_inv w _ He)
    as [[doc' [event [Hx _]]]
       | [event [c [Hin [Hg [Hn | [d [st [Hd Hf]]]]]]]]].
  - discriminate Hx.
  - unfold notice_of in Hn.
    destruct (py_eqb (c_event_name c) (PStr "SessionStart") && c_paused c);
      [destruct Hn as [Hn | []]; discriminate Hn | destruct Hn].
  - destruct (gates_proceed w event c Hg)
      as (ev & ss & en & -> & Hcfg & Hst & Hen & Htr & Hp & Hvol & Hpack
          & Hcats & Hdn & Hname & Hnt & Hproj & Hss & Hmem & Hdel).
    destruct (finish_shape w c d st)
      as [played [tail [r [Hfin [Hplayed Htail]]]]].
    rewrite Hfin in Hf. cbn [fst] in Hf.
    destruct Hf as [Hf | Hf]; [discriminate Hf |].
    apply in_app_or in Hf. destruct Hf as [Hf | Hf].
    + destruct Hplayed as [-> | [p [-> [Hcat [Hpc [Hex Hpick]]]]]];
        [destruct Hf |].
      destruct Hf as [Hf | []]. inversion Hf; subst p volume.
      split; [congruence |]. split; [exact Hex |].
      destruct (decide_inv w c d st Hd) as [_ [Hon _]].
      destruct (Hon Hcat) as [toggle [Hget Htrue]].
      exists (PDict ev), c, d, st, toggle. now repeat split.
    + exfalso.
      destruct Htail as [[-> _] | [doc [_ [_ [_ [_ [[-> _] | [-> _]]]]]]]].
      * destruct Hf.
      * destruct Hf as [Hf | []]. discriminate Hf.
      * destruct Hf as [Hf | [Hf | []]]; discriminate Hf.
Qed.

Lemma sound_only_when_enabled_witness :
  sound_exists
    (with_manifest (Json (pack_with "input.required" ["a.wav"; "b.wav"]))
       (fresh_world permission_event))
    "/opt/peon-ping/packs/peon/a.wav" = true.
Proof.
  assert (Hin : In (EPlay "/opt/peon-ping/packs/peon/a.wav" (PNum (1 # 2)%Q))
                   (fst (main (with_manifest
                                 (Json (pack_with "input.required"
                                          ["a.wav"; "b.wav"]))
                                 (fresh_world permission_event))))).
  { right. left. reflexivity. }
  destruct (sound_only_when_enabled _ _ _ Hin) as [_ [Hex _]].
  exact Hex.
Defined.

Lemma filter_res_inv {A} (f : A -> res bool) (l l' : list A) :
  filter_res f l = Ok l' ->
  forall x, In x l' -> In x l /\ f x = Ok true.
Proof.
  revert l'. induction l as [| a l IH]; intros l' H x Hx; simpl in H.
  - inversion H; subst. destruct Hx.
  - destruct (f a) as [b |] eqn:Ea; cbn [rbind] in H; [| discriminate H].
    destruct (filter_res f l) as [r |] eqn:Er; cbn [rbind] in H;
      [| discriminate H].
    inversion H; subst l'. destruct b.
    + destruct Hx as [<- | Hx]; [split; [now left | exact Ea] |].
      destruct (IH r eq_refl x Hx). split; [now right | assumption].
    + destruct (IH r eq_refl x Hx). split; [now right | assumption].
Qed.

Lemma random_choice_list_inv (draw : nat) (l : list pyval) (e : pyval) :
  random_choice draw (PList l) = Ok e -> In e l.
Proof.
  unfold random_choice.
  destruct (nth_error l (draw mod List.length l)) as [x |] eqn:E;
    [| discriminate].
  intros H. inversion H; subst. exact (nth_error_In _ _ E).
Qed.

Lemma chars_index (s : string) (x : pyval) :
  In x (chars s) -> exists t, x = PStr t.
Proof.
  induction s as [| a s IH]; simpl; [tauto |].
  intros [<- | H]; [eauto | auto].
Qed.

(** The pool of lines 212-213 is made of candidates; with two or more
    candidates none of its members carries the file played last. *)
Lemma sound_pool_inv (sounds last pool e : pyval) (draw : nat) :
  sound_pool sounds last = Ok pool ->
  random_choice draw pool = Ok e ->
  (exists t, e = PStr t)
  \/ exists entries,
       sounds = PList entries /\ In e entries
       /\ (2 <= List.length entries ->
           exists f, py_index e "file" = Ok f /\ py_eqb f last = false).
Proof.
  unfold sound_pool. intros Hpool Hpick.
  destruct (py_len sounds) as [n |] eqn:En; cbn [rbind] in Hpool;
    [| discriminate Hpool].
  destruct (Nat.leb n 1) eqn:Ele.
  - inversion Hpool; subst pool. apply Nat.leb_le in Ele.
    destruct sounds as [| | | s | l | d]; try discriminate Hpick.
    + left. unfold random_choice in Hpick.
      destruct (nth_error (chars s) (draw mod String.length s)) as [x |] eqn:E;
        [| discriminate Hpick].
      inversion Hpick; subst. exact (chars_index s e (nth_error_In _ _ E)).
    + right. exists l. split; [reflexivity |].
      split; [exact (random_choice_list_inv draw l e Hpick) |].
      intros H2. simpl in En. inversion En. lia.
    + destruct d; discriminate Hpick.
  - apply Nat.leb_gt in Ele.
    destruct (py_iter sounds) as [items |] eqn:Ei; cbn [rbind] in Hpool;
      [| discriminate Hpool].
    destruct (filter_res _ items) as [kept |] eqn:Ef; cbn [rbind] in Hpool;
      [| discriminate Hpool].
    inversion Hpool; subst pool.
    pose proof (random_choice_list_inv draw kept e Hpick) as Hin.
    destruct (filter_res_inv _ items kept Ef e Hin) as [Hitems Hcond].
    destruct (py_index e "file") as [f |] eqn:Efile; cbn [rbind] in Hcond;
      [| discriminate Hcond].
    destruct sounds as [| | | s | l | d]; try discriminate Ei.
    + left. simpl in Ei. inversion Ei; subst items.
      exact (chars_index s e Hitems).
    + right. simpl in Ei. inversion Ei; subst items.
      exists l. split; [reflexivity |]. split; [exact Hitems |].
      intros _. exists f. split; [reflexivity |].
      inversion Hcond as [Hb]. now apply negb_true_iff in Hb.
    + left. simpl in Ei. inversion Ei; subst items.
      apply in_map_iff in Hitems. destruct Hitems as [kv [<- _]]. eauto.
Qed.

(** X8: whatever path [pick_sound] returns is the pack directory joined
    with the file of a candidate that the manifest lists for the
    category; [last_played] of the category is then that file, the
    memory of the other categories and the other keys of the State are
    as before, and with two or more candidates the file differs from the
    one played last. When nothing is returned the State is unchanged. *)
Theorem pick_sound_returns_listed_file :
  forall (w : world) (pack_dir cat : string) (state state' : pyval)
         (result : option string),
    pick_sound w pack_dir cat state = Ok (result, state') ->
    match result with
    | None => state' = state
    | Some path =>
        exists manifest entries e f last,
          load_json (manifest_file w (path_join pack_dir "openpeon.json"))
            PNone = Ok manifest
          /\ manifest_sounds manifest cat = Ok (PList entries)
          /\ In e entries
          /\ py_index e "file" = Ok (PStr f)
          /\ path = path_join pack_dir f
          /\ last_played_of state cat = Ok last
          /\ (2 <= List.length entries -> py_eqb (PStr f) last = false)
          /\ last_played_of state' cat = Ok (PStr f)
          /\ (forall cat', cat' <> cat ->
                last_played_of state' cat' = last_played_of state cat')
          /\ (forall k dflt, k <> "last_played" ->
                py_get state' k dflt = py_get state k dflt)
    end.
Proof.
  intros w pack_dir cat state state' result H.
  pose proof H as Hframe.
  unfold pick_sound in H.
  step_in H. step_in H.
  destruct (negb (truthy a0)).
  { inversion H; subst. reflexivity. }
  step_in H. step_in H. step_in H. step_in H. step_in H. step_in H.
  inversion H; subst result state'. clear H.
  destruct a4 as [| | | f | |]; try discriminate E6.
  inversion E6; subst a6. clear E6.
  destruct (sound_pool_inv a0 a1 a2 a3 (rand w) E2 E3)
    as [[t ->] | [entries [-> [Hin Hdiff]]]]; [discriminate E4 |].
  destruct (set_last_played_ok state a1 (PStr f) cat E1) as [st2 [Hset Hmem]].
  rewrite Hset in E5. inversion E5; subst st2.
  exists a, entries, a3, f, a1.
  repeat (split; [assumption || reflexivity |]).
  split.
  { intros H2. destruct (Hdiff H2) as [f' [Hf' Hne]].
    rewrite E4 in Hf'. inversion Hf'; subst f'. exact Hne. }
  split; [exact Hmem |].
  split.
  - intros cat' Hne. unfold set_last_played in Hset.
    unfold last_played_of in *.
    destruct (py_get state "last_played" (PDict [])) as [lp |] eqn:Elp;
      cbn [rbind] in *; [| discriminate Hset].
    destruct lp as [| | | | | l]; try discriminate Hset.
    destruct state as [| | | | | st]; try discriminate Elp.
    cbn [py_setitem rbind] in Hset. inversion Hset; subst a5.
    unfold py_get at 1.
    rewrite (dict_get_set_same "last_played" (PDict (dict_set cat (PStr f) l)) st).
    cbn [rbind]. unfold py_get.
    now rewrite (dict_get_set_other cat' cat (PStr f) l Hne).
  - intros k dflt Hk.
    exact (pick_sound_frame w pack_dir cat state a5 _ k dflt Hframe Hk).
Qed.

Lemma pick_sound_returns_listed_file_witness :
  exists manifest entries e,
    load_json (Json (pack_with "task.complete" ["a.wav"; "b.wav"])) PNone
    = Ok manifest
    /\ manifest_sounds manifest "task.complete" = Ok (PList entries)
    /\ In e entries
    /\ py_index e "file" = Ok (PStr "b.wav").
Proof.
  pose proof (pick_sound_returns_listed_file
                (with_manifest
                   (Json (pack_with "task.complete" ["a.wav"; "b.wav"]))
                   (fresh_world stop_event))
                "/opt/peon-ping/packs/peon" "task.complete"
                (PDict [("last_played",
                         PDict [("task.complete", PStr "a.wav")])])
                (PDict [("last_played",
                         PDict [("task.complete", PStr "b.wav")])])
                (Some "/opt/peon-ping/packs/peon/b.wav") eq_refl) as H.
  cbv beta iota in H.
  destruct H as (manifest & entries & e & f & last & Hm & Hs & Hin & Hf
                 & _ & _ & _ & Hmem & _).
  vm_compute in Hmem. inversion Hmem; subst f.
  exists manifest, entries, e. now repeat split.
Defined.

(** X9: a pack without a manifest, with a manifest that cannot be read
    or that the parser rejects with a [JSONDecodeError], or whose
    manifest lacks the category or lists no sound for it, makes
    [pick_sound] return nothing, without an error and without touching
    the State. A manifest that is not UTF-8, that is nested too deep for
    the parser or that holds an integer of too many digits makes
    [pick_sound] raise instead: line 49 does not catch those errors. *)
Theorem pick_sound_without_candidates :
  forall (w : world) (pack_dir cat : string) (state : pyval),
    let manifest := manifest_file w (path_join pack_dir "openpeon.json") in
    (offers_nothing manifest cat ->
     pick_sound w pack_dir cat state = Ok (None, state))
    /\ (manifest = NotUtf8 ->
        pick_sound w pack_dir cat state = Raise UnicodeDecodeError)
    /\ (manifest = TooDeep ->
        pick_sound w pack_dir cat state = Raise RecursionError)
    /\ (manifest = HugeInt ->
        pick_sound w pack_dir cat state = Raise ValueError).
Proof.
  intros w pack_dir cat state manifest. subst manifest.
  split; [| unfold pick_sound; repeat split; intros ->; reflexivity].
  intros H. unfold pick_sound.
  destruct H as [-> | [-> | [-> | [m [-> H]]]]]; try reflexivity.
  cbn [load_json read_json rbind]. unfold manifest_sounds.
  cbn [py_get rbind].
  destruct H as [-> | [cats [-> H]]]; [reflexivity |].
  cbn [py_get rbind].
  destruct H as [-> | [entry [-> H]]]; [reflexivity |].
  cbn [py_get rbind].
  destruct H as [-> | [sounds [-> Hs]]]; [reflexivity |].
  cbn [rbind]. now rewrite Hs.
Qed.

Lemma pick_sound_without_candidates_witness :
  pick_sound (fresh_world stop_event) "/opt/peon-ping/packs/peon"
    "task.complete" (PDict []) = Ok (None, PDict []).
Proof.
  apply (pick_sound_without_candidates (fresh_world stop_event)).
  left. reflexivity.
Defined.

Lemma string_all_app (f : ascii -> bool) (a b : string) :
  string_all f (a ++ b) = string_all f a && string_all f b.
Proof.
  induction a as [| c a IH]; simpl; [reflexivity |].
  now rewrite IH, andb_assoc.
Qed.

Lemma string_all_weaken (f g : ascii -> bool) (s : string) :
  (forall c, f c = true -> g c = true) ->
  string_all f s = true -> string_all g s = true.
Proof.
  intros Hfg. induction s as [| c s IH]; simpl; [reflexivity |].
  intros H. apply andb_true_iff in H. destruct H as [Hc Hs].
  now rewrite (Hfg c Hc), (IH Hs).
Qed.

Lemma keep_chars_all (f : ascii -> bool) (s : string) :
  string_all f (keep_chars f s) = true.
Proof.
  induction s as [| c s IH]; simpl; [reflexivity |].
  destruct (f c) eqn:E; simpl; [now rewrite E | exact IH].
Qed.

(** Lines 321-323: the project name is never empty and has only kept
    characters. *)
Lemma project_name_safe (cwd : pyval) (p : string) :
  project_name cwd = Ok p ->
  p <> "" /\ string_all project_char p = true.
Proof.
  unfold project_name. intros H.
  destruct (if truthy cwd then _ else _) as [raw |]; cbn [rbind] in H;
    [| discriminate H].
  inversion H; subst p. clear H.
  destruct (String.eqb (keep_chars _ raw) "") eqn:E.
  - split; [discriminate | reflexivity].
  - split; [now apply String.eqb_neq in E |].
    apply keep_chars_all.
Qed.

Lemma title_char_excludes (c : ascii) :
  title_char c = true ->
  c <> ascii_of_nat 27 /\ c <> ascii_of_nat 7 /\ c <> ascii_of_nat 10
  /\ c <> ascii_of_nat 13 /\ c <> ascii_of_nat 34 /\ c <> ascii_of_nat 39
  /\ c <> ascii_of_nat 92 /\ c <> ascii_of_nat 96 /\ c <> ascii_of_nat 36
  /\ c <> ascii_of_nat 59.
Proof.
  intros H. repeat split; intros ->; vm_compute in H; discriminate H.
Qed.

(** Below 128 the title characters are the ASCII letters and digits and
    the six characters of [ ._-:*]. *)
Lemma title_char_ascii (c : ascii) :
  title_char c = true ->
  Nat.ltb (nat_of_ascii c) 128 = true ->
  (Nat.leb 48 (nat_of_ascii c) && Nat.leb (nat_of_ascii c) 57)
  || (Nat.leb 65 (nat_of_ascii c) && Nat.leb (nat_of_ascii c) 90)
  || (Nat.leb 97 (nat_of_ascii c) && Nat.leb (nat_of_ascii c) 122)
  || existsb (Ascii.eqb c) [" "; "."; "_"; "-"; ":"; "*"]%char = true.
Proof.
  destruct c as [[] [] [] [] [] [] [] []]; intros H Hlt;
    try reflexivity; try (vm_compute in H; discriminate H);
    vm_compute in Hlt; discriminate Hlt.
Qed.

(** X10: every title that the handler writes to the terminal (between
    the escape sequence [ESC ]0;] and the bell character) and every
    notification title and message consists of characters that
    [str.isalnum()] accepts and of the six characters of [ ._-:*],
    whatever the working directory of the event is. Among the ASCII
    characters these are the letters, the digits and those six: no
    quote, backslash, backquote, dollar, semicolon, newline, carriage
    return, escape or bell character gets through. *)
Theorem feedback_text_is_sanitised :
  forall (w : world) (e : effect),
    In e (fst (main w)) ->
    match e with
    | ETitle bytes =>
        exists title,
          bytes = String (ascii_of_nat 27)
                    ("]0;" ++ title ++ String (ascii_of_nat 7) "")%string
          /\ string_all title_char title = true
    | ENotify title message =>
        string_all title_char title = true
        /\ string_all title_char message = true
    | _ => True
    end
    /\ forall c, title_char c = true ->
         (isalnum c = true
          \/ In c [" "; "."; "_"; "-"; ":"; "*"]%char)
         /\ (Nat.ltb (nat_of_ascii c) 128 = true ->
             (Nat.leb 48 (nat_of_ascii c) && Nat.leb (nat_of_ascii c) 57)
             || (Nat.leb 65 (nat_of_ascii c) && Nat.leb (nat_of_ascii c) 90)
             || (Nat.leb 97 (nat_of_ascii c) && Nat.leb (nat_of_ascii c) 122)
             || existsb (Ascii.eqb c) [" "; "."; "_"; "-"; ":"; "*"]%char
             = true)
         /\ c <> ascii_of_nat 27 /\ c <> ascii_of_nat 7 /\ c <> ascii_of_nat 10
         /\ c <> ascii_of_nat 13 /\ c <> ascii_of_nat 34
         /\ c <> ascii_of_nat 39 /\ c <> ascii_of_nat 92
         /\ c <> ascii_of_nat 96 /\ c <> ascii_of_nat 36
         /\ c <> ascii_of_nat 59.
Proof.
  intros w e He. split.
  2:{ intros c Hc. split; [| split;
        [exact (title_char_ascii c Hc) | exact (title_char_excludes c Hc)]].
      unfold title_char, project_char, is_project_punct in Hc.
      destruct (isalnum c); [now left | right]. cbn [orb] in Hc.
      repeat (apply orb_true_iff in Hc; destruct Hc as [Hc | Hc]);
        apply Ascii.eqb_eq in Hc; subst c; cbn; tauto. }
  destruct (main_effect_inv w _ He)
    as [[doc' [event [-> _]]]
       | [event [c [Hin [Hg [Hn | [d [st [Hd Hf]]]]]]]]].
  - exact I.
  - unfold notice_of in Hn.
    destruct (py_eqb (c_event_name c) (PStr "SessionStart") && c_paused c);
      [destruct Hn as [<- | []]; exact I | destruct Hn].
  - destruct (gates_proceed w event c Hg)
      as (ev & ss & en & -> & Hcfg & Hst & Hen & Htr & Hp & Hvol & Hpack
          & Hcats & Hdn & Hname & Hnt & Hproj & Hss & Hmem & Hdel).
    destruct (project_name_safe _ _ Hproj) as [_ Hsafe].
    assert (Hp' : string_all title_char (c_project c) = true).
    { apply (string_all_weaken project_char); [| exact Hsafe].
      intros ch Hch. unfold title_char. now rewrite Hch. }
    destruct (decide_inv w c d st Hd) as [Hdec _].
    assert (Htitle : string_all title_char (title_of c d) = true
                     /\ (notify d = true ->
                         string_all title_char (msg d) = true)).
    { unfold title_of.
      destruct Hdec as [_ Hs Hm Hn0 _ | _ Hs Hm Hn0 _ | _ Hs Hm Hn0 _
                        | _ _ Hs Hm _ Hmsg _ | _ _ Hs Hm _ Hmsg _];
        rewrite Hs, Hm; try rewrite Hmsg;
        rewrite ?string_all_app, ?Hp'; (split; [reflexivity |]);
        try (intros Hq; congruence); intros _;
        rewrite ?string_all_app, ?Hp'; reflexivity. }
    destruct Htitle as [Ht Hm].
    destruct (finish_shape w c d st)
      as [played [tail [r [Hfin [Hplayed Htail]]]]].
    rewrite Hfin in Hf. cbn [fst] in Hf.
    destruct Hf as [<- | Hf]; [now exists (title_of c d) |].
    apply in_app_or in Hf. destruct Hf as [Hf | Hf].
    + destruct Hplayed as [-> | [p [-> _]]]; [destruct Hf |].
      destruct Hf as [<- | []]. exact I.
    + destruct Htail as [[-> _] | [doc [_ [_ [_ [_ [[-> _] | [-> Hall]]]]]]]].
      * destruct Hf.
      * destruct Hf as [<- | []]. exact I.
      * destruct Hf as [<- | [<- | []]]; [exact I |].
        destruct Hall as [Hnotify _]. split; [exact Ht | exact (Hm Hnotify)].
Qed.

Lemma feedback_text_is_sanitised_witness :
  string_all title_char "*  rm -rf HOME: done" = true
  /\ string_all title_char " rm -rf HOME -- Ready for your next instruction"
     = true.
Proof.
  assert (Hin : In (ENotify "*  rm -rf HOME: done"
                      " rm -rf HOME -- Ready for your next instruction")
                   (fst (main (fresh_world hostile_event)))).
  { right. right. left. reflexivity. }
  destruct (feedback_text_is_sanitised _ _ Hin) as [H _].
  exact H.
Defined.

Lemma count_at_least_one (n : nat) (th : Q) :
  (th <= 1)%Q -> Qle_bool th (inject_Z (Z.of_nat (S n))) = true.
Proof.
  intros H. apply Qle_bool_iff.
  apply Qle_trans with (y := 1%Q); [exact H |].
  unfold Qle, inject_Z. simpl Qnum. simpl Qden. lia.
Qed.

Lemma keep_recent_none (now win : Q) (ts : list Q) :
  (win <= 0)%Q -> Forall (fun t => (t <= now)%Q) ts ->
  keep_recent now win ts = [].
Proof.
  intros Hw Hall. induction Hall as [| t ts Ht _ IH]; [reflexivity |].
  unfold keep_recent in *. cbn [filter].
  rewrite (Qlt_b_false (now - t) win) by lra. exact IH.
Qed.

(** X11: degenerate parameters of the burst detector, for a current time
    and stored timestamps on one binary grid (where the subtraction of
    line 225 is exact). With a threshold of
    at most 1 every prompt is a burst; with a window of at most 0 the
    history never accumulates (the stored sequence is the current time
    alone, and no threshold above 1 is ever reached) as long as no
    stored timestamp lies in the future; and a stored timestamp that
    lies in the future is never pruned by a non-negative window. *)
Theorem check_annoyed_degenerate_parameters :
  forall (now th win : Q) (st : list (string * pyval)) (ts : list Q)
         (k : nat),
    prior_timestamps st ts ->
    on_grid k now = true ->
    forallb (on_grid k) ts = true ->
    exists state' burst,
      check_annoyed now (PDict st) (PNum th) (PNum win) = Ok (state', burst)
      /\ ((th <= 1)%Q -> burst = true)
      /\ ((win <= 0)%Q -> Forall (fun t => (t <= now)%Q) ts ->
          state' = PDict (dict_set "prompt_timestamps" (PList [PNum now]) st)
          /\ ((1 < th)%Q -> burst = false))
      /\ ((0 <= win)%Q ->
          forall t, In t ts -> (now < t)%Q ->
            exists kept,
              py_get state' "prompt_timestamps" (PList [])
                = Ok (PList (map PNum kept))
              /\ In t kept).
Proof.
  intros now th win st ts k Hprior _ _.
  eexists _, _. split; [exact (check_annoyed_numeric now th win st ts Hprior) |].
  split; [| split].
  - intros Hth. rewrite length_app, Nat.add_comm. cbn [List.length Nat.add].
    exact (count_at_least_one _ th Hth).
  - intros Hw Hall. rewrite (keep_recent_none now win ts Hw Hall).
    split; [reflexivity |].
    intros Hth. cbn [app List.length].
    destruct (Qle_bool th (inject_Z (Z.of_nat 1))) eqn:E; [| reflexivity].
    apply Qle_bool_iff in E. unfold inject_Z in E. simpl in E. lra.
  - intros Hw t Hin Hfut.
    exists (keep_recent now win ts ++ [now]).
    split; [cbn [py_get]; now rewrite dict_get_set_same |].
    apply in_or_app. left. apply keep_recent_In. split; [exact Hin | lra].
Qed.

Lemma check_annoyed_degenerate_witness :
  exists state',
    check_annoyed 1000%Q (state_with [990%Q; 2000%Q]) (PNum 1%Q) (PNum 5%Q)
    = Ok (state', true).
Proof.
  destruct (check_annoyed_degenerate_parameters 1000%Q 1%Q 5%Q
              [("prompt_timestamps", PList (map PNum [990%Q; 2000%Q]))]
              [990%Q; 2000%Q] 0 (or_introl eq_refl) eq_refl eq_refl)
    as [state' [burst [Hrun [Hone _]]]].
  exists state'. unfold state_with. rewrite Hrun. f_equal. f_equal.
  apply Hone. unfold Qle. simpl. lia.
Defined.









(** What the gates have produced when [prelude] hands over locals. *)
Lemma prelude_inv (w : world) (c : ctx) :
  snd (prelude w) = Ok (Some c) ->
  exists event,
    stdin_doc w = StdinJson event /\ gates w event = Ok (Proceed c).
Proof.
  unfold prelude. intros H.
  destruct (stdin_doc w) as [| | | | event]; cbn in H; try discriminate H.
  exists event. split; [reflexivity |].
  destruct (gates w event) as [[| st | c0] | x]; cbn in H;
    try discriminate H.
  - unfold save_json in H. destruct (state_writable w); discriminate H.
  - destruct (py_eqb (c_event_name c0) (PStr "SessionStart") && c_paused c0);
      cbn in H; now inversion H.
Qed.

Lemma hbind_ok {A B} (a : A) (f : A -> hrun B) : hbind (hret a) f = f a.
Proof. unfold hbind, hret. cbn. now destruct (f a). Qed.

Lemma hbind_raise {A B} (x : exn) (f : A -> hrun B) :
  hbind (hlift (Raise x)) f = ([], Raise x).
Proof. reflexivity. Qed.






Lemma set_paused_same (u : user_data) : set_paused (ud_paused u) u = u.
Proof. now destruct u. Qed.

(** X13: [--pause] ends normally when the marker exists and can be
    opened for writing, or does not exist and the directory can be
    written; [--resume] when there is no marker or the directory can be
    written; [--toggle] when the directory can be written. The marker is
    then present, absent and flipped, and the one line that tells the
    new state is printed; two [--toggle] in a row give back the user
    data. Otherwise the command ends in a [PermissionError] with nothing
    printed and nothing changed. *)
Theorem cli_marker_commands :
  forall (script cmd : string) (rest : list string) (u : user_data),
    cmd = "--pause" \/ cmd = "--resume" \/ cmd = "--toggle" ->
    let target :=
      if String.eqb cmd "--pause" then true
      else if String.eqb cmd "--resume" then false
      else negb (ud_paused u) in
    let allowed :=
      if String.eqb cmd "--pause"
      then (if ud_paused u then ud_marker_writable u else ud_writable u)
      else if String.eqb cmd "--resume"
      then negb (ud_paused u) || ud_writable u
      else ud_writable u in
    let r := handle_cli (script :: cmd :: rest) u in
    (allowed = true ->
       r = said (if target then paused_line else resumed_line)
             (set_paused target u))
    /\ (allowed = false -> r = quiet u (Uncaught PermissionError))
    /\ (ud_writable u = true ->
        cli_data (handle_cli (script :: "--toggle" :: rest)
                    (cli_data (handle_cli (script :: "--toggle" :: rest) u)))
        = u).
Proof.
  intros script cmd rest [ok wr cfg paused mw] Hcmd target allowed r.
  subst target allowed r. cbn [ud_writable ud_paused ud_marker_writable].
  split; [| split].
  - destruct Hcmd as [-> | [-> | ->]]; cbn [String.eqb Ascii.eqb Bool.eqb];
      destruct paused, wr, mw; cbn; intros H;
      reflexivity || discriminate H.
  - destruct Hcmd as [-> | [-> | ->]]; cbn [String.eqb Ascii.eqb Bool.eqb];
      destruct paused, wr, mw; cbn; intros H;
      reflexivity || discriminate H.
  - intros ->. destruct paused; reflexivity.
Qed.

Lemma cli_marker_commands_witness :
  handle_cli ["peon.py"; "--pause"]
    {| ud_dir_ok := true; ud_writable := false; ud_config := Missing;
       ud_paused := true; ud_marker_writable := true |}
  = said paused_line
      {| ud_dir_ok := true; ud_writable := false; ud_config := Missing;
         ud_paused := true; ud_marker_writable := true |}.
Proof.
  destruct (cli_marker_commands "peon.py" "--pause" []
              {| ud_dir_ok := true; ud_writable := false;
                 ud_config := Missing; ud_paused := true;
                 ud_marker_writable := true |}
              (or_introl eq_refl)) as [H _].
  exact (H eq_refl).
Defined.

(** The commands that [handle_cli] knows. *)
Lemma known_command_cases (cmd : string) :
  cmd = "--pause" \/ cmd = "--resume" \/ cmd = "--toggle"
  \/ cmd = "--status" \/ cmd = "--help" \/ cmd = "-h"
  \/ (String.eqb cmd "--pause" = false /\ String.eqb cmd "--resume" = false
      /\ String.eqb cmd "--toggle" = false
      /\ String.eqb cmd "--status" = false
      /\ String.eqb cmd "--help" = false /\ String.eqb cmd "-h" = false).
Proof.
  destruct (String.eqb cmd "--pause") eqn:E1;
    [apply String.eqb_eq in E1; tauto |].
  destruct (String.eqb cmd "--resume") eqn:E2;
    [apply String.eqb_eq in E2; tauto |].
  destruct (String.eqb cmd "--toggle") eqn:E3;
    [apply String.eqb_eq in E3; tauto |].
  destruct (String.eqb cmd "--status") eqn:E4;
    [apply String.eqb_eq in E4; tauto |].
  destruct (String.eqb cmd "--help") eqn:E5;
    [apply String.eqb_eq in E5; tauto |].
  destruct (String.eqb cmd "-h") eqn:E6;
    [apply String.eqb_eq in E6; tauto |].
  tauto.
Qed.

(** An option that [handle_cli] does not know. *)
Lemma handle_cli_unknown (script cmd : string) (rest : list string)
    (u : user_data) :
  String.eqb cmd "--pause" = false -> String.eqb cmd "--resume" = false ->
  String.eqb cmd "--toggle" = false -> String.eqb cmd "--status" = false ->
  String.eqb cmd "--help" = false -> String.eqb cmd "-h" = false ->
  handle_cli (script :: cmd :: rest) u
  = if String.prefix "--" cmd
    then {| cli_stdout := [];
            cli_stderr := [[Lit ("Unknown option: " ++ cmd)]];
            cli_data := u; cli_result := SysExit 1 |}
    else quiet u NotHandled.
Proof.
  intros E1 E2 E3 E4 E5 E6. unfold handle_cli.
  rewrite E1, E2, E3, E4, E5, E6. reflexivity.
Qed.

(** A command that [handle_cli] knows is handled or fails; it neither
    falls through nor exits, and it leaves the Config alone. *)
Lemma handle_cli_known (script cmd : string) (rest : list string)
    (u : user_data) :
  cmd = "--pause" \/ cmd = "--resume" \/ cmd = "--toggle"
  \/ cmd = "--status" \/ cmd = "--help" \/ cmd = "-h" ->
  cli_result (handle_cli (script :: cmd :: rest) u) <> NotHandled
  /\ (forall n, cli_result (handle_cli (script :: cmd :: rest) u)
                <> SysExit n)
  /\ ud_config (cli_data (handle_cli (script :: cmd :: rest) u))
     = ud_config u.
Proof.
  destruct u as [ok wr cfg paused mw].
  intros [-> | [-> | [-> | [-> | [-> | ->]]]]];
    cbn [handle_cli String.eqb Ascii.eqb Bool.eqb andb orb];
    unfold create_marker, remove_marker;
    cbn [ud_paused ud_writable ud_marker_writable negb].
  - destruct paused, wr, mw; cbn; repeat split; discriminate.
  - destruct paused, wr; cbn; repeat split; discriminate.
  - destruct paused, wr; cbn; repeat split; discriminate.
  - destruct (status_fields _) as [[pack vol] | x]; cbn;
      repeat split; discriminate.
  - cbn. repeat split; discriminate.
  - cbn. repeat split; discriminate.
Qed.

(** X14: [handle_cli] leaves the invocation to the event handler exactly
    when there is no argument or the first argument neither starts with
    [--] nor is [-h]; it then prints nothing and changes nothing. Only
    the first argument is looked at. An option that starts with [--] and
    is not known ends the process with status 1, with one line on the
    standard error, nothing on the standard output and the user data
    untouched; and no command ever changes the Config. *)
Theorem cli_falls_through_iff :
  forall (argv : list string) (u : user_data),
    let r := handle_cli argv u in
    (cli_result r = NotHandled <->
     match argv with
     | _ :: cmd :: _ => String.prefix "--" cmd = false /\ cmd <> "-h"
     | _ => True
     end)
    /\ (cli_result r = NotHandled -> r = quiet u NotHandled)
    /\ (forall script cmd rest rest',
          argv = script :: cmd :: rest ->
          handle_cli (script :: cmd :: rest') u = r)
    /\ (forall script cmd rest,
          argv = script :: cmd :: rest ->
          String.prefix "--" cmd = true ->
          cmd <> "--pause" -> cmd <> "--resume" -> cmd <> "--toggle" ->
          cmd <> "--status" -> cmd <> "--help" ->
          r = {| cli_stdout := [];
                 cli_stderr := [[Lit ("Unknown option: " ++ cmd)]];
                 cli_data := u; cli_result := SysExit 1 |})
    /\ (forall n, cli_result r = SysExit n ->
          n = 1 /\ cli_stdout r = [] /\ cli_data r = u
          /\ exists cmd, nth_error argv 1 = Some cmd
               /\ String.prefix "--" cmd = true
               /\ cmd <> "--pause" /\ cmd <> "--resume"
               /\ cmd <> "--toggle" /\ cmd <> "--status"
               /\ cmd <> "--help"
               /\ cli_stderr r = [[Lit ("Unknown option: " ++ cmd)]])
    /\ ud_config (cli_data r) = ud_config u.
Proof.
  intros argv u r. subst r.
  destruct argv as [| script [| cmd rest]].
  { cbn. repeat split; try tauto; discriminate. }
  { cbn. repeat split; try tauto; discriminate. }
  assert (Hrest : forall script0 cmd0 rest0 rest',
            script :: cmd :: rest = script0 :: cmd0 :: rest0 ->
            handle_cli (script0 :: cmd0 :: rest') u
            = handle_cli (script :: cmd :: rest) u).
  { intros s c r1 r2 H. inversion H. reflexivity. }
  destruct (known_command_cases cmd)
    as [Hk | [Hk | [Hk | [Hk | [Hk | [Hk | (E1 & E2 & E3 & E4 & E5 & E6)]]]]]].
  1-6: destruct (handle_cli_known script cmd rest u) as (Hn & Hx & Hc);
    [tauto | subst cmd].
  1-6: split;
    [split; [intros H; contradiction | intros [H1 H2]; try discriminate H1;
                                       now elim H2] |];
    (split; [intros H; contradiction |]);
    (split; [exact Hrest |]);
    (split; [intros s c r1 H; inversion H; subst; intros Hp;
             try (cbn in Hp; discriminate Hp); intros; congruence |]);
    (split; [intros n H; now elim (Hx n) | exact Hc]).
  rewrite (handle_cli_unknown script cmd rest u E1 E2 E3 E4 E5 E6) in *.
  destruct (String.prefix "--" cmd) eqn:Ep.
  - split; [split; [discriminate | intros [H _]; discriminate H] |].
    split; [discriminate |].
    split; [exact Hrest |].
    split; [intros s c r1 H; inversion H; reflexivity |].
    split; [| reflexivity].
    intros n H. inversion H. repeat split.
    exists cmd. repeat split; try reflexivity; try exact Ep;
      intros ->; discriminate.
  - split;
      [split; [intros _; split; [reflexivity | intros ->; discriminate E6]
              | reflexivity] |].
    split; [reflexivity |].
    split; [exact Hrest |].
    split; [intros s c r1 H; inversion H; subst; intros H'; congruence |].
    split; [discriminate | reflexivity].
Qed.

(** What a successful [ensure_user_data] has done. *)
Lemma ensure_user_data_ok (packaged : file_content) (u u' : user_data) :
  ensure_user_data packaged u = Ok u' ->
  (ud_config u <> Missing -> u' = u)
  /\ (ud_config u = Missing -> ud_config u' = packaged)
  /\ ud_paused u' = ud_paused u
  /\ ud_dir_ok u' = true /\ ud_writable u' = ud_writable u
  /\ ensure_user_data packaged u' = Ok u'.
Proof.
  destruct u as [ok wr cfg paused mw]. unfold ensure_user_data, copy2.
  cbn [ud_dir_ok ud_writable ud_config ud_paused].
  intros H.
  destruct ok; cbn [negb] in H; [| discriminate H].
  destruct cfg; cbn [path_exists negb andb] in H;
    [| inversion H; subst u'; cbn; repeat split; congruence ..].
  destruct packaged; cbn [path_exists] in H; try discriminate H;
    try (destruct wr; [| discriminate H]);
    inversion H; subst u'; cbn;
    repeat split; try reflexivity; try congruence.
Qed.

(** X15: [ensure_user_data] never touches a Config that exists, seeds a
    missing one with the packaged default (leaving it missing when there
    is no packaged default), leaves the pause marker alone, and finds
    nothing to do when it runs again. It fails when the directory cannot
    be made, and on a first run when the packaged default cannot be read
    or the Config cannot be written. *)
Theorem ensure_user_data_seeds_once :
  forall (packaged : file_content) (u : user_data),
    (forall u', ensure_user_data packaged u = Ok u' ->
       (ud_config u <> Missing -> u' = u)
       /\ (ud_config u = Missing -> ud_config u' = packaged)
       /\ ud_paused u' = ud_paused u
       /\ ud_dir_ok u' = true /\ ud_writable u' = ud_writable u
       /\ ensure_user_data packaged u' = Ok u')
    /\ ((exists x, ensure_user_data packaged u = Raise x) <->
        ud_dir_ok u = false
        \/ (ud_config u = Missing
            /\ (packaged = Unreadable
                \/ (packaged <> Missing /\ ud_writable u = false)))).
Proof.
  intros packaged u. split; [exact (ensure_user_data_ok packaged u) |].
  destruct u as [ok wr cfg paused mw]. unfold ensure_user_data, copy2.
  cbn [ud_dir_ok ud_writable ud_config ud_paused].
  split.
  - intros [x H].
    destruct ok; cbn [negb] in H; [right | now left].
    destruct cfg; cbn [path_exists negb andb] in H; try discriminate H.
    split; [reflexivity |].
    destruct packaged; cbn [path_exists] in H; try discriminate H;
      try (now left);
      destruct wr; try discriminate H; right; split; congruence.
  - intros [-> | [-> [-> | [Hp ->]]]].
    + now exists OSError.
    + destruct ok; [now exists PermissionError | now exists OSError].
    + destruct ok; [| now exists OSError].
      destruct packaged; try contradiction; now exists PermissionError.
Qed.

(** While the pause marker exists the handler neither plays nor
    notifies. *)
Lemma paused_no_feedback (w : world) (e : effect) :
  paused_marker w = true ->
  In e (fst (main w)) ->
  is_play e = false /\ is_notify e = false.
Proof.
  intros Hpaused He.
  destruct (main_effect_inv w _ He)
    as [[doc' [event [-> _]]]
       | [event [c [Hin [Hg [Hn | [d [st [Hd Hf]]]]]]]]].
  - now split.
  - unfold notice_of in Hn.
    destruct (py_eqb (c_event_name c) (PStr "SessionStart") && c_paused c);
      [destruct Hn as [<- | []]; now split | destruct Hn].
  - destruct (gates_proceed w event c Hg)
      as (ev & ss & en & _ & _ & _ & _ & _ & Hp & _).
    rewrite Hpaused in Hp.
    destruct (finish_shape w c d st)
      as [played [tail [r [Hfin [Hplayed Htail]]]]].
    rewrite Hfin in Hf. cbn [fst] in Hf.
    destruct Hf as [<- | Hf]; [now split |].
    apply in_app_or in Hf. destruct Hf as [Hf | Hf].
    + destruct Hplayed as [-> | [p [_ [_ [Hc _]]]]]; [destruct Hf | congruence].
    + destruct Htail as [[-> _] | [doc [_ [_ [_ [_ [[-> _] | [_ [_ [Hc _]]]]]]]]]].
      * destruct Hf.
      * destruct Hf as [<- | []]. now split.
      * congruence.
Qed.

Lemma ensure_user_data_marker (packaged : file_content) (u : user_data)
    (b : bool) :
  ensure_user_data packaged u = Ok u ->
  ensure_user_data packaged (set_paused b u) = Ok (set_paused b u).
Proof.
  destruct u as [ok wr cfg paused mw]. unfold ensure_user_data, copy2. cbn.
  destruct ok, cfg, packaged, wr; cbn; intros H; try discriminate H;
    try reflexivity; inversion H.
Qed.

(** A run without arguments is a run of the event handler on the
    prepared user data. *)
Lemma peon_event (script : string) (packaged : file_content)
    (u u1 : user_data) (w : world) :
  ensure_user_data packaged u = Ok u1 ->
  r_data (peon [script] packaged u w) = u1
  /\ r_effects (peon [script] packaged u w)
     = fst (main (with_config (ud_config u1) (with_paused (ud_paused u1) w))).
Proof.
  intros H. unfold peon. rewrite H. cbn [handle_cli quiet cli_result].
  now split.
Qed.

(** X16: after a [--pause] that has ended normally the pause marker
    exists; a following run of the event handler, whatever the event,
    the State and the pack are, plays nothing and notifies nothing and
    leaves Config and marker as they are. A following [--resume] ends
    normally and removes the marker, without touching the Config, when
    the directory can be written -- which is so whenever the [--pause]
    had to create the marker; when the marker existed before and the
    directory cannot be written, the [--resume] ends in a
    [PermissionError] and the marker stays. *)
Theorem pause_lasts_until_resume :
  forall (script script' : string) (packaged : file_content)
         (u : user_data) (w w' w'' : world),
    let first := peon [script; "--pause"] packaged u w in
    r_end first = Returned ->
    let second := peon [script'] packaged (r_data first) w' in
    let third := peon [script; "--resume"] packaged (r_data second) w'' in
    ud_paused (r_data first) = true
    /\ r_effects first = []
    /\ r_stdout first = [[Lit paused_line]]
    /\ r_data second = r_data first
    /\ (forall e, In e (r_effects second) ->
          is_play e = false /\ is_notify e = false)
    /\ (ud_paused u = false -> ud_writable u = true)
    /\ (ud_writable u = true ->
        r_end third = Returned
        /\ r_stdout third = [[Lit resumed_line]]
        /\ r_data third = set_paused false (r_data first))
    /\ (ud_writable u = false ->
        r_end third = Crashed PermissionError
        /\ r_stdout third = []
        /\ r_data third = r_data first).
Proof.
  intros script script' packaged u w w' w'' first Hend second third.
  assert (Hfirst : exists u1,
            ud_writable u1 = ud_writable u
            /\ (ud_paused u = false -> ud_writable u = true)
            /\ ensure_user_data packaged (set_paused true u1)
               = Ok (set_paused true u1)
            /\ first = {| r_stdout := [[Lit paused_line]]; r_stderr := [];
                          r_data := set_paused true u1; r_effects := [];
                          r_end := Returned |}).
  { subst first. revert Hend. unfold peon.
    destruct (ensure_user_data packaged u) as [u1 | x] eqn:E1;
      [| discriminate].
    destruct (ensure_user_data_ok packaged u u1 E1)
      as (_ & _ & Hp & _ & Hw & Hagain).
    cbn [handle_cli String.eqb Ascii.eqb Bool.eqb]. unfold create_marker.
    rewrite Hp, Hw.
    destruct (ud_paused u) eqn:Epaused.
    - destruct (ud_marker_writable u1); cbn; [| discriminate].
      intros _. exists u1. split; [exact Hw |].
      split; [discriminate |].
      split; [now apply ensure_user_data_marker |].
      rewrite <- (set_paused_same u1) at 1. now rewrite Hp.
    - destruct (ud_writable u) eqn:Ewr; cbn; [| discriminate].
      intros _. exists u1. split; [exact Hw |].
      split; [reflexivity |].
      split; [now apply ensure_user_data_marker | reflexivity]. }
  destruct Hfirst as (u1 & Ewr & Hcreated & E2 & Hfirst).
  subst second third. rewrite Hfirst. cbn [r_data r_effects r_stdout].
  destruct (peon_event script' packaged _ _ w' E2) as [Hd He].
  rewrite Hd, He.
  split; [reflexivity |]. split; [reflexivity |]. split; [reflexivity |].
  split; [reflexivity |].
  split.
  { intros e Hin. revert Hin. apply paused_no_feedback. reflexivity. }
  split; [exact Hcreated |].
  unfold peon. rewrite E2.
  cbn [handle_cli String.eqb Ascii.eqb Bool.eqb]. unfold remove_marker.
  cbn [set_paused ud_paused ud_writable negb]. rewrite Ewr.
  split; intros ->; cbn; now repeat split.
Qed.

Lemma pause_lasts_until_resume_witness :
  ud_paused
    (r_data (peon ["peon.py"; "--pause"] Missing
               {| ud_dir_ok := true; ud_writable := true;
                  ud_config := Missing; ud_paused := false;
                  ud_marker_writable := true |}
               (fresh_world stop_event)))
  = true.
Proof.
  destruct (pause_lasts_until_resume "peon.py" "peon.py" Missing
              {| ud_dir_ok := true; ud_writable := true;
                 ud_config := Missing; ud_paused := false;
                 ud_marker_writable := true |}
              (fresh_world stop_event) (fresh_world stop_event)
              (fresh_world stop_event) eq_refl) as [H _].
  exact H.
Defined.

Lemma replace_char_absent (old : ascii) (new s : string) :
  string_all (fun c => negb (Ascii.eqb c old)) s = true ->
  replace_char old new s = s.
Proof.
  induction s as [| c s IH]; cbn; [reflexivity |].
  intros H. apply andb_true_iff in H. destruct H as [Hc Hs].
  destruct (Ascii.eqb c old); [discriminate Hc |].
  now rewrite (IH Hs).
Qed.

Lemma title_char_plain (c : ascii) : title_char c = true -> plain_char c = true.
Proof.
  intros H. destruct (title_char_excludes c H)
    as (_ & _ & _ & _ & Hd & Hs & Hb & _).
  unfold plain_char.
  destruct (Ascii.eqb c dquote) eqn:E1;
    [apply Ascii.eqb_eq in E1; contradiction |].
  destruct (Ascii.eqb c squote) eqn:E2;
    [apply Ascii.eqb_eq in E2; contradiction |].
  destruct (Ascii.eqb c backslash) eqn:E3;
    [apply Ascii.eqb_eq in E3; contradiction |].
  reflexivity.
Qed.

(** The texts of a notification are made of title characters. *)
Lemma notify_text_safe (w : world) (t m : string) :
  In (ENotify t m) (fst (main w)) ->
  string_all title_char t = true /\ string_all title_char m = true.
Proof.
  intros He.
  destruct (main_effect_inv w _ He)
    as [[doc' [event [Hx _]]]
       | [event [c [Hin [Hg [Hn | [d [st [Hd Hf]]]]]]]]].
  - discriminate Hx.
  - unfold notice_of in Hn.
    destruct (py_eqb (c_event_name c) (PStr "SessionStart") && c_paused c);
      [destruct Hn as [Hn | []]; discriminate Hn | destruct Hn].
  - destruct (gates_proceed w event c Hg)
      as (ev & ss & en & _ & _ & _ & _ & _ & _ & _ & _ & _ & _ & _ & _
          & Hproj & _).
    destruct (project_name_safe _ _ Hproj) as [_ Hsafe].
    assert (Hp' : string_all title_char (c_project c) = true).
    { apply (string_all_weaken project_char); [| exact Hsafe].
      intros ch Hch. unfold title_char. now rewrite Hch. }
    destruct (finish_shape w c d st)
      as [played [tail [r [Hfin [Hplayed Htail]]]]].
    rewrite Hfin in Hf. cbn [fst] in Hf.
    destruct Hf as [Hf | Hf]; [discriminate Hf |].
    apply in_app_or in Hf. destruct Hf as [Hf | Hf].
    { destruct Hplayed as [-> | [p [-> _]]]; [destruct Hf |].
      destruct Hf as [Hf | []]. discriminate Hf. }
    destruct Htail as [[-> _] | [doc [_ [_ [_ [_ [[-> _] | [-> Hall]]]]]]]].
    + destruct Hf.
    + destruct Hf as [Hf | []]. discriminate Hf.
    + destruct Hf as [Hf | [Hf | []]]; [discriminate Hf |].
      inversion Hf; subst t m. clear Hf.
      destruct Hall as [Hnotify _].
      destruct (decide_inv w c d st Hd) as [Hdec _].
      unfold title_of.
      destruct Hdec as [_ _ _ Hn0 _ | _ _ _ Hn0 _ | _ _ _ Hn0 _
                        | _ _ Hs Hm _ Hmsg _ | _ _ Hs Hm _ Hmsg _];
        try congruence;
        rewrite Hs, Hm, Hmsg, !string_all_app, Hp'; now split.
Qed.

(** X17: the title and the message of every notification that the
    handler asks for hold no quote and no backslash, so the escaping of
    [show_notification] changes nothing: the AppleScript and PowerShell
    commands carry the two texts as they are, between quotes that the
    texts cannot close. *)
Theorem notification_text_needs_no_escaping :
  forall (h : host) (w : world) (t m : string),
    In (ENotify t m) (fst (main w)) ->
    string_all plain_char t = true
    /\ string_all plain_char m = true
    /\ show_notification h t m
       = match h_platform h with
         | Darwin =>
             popen_named h "osascript" [Lit "-e"; Lit (osascript_of m t)]
               false
         | Windows =>
             popen_named h "powershell"
               [Lit "-ExecutionPolicy"; Lit "Bypass"; Lit "-Command";
                Lit (powershell_of m t)] true
         | Linux =>
             match h_which h "notify-send" with
             | Some exe => Ok [Popen [Lit exe; Lit t; Lit m] false]
             | None => Ok []
             end
         | OtherPlatform => Ok []
         end.
Proof.
  intros h w t m He.
  destruct (notify_text_safe w _ _ He) as [Ht Hm].
  assert (Hpt : string_all plain_char t = true)
    by (apply (string_all_weaken title_char); [exact title_char_plain | exact Ht]).
  assert (Hpm : string_all plain_char m = true)
    by (apply (string_all_weaken title_char); [exact title_char_plain | exact Hm]).
  split; [exact Hpt |]. split; [exact Hpm |].
  assert (Hd : forall s, string_all plain_char s = true ->
                 string_all (fun c => negb (Ascii.eqb c dquote)) s = true).
  { intros s. apply string_all_weaken. intros c. unfold plain_char.
    destruct (Ascii.eqb c dquote); [discriminate | reflexivity]. }
  assert (Hs : forall s, string_all plain_char s = true ->
                 string_all (fun c => negb (Ascii.eqb c squote)) s = true).
  { intros s. apply string_all_weaken. intros c. unfold plain_char.
    destruct (Ascii.eqb c squote);
      [rewrite orb_true_r; discriminate | reflexivity]. }
  unfold show_notification.
  destruct (h_platform h); try reflexivity.
  - rewrite (replace_char_absent dquote _ t (Hd t Hpt)),
      (replace_char_absent dquote _ m (Hd m Hpm)). reflexivity.
  - rewrite (replace_char_absent squote _ t (Hs t Hpt)),
      (replace_char_absent squote _ m (Hs m Hpm)). reflexivity.
Qed.

Lemma notification_text_needs_no_escaping_witness :
  show_notification linux_host "*  rm -rf HOME: done"
    " rm -rf HOME -- Ready for your next instruction"
  = Ok [Popen [Lit "/usr/bin/notify-send"; Lit "*  rm -rf HOME: done";
               Lit " rm -rf HOME -- Ready for your next instruction"] false].
Proof.
  assert (Hin : In (ENotify "*  rm -rf HOME: done"
                      " rm -rf HOME -- Ready for your next instruction")
                   (fst (main (fresh_world hostile_event)))).
  { right. right. left. reflexivity. }
  destruct (notification_text_needs_no_escaping linux_host _ _ _ Hin)
    as (_ & _ & H).
  exact H.
Defined.

(** What [play_sound] starts when it returns. *)
Lemma play_sound_ok (h : host) (w : world) (path : string) (volume : pyval)
    (acts : list action) :
  play_sound h w path volume = Ok acts ->
  (acts = []
   \/ (exists args, acts = [Popen args (match h_platform h with
                                        | Windows => true
                                        | _ => false
                                        end)]
         /\ last args (Lit "") = Lit path
         /\ forall z, In (IntOf z) args -> (0 <= z <= 100)%Z)
   \/ (acts = [PlaySound path] /\ h_platform h = Windows
       /\ h_which h "ffplay" = None))
  /\ (sound_exists w path = false -> acts = []).
Proof.
  unfold play_sound, popen_named.
  destruct (sound_exists w path); cbn [negb].
  2:{ intros H. inversion H. split; [now left | reflexivity]. }
  intros H. split; [| discriminate].
  assert (Hvol : forall ffplay,
            (scaled <- h_int_percent h volume ;;
             Ok [Popen [Lit ffplay; Lit "-nodisp"; Lit "-autoexit";
                        Lit "-loglevel"; Lit "quiet"; Lit "-volume";
                        IntOf (Z.max 0 (Z.min 100 scaled)); Lit path]
                   (match h_platform h with
                    | Windows => true
                    | _ => false
                    end)]) = Ok acts ->
            exists args, acts = [Popen args (match h_platform h with
                                             | Windows => true
                                             | _ => false
                                             end)]
              /\ last args (Lit "") = Lit path
              /\ forall z, In (IntOf z) args -> (0 <= z <= 100)%Z).
  { intros ffplay Hf.
    destruct (h_int_percent h volume) as [scaled |]; cbn [rbind] in Hf;
      [| discriminate Hf].
    inversion Hf. eexists. split; [reflexivity |]. split; [reflexivity |].
    intros z Hz. cbn in Hz.
    repeat (destruct Hz as [Hz | Hz]; [try discriminate Hz |]);
      [inversion Hz; lia | destruct Hz]. }
  destruct (h_platform h) eqn:Ep.
  - destruct (h_which h "afplay"); [| discriminate H].
    inversion H. right; left. eexists. split; [reflexivity |].
    split; [reflexivity |].
    intros z Hz. cbn in Hz.
    repeat (destruct Hz as [Hz | Hz]; [discriminate Hz |]). destruct Hz.
  - destruct (h_which h "ffplay") as [ff |] eqn:Ef.
    + right; left. exact (Hvol ff H).
    + destruct (endswith (lower path) ".wav"); inversion H;
        [right; right; now repeat split | now left].
  - destruct (h_which h "ffplay") as [ff |] eqn:Ef.
    + right; left. exact (Hvol ff H).
    + destruct (first_player h _) as [[player exe] |]; [| inversion H; now left].
      right; left.
      destruct (String.eqb player "aplay"); inversion H;
        (eexists; split; [reflexivity |]; split; [reflexivity |]);
        intros z Hz; cbn in Hz;
        repeat (destruct Hz as [Hz | Hz]; [discriminate Hz |]); destruct Hz.
  - destruct (h_which h "ffplay") as [ff |] eqn:Ef.
    + right; left. exact (Hvol ff H).
    + inversion H. now left.
Qed.


(** The run of [main] on an event that the gates let through. *)
Lemma main_of_gates (w : world) (event : pyval) (c : ctx) :
  stdin_doc w = StdinJson event ->
  gates w event = Ok (Proceed c) ->
  main w = (notice_of c ++ fst (body w c), snd (body w c)).
Proof.
  intros Hin Hg.
  assert (Hp : prelude w = (notice_of c, Ok (Some c))).
  { unfold prelude, notice_of. rewrite Hin. cbn [loads_stdin]. rewrite Hg.
    rewrite (bind_ok (Proceed c)).
    destruct (py_eqb (c_event_name c) (PStr "SessionStart") && c_paused c);
      reflexivity. }
  now destruct (prelude_proceeds w _ c Hp) as [_ Hmain].
Qed.

(** X19: a [permission_prompt] or [idle_prompt] notification event that
    passes the gates, with the handler not paused, desktop notifications
    not switched off and the terminal not focused, ends in a desktop
    notification whenever the handler returns normally -- also when the
    category of the event is switched off or the pack has no sound for
    it. The notification is the last effect, after the State save, and
    carries the title written to the terminal. *)
Theorem notification_sent_when_due :
  forall (w : world) (ev : list (string * pyval)) (c : ctx),
    stdin_doc w = StdinJson (PDict ev) ->
    gates w (PDict ev) = Ok (Proceed c) ->
    field_of ev "hook_event_name" = PStr "Notification" ->
    field_of ev "notification_type" = PStr "permission_prompt"
    \/ field_of ev "notification_type" = PStr "idle_prompt" ->
    paused_marker w = false ->
    truthy (c_desktop_notif c) = true ->
    terminal_focused w = false ->
    snd (main w) = Ok tt ->
    exists before doc t m,
      fst (main w) = ETitle (title_bytes t) :: before ++ [ESave doc; ENotify t m]
      /\ ((field_of ev "notification_type" = PStr "permission_prompt"
           /\ t = ("* " ++ c_project c ++ ": needs approval")%string
           /\ m = (c_project c
                   ++ " -- A tool is waiting for your permission")%string)
          \/ (field_of ev "notification_type" = PStr "idle_prompt"
              /\ t = ("* " ++ c_project c ++ ": done")%string
              /\ m = (c_project c
                      ++ " -- Ready for your next instruction")%string)).
Proof.
  intros w ev c Hin Hg Hname Htype Hpaused Hdn Hfoc Hret.
  destruct (gates_proceed w _ c Hg)
    as (ev' & ss & en & Heq & _ & _ & _ & _ & Hp & _ & _ & _ & _
        & Hcn & Hct & _).
  inversion Heq; subst ev'. clear Heq.
  rewrite Hname in Hcn. rewrite Hpaused in Hp.
  rewrite (main_of_gates w _ c Hin Hg) in Hret |- *.
  assert (Hnotice : notice_of c = []).
  { unfold notice_of. now rewrite Hcn. }
  rewrite Hnotice. cbn [app fst snd] in Hret |- *.
  unfold body in Hret |- *.
  destruct (decide w c) as [[[d state] |] | x] eqn:Hd.
  2:{ exfalso. unfold decide, classify in Hd. rewrite Hcn, Hct in Hd.
      cbn [py_eqb String.eqb Ascii.eqb Bool.eqb] in Hd.
      destruct Htype as [Ht | Ht]; rewrite Ht in Hd; cbn in Hd;
        match type of Hd with
        | context [py_get ?a ?b ?d] => destruct (py_get a b d)
        end; discriminate Hd. }
  2:{ rewrite bind_raise in Hret. discriminate Hret. }
  rewrite (bind_ok (Some (d, state))) in Hret |- *.
  destruct (decide_inv w c d state Hd) as [Hdec _].
  destruct (finish_shape w c d state)
    as [played [tail [r [Hfin [Hplayed Htail]]]]].
  rewrite Hfin in Hret |- *. cbn [fst snd] in Hret |- *.
  assert (Hn : notify d = true
               /\ ((c_ntype c = PStr "permission_prompt"
                    /\ status d = "needs approval" /\ marker d = "* "
                    /\ msg d = (c_project c
                          ++ " -- A tool is waiting for your permission")%string)
                   \/ (c_ntype c = PStr "idle_prompt"
                       /\ status d = "done" /\ marker d = "* "
                       /\ msg d = (c_project c
                             ++ " -- Ready for your next instruction")%string))).
  { destruct Hdec as [He _ _ _ _ | He _ _ _ _ | He _ _ _ _
                      | _ Hty Hs Hm Hn0 Hmsg _ | _ Hty Hs Hm Hn0 Hmsg _];
      try congruence; (split; [exact Hn0 |]); [left | right]; now repeat split. }
  destruct Hn as [Hnot Hrow].
  destruct Htail as [[_ [x ->]] | [doc [_ [_ [_ [_ [[_ Hc] | [-> _]]]]]]]].
  - discriminate Hret.
  - rewrite Hnot, Hp, Hdn, Hfoc in Hc. discriminate Hc.
  - exists played, doc, (title_of c d), (msg d). split; [reflexivity |].
    unfold title_of. rewrite <- Hct.
    destruct Hrow as [(Hty & Hs & Hm & Hmsg) | (Hty & Hs & Hm & Hmsg)];
      [left | right]; rewrite Hs, Hm, Hmsg; now repeat split.
Qed.

Lemma notification_sent_when_due_witness :
  exists before doc t m,
    fst (main (with_config (Json (toggle_off "input.required"))
                 (fresh_world permission_event)))
    = ETitle (title_bytes t) :: before ++ [ESave doc; ENotify t m]
    /\ t = "* myproj: needs approval".
Proof.
  destruct (notification_sent_when_due
              (with_config (Json (toggle_off "input.required"))
                 (fresh_world permission_event))
              [("hook_event_name", PStr "Notification");
               ("notification_type", PStr "permission_prompt");
               ("cwd", PStr "/home/u/myproj")]
              {| c_config := toggle_off "input.required";
                 c_state := PDict [];
                 c_paused := false; c_volume := PNum (1 # 2)%Q;
                 c_active_pack := PStr "peon";
                 c_cat_config := PDict [("input.required", PBool false)];
                 c_desktop_notif := PBool true;
                 c_event_name := PStr "Notification";
                 c_ntype := PStr "permission_prompt";
                 c_project := "myproj" |}
              eq_refl eq_refl eq_refl (or_introl eq_refl) eq_refl eq_refl
              eq_refl eq_refl)
    as (before & doc & t & m & Htrace & [(_ & Ht & _) | (Hc & _)]).
  - exists before, doc, t, m. split; [exact Htrace | exact Ht].
  - discriminate Hc.
Defined.

Section StringFacts.

Local Open Scope string_scope.

Lemma lower_app (a b : string) : lower (a ++ b) = lower a ++ lower b.
Proof.
  induction a as [| c a IH]; cbn; [reflexivity | now rewrite IH].
Qed.

Lemma is_space_lower (c : ascii) : is_space (lower_char c) = is_space c.
Proof.
  destruct c as [[] [] [] [] [] [] [] []]; reflexivity.
Qed.

Lemma lower_empty (s : string) : String.eqb (lower s) "" = String.eqb s "".
Proof. now destruct s. Qed.

Lemma lstrip_lower (s : string) : lstrip (lower s) = lower (lstrip s).
Proof.
  induction s as [| c s IH]; cbn; [reflexivity |].
  rewrite is_space_lower. now destruct (is_space c).
Qed.

Lemma rstrip_lower (s : string) : rstrip (lower s) = lower (rstrip s).
Proof.
  induction s as [| c s IH]; cbn; [reflexivity |].
  rewrite is_space_lower, IH, lower_empty.
  now destruct (is_space c && String.eqb (rstrip s) "").
Qed.

Lemma strip_lower (s : string) : strip (lower s) = lower (strip s).
Proof.
  unfold strip. now rewrite lstrip_lower, rstrip_lower.
Qed.

Lemma prefix_app (n b : string) : String.prefix n (n ++ b) = true.
Proof.
  induction n as [| c n IH]; cbn.
  - now destruct b.
  - destruct (ascii_dec c c) as [_ | Hc]; [exact IH | now elim Hc].
Qed.

Lemma contains_prefix (n hay : string) :
  String.prefix n hay = true -> contains n hay = true.
Proof.
  intros H. destruct hay; cbn [contains]; now rewrite H.
Qed.

Lemma contains_app (n a b : string) : contains n (a ++ n ++ b) = true.
Proof.
  induction a as [| c a IH].
  - cbn [append]. apply contains_prefix, prefix_app.
  - cbn. rewrite IH. apply orb_true_r.
Qed.

Lemma lstrip_app (pre : string) (c : ascii) (r : string) :
  is_space c = false ->
  exists pre', lstrip (pre ++ String c r) = pre' ++ String c r.
Proof.
  intros Hc. induction pre as [| a pre IH]; cbn.
  - rewrite Hc. now exists "".
  - destruct (is_space a); [exact IH |]. now exists (String a pre).
Qed.

Lemma rstrip_not_empty (x : string) (c : ascii) (post : string) :
  is_space c = false -> String.eqb (rstrip (x ++ String c post)) "" = false.
Proof.
  intros Hc. induction x as [| a x IH]; cbn.
  - now rewrite Hc.
  - rewrite IH, andb_false_r. reflexivity.
Qed.

Lemma rstrip_app (x : string) (c : ascii) (post : string) :
  is_space c = false ->
  rstrip (x ++ String c post) = x ++ String c (rstrip post).
Proof.
  intros Hc. induction x as [| a x IH]; cbn.
  - now rewrite Hc.
  - rewrite (rstrip_not_empty x c post Hc), andb_false_r. now rewrite IH.
Qed.

Lemma last_of_split (c : ascii) (r : string) :
  exists x, String c r = x ++ String (last_of c r) "".
Proof.
  revert c. induction r as [| c' r IH]; intros c; cbn.
  - now exists "".
  - destruct (IH c') as [x Hx]. exists (String c x). cbn. now rewrite Hx.
Qed.

Lemma firm_split (s : string) :
  firm s = true ->
  exists c0 r x c1,
    s = String c0 r /\ s = x ++ String c1 ""
    /\ is_space c0 = false /\ is_space c1 = false.
Proof.
  destruct s as [| c r]; cbn; [discriminate |].
  intros H. apply andb_true_iff in H. destruct H as [H0 H1].
  destruct (last_of_split c r) as [x Hx].
  exists c, r, x, (last_of c r).
  repeat split; [exact Hx | |]; now apply negb_true_iff.
Qed.

Lemma append_assoc_s (a b c : string) : (a ++ b) ++ c = a ++ b ++ c.
Proof.
  induction a as [| x a IH]; cbn; [reflexivity | now rewrite IH].
Qed.

(** A text that holds a firm name keeps it when it is stripped. *)
Lemma strip_keeps (name pre post : string) :
  firm name = true ->
  exists pre' post', strip (pre ++ name ++ post) = pre' ++ name ++ post'.
Proof.
  intros Hf.
  destruct (firm_split name Hf) as (c0 & r & x & c1 & H0 & H1 & Hs0 & Hs1).
  unfold strip.
  destruct (lstrip_app pre c0 (r ++ post) Hs0) as [pre' Hl].
  assert (E0 : name ++ post = String c0 (r ++ post)) by now rewrite H0.
  rewrite E0, Hl, <- E0.
  assert (E1 : pre' ++ name ++ post = (pre' ++ x) ++ String c1 post).
  { rewrite H1 at 1. now rewrite !append_assoc_s. }
  rewrite E1, (rstrip_app _ c1 post Hs1).
  exists pre', (rstrip post).
  rewrite H1. now rewrite !append_assoc_s.
Qed.

Lemma terminals_firm (p : platform) (name : string) :
  In name (terminals_of p) -> firm name = true.
Proof.
  assert (H : forallb firm (terminals_of p) = true)
    by (destruct p; reflexivity).
  intros Hin. rewrite forallb_forall in H. now apply H.
Qed.

Lemma any_in_found (names : list string) (name pre post : string) :
  In name names -> any_in names (pre ++ name ++ post) = true.
Proof.
  intros Hin. unfold any_in. apply existsb_exists.
  exists name. split; [exact Hin | apply contains_app].
Qed.

End StringFacts.

(** A notification is asked for only when the terminal is not
    focused. *)
Lemma notify_effect_unfocused (w : world) (e : effect) :
  In e (fst (main w)) -> is_notify e = true -> terminal_focused w = false.
Proof.
  intros He Hn.
  destruct (main_effect_inv w _ He)
    as [[doc' [event [-> _]]]
       | [event [c [Hin [Hg [Hnot | [d [st [Hd Hf]]]]]]]]].
  - discriminate Hn.
  - unfold notice_of in Hnot.
    destruct (py_eqb (c_event_name c) (PStr "SessionStart") && c_paused c);
      [destruct Hnot as [<- | []]; discriminate Hn | destruct Hnot].
  - destruct (finish_shape w c d st)
      as [played [tail [r [Hfin [Hplayed Htail]]]]].
    rewrite Hfin in Hf. cbn [fst] in Hf.
    destruct Hf as [<- | Hf]; [discriminate Hn |].
    apply in_app_or in Hf. destruct Hf as [Hf | Hf].
    + destruct Hplayed as [-> | [p [-> _]]]; [destruct Hf |].
      destruct Hf as [<- | []]. discriminate Hn.
    + destruct Htail as [[-> _] | [doc [_ [_ [_ [_ [[-> _] | [-> Hall]]]]]]]].
      * destruct Hf.
      * destruct Hf as [<- | []]. discriminate Hn.
      * now destruct Hall as (_ & _ & _ & Hfoc).
Qed.

(** X20: the focus check is a substring test without regard to letter
    case: when the name of the frontmost application (the title of the
    foreground window) holds one of the platform's terminal names
    anywhere, in any letter case, the terminal counts as focused, and the
    handler then asks for no desktop notification, whatever the event
    is. *)
Theorem terminal_name_anywhere_counts :
  forall (h : host) (pre word post : string),
    h_frontmost h = Ok (pre ++ word ++ post)%string ->
    In (lower word) (terminals_of (h_platform h)) ->
    is_terminal_focused h = true
    /\ forall (w : world) (e : effect),
         In e (fst (main (on_host h w))) -> is_notify e = false.
Proof.
  intros h pre word post Hfront Hin.
  assert (Hfocus : is_terminal_focused h = true).
  { pose proof (terminals_firm _ _ Hin) as Hfirm.
    unfold is_terminal_focused. rewrite Hfront.
    destruct (h_platform h) eqn:Ep; cbn [terminals_of] in Hin.
    - rewrite <- strip_lower, !lower_app.
      destruct (strip_keeps (lower word) (lower pre) (lower post) Hfirm)
        as (pre' & post' & ->).
      now apply any_in_found.
    - assert (Hne : Nat.eqb (String.length (pre ++ word ++ post)%string) 0 = false).
      { destruct word as [| c r]; [discriminate Hfirm |].
        clear. induction pre; cbn; [reflexivity | reflexivity]. }
      rewrite Hne, !lower_app. now apply any_in_found.
    - rewrite <- strip_lower, !lower_app.
      destruct (strip_keeps (lower word) (lower pre) (lower post) Hfirm)
        as (pre' & post' & ->).
      now apply any_in_found.
    - destruct Hin. }
  split; [exact Hfocus |].
  intros w e He. destruct (is_notify e) eqn:En; [| reflexivity].
  pose proof (notify_effect_unfocused _ _ He En) as Hfoc.
  cbn [on_host terminal_focused] in Hfoc. congruence.
Qed.

Lemma terminal_name_anywhere_counts_witness :
  is_terminal_focused browsing_host = true.
Proof.
  apply (terminal_name_anywhere_counts browsing_host "" "Terminal"
           (" Tips - Browser" ++ String (ascii_of_nat 10) "")%string eq_refl).
  left. reflexivity.
Defined.

Lemma show_notification_ok (h : host) (t m : string) (acts : list action) :
  show_notification h t m = Ok acts ->
  List.length acts <= 1 /\ (h_platform h = OtherPlatform -> acts = []).
Proof.
  unfold show_notification, popen_named.
  destruct (h_platform h).
  - destruct (h_which h "osascript"); intros H; inversion H;
      split; [cbn; lia | discriminate].
  - destruct (h_which h "powershell"); intros H; inversion H;
      split; [cbn; lia | discriminate].
  - destruct (h_which h "notify-send"); intros H; inversion H;
      split; try (cbn; lia); discriminate.
  - intros H; inversion H. split; [cbn; lia | reflexivity].
Qed.

(** What lines 383-387 start: at most one player. *)
Lemma play_step_on_shape (h : host) (w : world) (c : ctx) (d : decision)
    (state : pyval) :
  exists p r,
    play_step_on h w c d state = (p, r)
    /\ List.length p <= 1
    /\ (p = [] \/ exists path,
                     play_sound h w path (c_volume c) = Ok p)
    /\ (c_paused c = true -> p = [])
    /\ (h_platform h = OtherPlatform -> h_which h "ffplay" = None -> p = []).
Proof.
  unfold play_step_on.
  destruct (os_path_join _ (c_active_pack c)) as [pack_dir | x].
  2:{ rewrite hbind_raise. eexists _, _. split; [reflexivity |].
      repeat split; try (now left); cbn; lia. }
  change (hlift (Ok pack_dir)) with (hret pack_dir). rewrite hbind_ok.
  destruct (c_paused c) eqn:Epaused.
  { rewrite andb_false_r. eexists _, _. split; [reflexivity |].
    repeat split; try (now left); cbn; lia. }
  destruct (negb (String.eqb (category d) "") && negb false).
  2:{ eexists _, _. split; [reflexivity |].
      repeat split; try discriminate; try (now left); cbn; lia. }
  destruct (pick_sound w pack_dir (category d) state) as [[result st1] | x].
  2:{ rewrite hbind_raise. eexists _, _. split; [reflexivity |].
      repeat split; try discriminate; try (now left); cbn; lia. }
  change (hlift (Ok (result, st1))) with (hret (result, st1)).
  rewrite hbind_ok. cbn [fst snd].
  destruct result as [sound_file |].
  2:{ eexists _, _. split; [reflexivity |].
      repeat split; try discriminate; try (now left); cbn; lia. }
  destruct (negb (String.eqb sound_file "") && sound_exists w sound_file).
  2:{ rewrite hbind_ok. eexists _, _. split; [reflexivity |].
      repeat split; try discriminate; try (now left); cbn; lia. }
  destruct (play_sound h w sound_file (c_volume c)) as [acts | x] eqn:Eplay.
  - unfold started, hbind. cbn [fst snd hret]. rewrite app_nil_r.
    eexists _, _. split; [reflexivity |].
    destruct (play_sound_ok h w sound_file (c_volume c) acts Eplay)
      as [Hcase _].
    split; [destruct Hcase as [-> | [[args [-> _]] | [-> _]]]; cbn; lia |].
    split; [right; now exists sound_file |].
    split; [discriminate |].
    intros Ep Hff. revert Eplay. unfold play_sound. rewrite Ep, Hff.
    destruct (sound_exists w sound_file); cbn; now intros [= <-].
  - unfold started, hbind. cbn [fst snd].
    eexists _, _. split; [reflexivity |].
    repeat split; try discriminate; try (now left); cbn; lia.
Qed.

(** What lines 374-393 start: at most one player, then the focus query,
    then at most one notifier. *)
Lemma finish_on_shape (h : host) (w : world) (c : ctx) (d : decision)
    (state : pyval) :
  exists p q n r,
    finish_on h w c d state = (p ++ q ++ n, r)
    /\ List.length p <= 1
    /\ (p = [] \/ exists path,
                     play_sound h w path (c_volume c) = Ok p)
    /\ (q = [] \/ q = focus_query h)
    /\ List.length n <= 1
    /\ (n = [] \/ show_notification h (title_of c d) (msg d) = Ok n)
    /\ (c_paused c = true -> p = [] /\ q = [] /\ n = [])
    /\ (is_terminal_focused h = true -> n = [])
    /\ (h_platform h = OtherPlatform -> h_which h "ffplay" = None ->
        p = [] /\ q = [] /\ n = []).
Proof.
  unfold finish_on.
  destruct (play_step_on_shape h w c d state)
    as (p & r & -> & Hlen & Hfrom & Hpaused & Hother).
  assert (Hq : h_platform h = OtherPlatform -> focus_query h = []).
  { unfold focus_query. now intros ->. }
  destruct r as [state1 | x].
  2:{ exists p, [], [], (Raise x). unfold hbind. cbn [fst snd].
      rewrite !app_nil_r. split; [reflexivity |].
      split; [exact Hlen |]. split; [exact Hfrom |]. split; [now left |].
      split; [cbn; lia |]. split; [now left |].
      split; [intros Hp; now rewrite (Hpaused Hp) |].
      split; [reflexivity |].
      intros Ep Hff. now rewrite (Hother Ep Hff). }
  unfold hbind at 1. cbn [fst snd].
  unfold save_json. destruct (state_writable w).
  2:{ exists p, [], [], (Raise OSError). unfold hbind. cbn [fst snd lift].
      rewrite !app_nil_r. split; [reflexivity |].
      split; [exact Hlen |]. split; [exact Hfrom |]. split; [now left |].
      split; [cbn; lia |]. split; [now left |].
      split; [intros Hp; now rewrite (Hpaused Hp) |].
      split; [reflexivity |].
      intros Ep Hff. now rewrite (Hother Ep Hff). }
  unfold hbind at 1. cbn [fst snd emit hlift app].
  destruct (c_paused c) eqn:Epaused.
  { rewrite andb_false_r. cbn [andb].
    exists p, [], [], (Ok tt). cbn [hret fst snd]. rewrite !app_nil_r.
    split; [reflexivity |].
    split; [exact Hlen |]. split; [exact Hfrom |]. split; [now left |].
      split; [cbn; lia |]. split; [now left |].
    split; [intros _; now rewrite (Hpaused eq_refl) |].
    split; [reflexivity |].
    intros Ep Hff. now rewrite (Hother Ep Hff). }
  destruct (notify d && negb false && truthy (c_desktop_notif c)).
  2:{ exists p, [], [], (Ok tt). cbn [hret fst snd]. rewrite !app_nil_r.
      split; [reflexivity |].
      split; [exact Hlen |]. split; [exact Hfrom |]. split; [now left |].
      split; [cbn; lia |]. split; [now left |].
      split; [discriminate |]. split; [reflexivity |].
      intros Ep Hff. now rewrite (Hother Ep Hff). }
  unfold hbind at 1. cbn [fst snd].
  destruct (is_terminal_focused h) eqn:Efocus; cbn [negb].
  { exists p, (focus_query h), [], (Ok tt). cbn [hret fst snd].
    split; [reflexivity |].
    split; [exact Hlen |]. split; [exact Hfrom |]. split; [now right |].
    split; [cbn; lia |]. split; [now left |].
    split; [discriminate |]. split; [reflexivity |].
    intros Ep Hff. rewrite (Hother Ep Hff), (Hq Ep). now repeat split. }
  destruct (show_notification h (title_of c d) (msg d)) as [nacts | x] eqn:Es.
  - destruct (show_notification_ok h _ _ nacts Es) as [Hn Hno].
    exists p, (focus_query h), nacts, (Ok tt). cbn [started fst snd].
    split; [reflexivity |].
    split; [exact Hlen |]. split; [exact Hfrom |]. split; [now right |].
    split; [exact Hn |]. split; [now right |].
    split; [discriminate |]. split; [discriminate |].
    intros Ep Hff. rewrite (Hother Ep Hff), (Hq Ep), (Hno Ep).
    now repeat split.
  - exists p, (focus_query h), [], (Raise x). cbn [started fst snd].
    split; [reflexivity |].
    split; [exact Hlen |]. split; [exact Hfrom |]. split; [now right |].
    split; [cbn; lia |]. split; [now left |].
    split; [discriminate |]. split; [reflexivity |].
    intros Ep Hff. rewrite (Hother Ep Hff), (Hq Ep). now repeat split.
Qed.

(** X21: one invocation starts at most three things on the machine, in
    this order: at most one sound player (what [play_sound] starts for
    one file), the focus query ([osascript] on Darwin, [xdotool] on
    Linux, no program on Windows) and at most one notifier (what
    [show_notification] starts), the last only when the terminal is not
    focused. It starts nothing at all while the handler is paused, or on
    a platform that is none of Darwin, Windows and Linux and has no
    [ffplay]. *)
Theorem handler_starts_at_most_three_processes :
  forall (h : host) (w : world),
    (exists player query notifier,
       fst (hook h w) = player ++ query ++ notifier
       /\ List.length player <= 1
       /\ (player = []
           \/ exists path volume, play_sound h w path volume = Ok player)
       /\ (query = [] \/ query = focus_query h)
       /\ List.length notifier <= 1
       /\ (notifier = []
           \/ exists t m, show_notification h t m = Ok notifier)
       /\ (is_terminal_focused h = true -> notifier = []))
    /\ focus_query h
       = match h_platform h with
         | Darwin => [Run [Lit "osascript"; Lit "-e"; Lit focus_script]]
         | Linux =>
             [Run [Lit "xdotool"; Lit "getactivewindow";
                   Lit "getwindowname"]]
         | Windows | OtherPlatform => []
         end
    /\ (paused_marker w = true -> fst (hook h w) = [])
    /\ (h_platform h = OtherPlatform -> h_which h "ffplay" = None ->
        fst (hook h w) = [])
    /\ List.length (fst (hook h w)) <= 3
    /\ (h_platform h = Windows -> List.length (fst (hook h w)) <= 2).
Proof.
  intros h w.
  assert (Hq : List.length (focus_query h) <= 1
               /\ (h_platform h = Windows -> focus_query h = [])).
  { unfold focus_query. destruct (h_platform h); cbn;
      (split; [lia | try discriminate; reflexivity]). }
  destruct Hq as [Hq1 Hq2].
  assert (Hnone : fst (hook h w) = [] ->
            (exists player query notifier,
               fst (hook h w) = player ++ query ++ notifier
               /\ List.length player <= 1
               /\ (player = []
                   \/ exists path volume,
                        play_sound h w path volume = Ok player)
               /\ (query = [] \/ query = focus_query h)
               /\ List.length notifier <= 1
               /\ (notifier = []
                   \/ exists t m, show_notification h t m = Ok notifier)
               /\ (is_terminal_focused h = true -> notifier = []))
            /\ (paused_marker w = true -> fst (hook h w) = [])
            /\ (h_platform h = OtherPlatform -> h_which h "ffplay" = None ->
                fst (hook h w) = [])
            /\ List.length (fst (hook h w)) <= 3
            /\ (h_platform h = Windows ->
                List.length (fst (hook h w)) <= 2)).
  { intros Hempty. rewrite Hempty. split.
    - exists [], [], [].
      split; [reflexivity |]. split; [cbn; lia |]. split; [now left |].
      split; [now left |]. split; [cbn; lia |]. split; [now left |].
      reflexivity.
    - split; [reflexivity |]. split; [reflexivity |].
      split; [cbn; lia | intros _; cbn; lia]. }
  assert (Hmain :
            (exists player query notifier,
               fst (hook h w) = player ++ query ++ notifier
               /\ List.length player <= 1
               /\ (player = []
                   \/ exists path volume,
                        play_sound h w path volume = Ok player)
               /\ (query = [] \/ query = focus_query h)
               /\ List.length notifier <= 1
               /\ (notifier = []
                   \/ exists t m, show_notification h t m = Ok notifier)
               /\ (is_terminal_focused h = true -> notifier = []))
            /\ (paused_marker w = true -> fst (hook h w) = [])
            /\ (h_platform h = OtherPlatform -> h_which h "ffplay" = None ->
                fst (hook h w) = [])
            /\ List.length (fst (hook h w)) <= 3
            /\ (h_platform h = Windows ->
                List.length (fst (hook h w)) <= 2)).
  { unfold hook in *.
    destruct (snd (prelude w)) as [[c |] | x] eqn:Ep;
      [| now apply Hnone | now apply Hnone].
    destruct (decide w c) as [[[d state] |] | x] eqn:Ed;
      [| now apply Hnone | now apply Hnone].
    clear Hnone.
    destruct (prelude_inv w c Ep) as (event & _ & Hg).
    destruct (gates_proceed w event c Hg)
      as (ev & ss & en & _ & _ & _ & _ & _ & Hpc & _).
    destruct (finish_on_shape h w c d state)
      as (p & q & n & r & -> & Hp & Hpfrom & Hquery & Hn & Hnfrom
          & Hpaused & Hfocus & Hother).
    cbn [fst]. split.
    - exists p, q, n. split; [reflexivity |].
      split; [exact Hp |].
      split; [destruct Hpfrom as [-> | [path Hpath]];
              [now left | right; now exists path, (c_volume c)] |].
      split; [exact Hquery |]. split; [exact Hn |].
      split; [destruct Hnfrom as [-> | Hshow];
              [now left | right; now exists (title_of c d), (msg d)] |].
      exact Hfocus.
    - split.
      { intros Hw. rewrite <- Hpc in Hw.
        destruct (Hpaused Hw) as (-> & -> & ->). reflexivity. }
      split.
      { intros Eplat Hff. destruct (Hother Eplat Hff) as (-> & -> & ->).
        reflexivity. }
      rewrite !length_app.
      split.
      + destruct Hquery as [-> | ->]; cbn [List.length]; lia.
      + intros Ewin.
        destruct Hquery as [-> | ->]; [| rewrite (Hq2 Ewin)];
          cbn [List.length]; lia. }
  destruct Hmain as (Hdecomp & Hpaused & Hother & Hthree & Hwin).
  split; [exact Hdecomp |].
  split; [unfold focus_query; now destruct (h_platform h) |].
  now repeat split.
Qed.

(** X22: the reminder on the standard error is printed exactly for a
    [SessionStart] event that passes the gates while the pause marker
    exists; it is the notice of lines 325-327 and the first effect of
    the run. *)
Theorem paused_notice_only_on_session_start :
  forall (w : world),
    (forall line, In (EStderr line) (fst (main w)) ->
       line = paused_notice
       /\ paused_marker w = true
       /\ (exists rest, fst (main w) = EStderr paused_notice :: rest)
       /\ exists ev c,
            stdin_doc w = StdinJson (PDict ev)
            /\ gates w (PDict ev) = Ok (Proceed c)
            /\ field_of ev "hook_event_name" = PStr "SessionStart")
    /\ (forall ev c,
          stdin_doc w = StdinJson (PDict ev) ->
          gates w (PDict ev) = Ok (Proceed c) ->
          field_of ev "hook_event_name" = PStr "SessionStart" ->
          paused_marker w = true ->
          exists rest, fst (main w) = EStderr paused_notice :: rest).
Proof.
  intros w.
  assert (Hfwd : forall ev c,
            stdin_doc w = StdinJson (PDict ev) ->
            gates w (PDict ev) = Ok (Proceed c) ->
            field_of ev "hook_event_name" = PStr "SessionStart" ->
            paused_marker w = true ->
            exists rest, fst (main w) = EStderr paused_notice :: rest).
  { intros ev c Hin Hg Hname Hp.
    destruct (gates_proceed w _ c Hg)
      as (ev' & ss & en & Heq & _ & _ & _ & _ & Hpc & _ & _ & _ & _
          & Hcn & _).
    inversion Heq; subst ev'.
    rewrite (main_of_gates w _ c Hin Hg). cbn [fst].
    unfold notice_of. rewrite Hcn, Hname, Hpc, Hp. cbn.
    now exists (fst (body w c)). }
  split; [| exact Hfwd].
  intros line He.
  destruct (main_effect_inv w _ He)
    as [[doc' [event [Hx _]]]
       | [event [c [Hin [Hg [Hn | [d [st [Hd Hf]]]]]]]]].
  - discriminate Hx.
  - destruct (gates_proceed w _ c Hg)
      as (ev & ss & en & -> & _ & _ & _ & _ & Hpc & _ & _ & _ & _
          & Hcn & _).
    unfold notice_of in Hn.
    destruct (py_eqb (c_event_name c) (PStr "SessionStart")) eqn:Es;
      cbn [andb] in Hn; [| destruct Hn].
    destruct (c_paused c) eqn:Ep; [| destruct Hn].
    destruct Hn as [Hn | []]. inversion Hn. subst line.
    apply py_eqb_str_r in Es.
    assert (Hname : field_of ev "hook_event_name" = PStr "SessionStart")
      by congruence.
    assert (Hp : paused_marker w = true) by congruence.
    split; [reflexivity |]. split; [exact Hp |].
    split; [exact (Hfwd ev c Hin Hg Hname Hp) |].
    now exists ev, c.
  - exfalso.
    destruct (finish_shape w c d st)
      as [played [tail [r [Hfin [Hplayed Htail]]]]].
    rewrite Hfin in Hf. cbn [fst] in Hf.
    destruct Hf as [Hf | Hf]; [discriminate Hf |].
    apply in_app_or in Hf. destruct Hf as [Hf | Hf].
    + destruct Hplayed as [-> | [p [-> _]]]; [destruct Hf |].
      destruct Hf as [Hf | []]. discriminate Hf.
    + destruct Htail as [[-> _] | [doc [_ [_ [_ [_ [[-> _] | [-> _]]]]]]]].
      * destruct Hf.
      * destruct Hf as [Hf | []]. discriminate Hf.
      * destruct Hf as [Hf | [Hf | []]]; discriminate Hf.
Qed.
